(** * EventGo BJ: ticket inventory, purchase lifecycle, QR validation, refunds

    A shallow embedding of the Django models, serializers and views of
    [Backend/apps/tickets] and [Backend/apps/payments], followed by the
    properties of the ticketing core stated over it.

    Conventions of the embedding.
    - A table is the list of its rows; a foreign key is the primary key of
      the row it points to, and following it is a lookup that raises
      [DoesNotExist] when the row is missing.
    - A [DateTimeField] is an aware UTC instant, kept as the number of
      microseconds since the epoch.
    - A [DecimalField] value is a Python [Decimal]: an integer coefficient
      and a power of ten.
    - A database operation is a computation in the monad [M]: it threads the
      database and may raise a Python exception; what was written before the
      exception stays written, as in a request served without a transaction.
    - Text is a sequence of code points below 256. *)

From Stdlib Require Import ZArith List String Ascii Bool Lia DecimalString.
From Stdlib Require DecimalPos DecimalZ.
Import ListNotations.

Set Warnings "-register-all".

Open Scope string_scope.
Open Scope Z_scope.

(* ================================================================== *)
(** ** Python runtime *)
(* ================================================================== *)

Module Py.

(** The exceptions the modelled code can raise. *)
Inductive exn : Type :=
| ValueError (msg : string)
| TypeError (msg : string)
| AttributeError (msg : string)
| DoesNotExist (model : string)
| IntegrityError (msg : string)
| Http404.

(** [str(n)] for an integer. *)
Definition str_int (n : Z) : string := NilZero.string_of_int (Z.to_int n).

(** [str(x)] for an integer that may be [None]. *)
Definition str_opt_int (x : option Z) : string :=
  match x with
  | Some n => str_int n
  | None => "None"
  end.

(** [int(s)] on a decimal literal with an optional minus sign, the form
    [str(n)] writes; [None] stands for the [ValueError].  The other
    spellings [int] reads (a plus sign, surrounding white space,
    underscores between digits) are not read here. *)
Definition int_of_str (s : string) : option Z :=
  option_map Z.of_int (NilZero.int_of_string s).

Definition upper_char (c : ascii) : ascii :=
  let n := nat_of_ascii c in
  if (97 <=? n)%nat && (n <=? 122)%nat then ascii_of_nat (n - 32) else c.

(** [s.upper()] *)
Fixpoint upper (s : string) : string :=
  match s with
  | EmptyString => EmptyString
  | String c r => String (upper_char c) (upper r)
  end.

(** [s[:n]] *)
Definition prefix_slice (n : nat) (s : string) : string := substring 0 n s.

(** Truth value of a string: [not s] holds for the empty string only. *)
Definition truthy_str (s : string) : bool := negb (s =? EmptyString)%string.

(** [x in xs] for strings. *)
Definition str_in (x : string) (xs : list string) : bool :=
  existsb (String.eqb x) xs.

(** [c.isspace()] for a character below 256. *)
Definition is_space (c : ascii) : bool :=
  let n := nat_of_ascii c in
  ((9 <=? n)%nat && (n <=? 13)%nat) || ((28 <=? n)%nat && (n <=? 32)%nat)
  || (n =? 133)%nat || (n =? 160)%nat.

(** [s.lstrip()] *)
Fixpoint lstrip (s : string) : string :=
  match s with
  | EmptyString => EmptyString
  | String c r => if is_space c then lstrip r else s
  end.

(** [s.rstrip()] *)
Fixpoint rstrip (s : string) : string :=
  match s with
  | EmptyString => EmptyString
  | String c r =>
      match rstrip r with
      | EmptyString => if is_space c then EmptyString else String c EmptyString
      | r' => String c r'
      end
  end.

(** [s.strip()] *)
Definition strip (s : string) : string := rstrip (lstrip s).

(** [c in s] for a character. *)
Fixpoint has_char (c : ascii) (s : string) : bool :=
  match s with
  | EmptyString => false
  | String x r => Ascii.eqb x c || has_char c r
  end.

Fixpoint zeros (n : nat) : string :=
  match n with
  | O => EmptyString
  | S k => String "0" (zeros k)
  end.

(** Left-padding of a number with zeros, as in [%02d]. *)
Definition zero_pad (width : nat) (s : string) : string :=
  zeros (width - String.length s) ++ s.

End Py.

(* ================================================================== *)
(** ** [decimal.Decimal] *)
(* ================================================================== *)

(** A finite decimal [coefficient * 10 ^ exponent]; the sign is the sign of
    the coefficient. *)
Record Decimal : Type := mkDecimal { coefficient : Z; exponent : Z }.

Module Dec.

(** Precision of the default arithmetic context. *)
Definition prec : Z := 28.

(** [Decimal('0.00')] *)
Definition zero2 : Decimal := mkDecimal 0 (-2).

(** [Decimal(n)] for an integer [n]. *)
Definition of_int (n : Z) : Decimal := mkDecimal n 0.

Fixpoint ndigits_fuel (fuel : nat) (n : Z) : Z :=
  match fuel with
  | O => 1
  | S f => if n <? 10 then 1 else 1 + ndigits_fuel f (n / 10)
  end.

(** Number of decimal digits of a non-negative coefficient. *)
Definition ndigits (n : Z) : Z := ndigits_fuel (Z.to_nat (Z.log2 n)) n.

(** Drop the last [k] digits of [c >= 0], rounding half to even. *)
Definition round_half_even (c k : Z) : Z :=
  let q := c / 10 ^ k in
  let r := c mod 10 ^ k in
  let half := 10 ^ k / 2 in
  if r <? half then q
  else if half <? r then q + 1
  else if Z.even q then q else q + 1.

(** Rounding of a result to the context precision ([Decimal._fix] with
    the default context; the exponent limits of the context, +-999999,
    are far from any exponent met here). *)
Definition fix_ (d : Decimal) : Decimal :=
  let c := Z.abs (coefficient d) in
  if c <? 10 ^ prec then d
  else
    let k := ndigits c - prec in
    let q := round_half_even c k in
    if q =? 10 ^ prec
    then mkDecimal (Z.sgn (coefficient d) * (q / 10)) (exponent d + k + 1)
    else mkDecimal (Z.sgn (coefficient d) * q) (exponent d + k).

(** [a * b] *)
Definition mul (a b : Decimal) : Decimal :=
  fix_ (mkDecimal (coefficient a * coefficient b) (exponent a + exponent b)).

(** [d * n] for an integer [n]: the integer is converted first. *)
Definition mul_int (d : Decimal) (n : Z) : Decimal := mul d (of_int n).

(** Comparison is exact: both sides are brought to the smaller exponent. *)
Definition compare (a b : Decimal) : comparison :=
  let m := Z.min (exponent a) (exponent b) in
  Z.compare (coefficient a * 10 ^ (exponent a - m))
            (coefficient b * 10 ^ (exponent b - m)).

Definition ltb (a b : Decimal) : bool :=
  match compare a b with Lt => true | _ => false end.
Definition leb (a b : Decimal) : bool :=
  match compare a b with Gt => false | _ => true end.
Definition gtb (a b : Decimal) : bool := ltb b a.

End Dec.

(* ================================================================== *)
(** ** [json] *)
(* ================================================================== *)

Inductive json : Type :=
| JNull
| JBool (b : bool)
| JInt (n : Z)
| JStr (s : string)
| JList (items : list json)
| JDict (items : list (string * json)).

Module Json.

(** The double quote character. *)
Definition dquote : ascii := ascii_of_nat 34.

Definition hex_digit (n : nat) : ascii :=
  ascii_of_nat (if (n <? 10)%nat then 48 + n else 87 + n).

(** One character inside a string literal, as [json.dumps] writes it with
    [ensure_ascii=True]. *)
Definition escape_char (c : ascii) : string :=
  let n := nat_of_ascii c in
  if (n =? 34)%nat then String "\" (String dquote EmptyString)
  else if (n =? 92)%nat then "\\"
  else if (n =? 10)%nat then "\n"
  else if (n =? 13)%nat then "\r"
  else if (n =? 9)%nat then "\t"
  else if (n =? 8)%nat then "\b"
  else if (n =? 12)%nat then "\f"
  else if (32 <=? n)%nat && (n <=? 126)%nat then String c EmptyString
  else "\u00" ++ String (hex_digit (n / 16)) (String (hex_digit (n mod 16)) EmptyString).

Fixpoint escape (s : string) : string :=
  match s with
  | EmptyString => EmptyString
  | String c r => escape_char c ++ escape r
  end.

Definition quote (s : string) : string :=
  String dquote (escape s ++ String dquote EmptyString).

(** [json.dumps(j)] with the default separators. *)
Fixpoint dumps (j : json) : string :=
  match j with
  | JNull => "null"
  | JBool true => "true"
  | JBool false => "false"
  | JInt n => Py.str_int n
  | JStr s => quote s
  | JList items =>
      "[" ++
      (fix go (l : list json) : string :=
         match l with
         | [] => EmptyString
         | x :: r =>
             match r with
             | [] => dumps x
             | _ :: _ => dumps x ++ ", " ++ go r
             end
         end) items ++ "]"
  | JDict items =>
      "{" ++
      (fix go (l : list (string * json)) : string :=
         match l with
         | [] => EmptyString
         | (k, v) :: r =>
             match r with
             | [] => quote k ++ ": " ++ dumps v
             | _ :: _ => quote k ++ ": " ++ dumps v ++ ", " ++ go r
             end
         end) items ++ "}"
  end.

(** [d.get(key)]: [None] is Python's [None], for a missing key too. *)
Fixpoint get (items : list (string * json)) (key : string) : option json :=
  match items with
  | [] => None
  | (k, v) :: r => if (k =? key)%string then Some v else get r key
  end.

(** [type(j).__name__] of a decoded JSON value. *)
Definition type_name (j : json) : string :=
  match j with
  | JNull => "NoneType"
  | JBool _ => "bool"
  | JInt _ => "int"
  | JStr _ => "str"
  | JList _ => "list"
  | JDict _ => "dict"
  end.

(** Truth value of a decoded JSON value. *)
Definition truthy (j : json) : bool :=
  match j with
  | JNull => false
  | JBool b => b
  | JInt n => negb (n =? 0)
  | JStr s => Py.truthy_str s
  | JList l => match l with [] => false | _ => true end
  | JDict l => match l with [] => false | _ => true end
  end.

End Json.

(* ================================================================== *)
(** ** [datetime] *)
(* ================================================================== *)

Module Datetime.

Definition microsecond : Z := 1.
Definition second : Z := 1000000.
Definition hour : Z := 3600 * second.
Definition day : Z := 24 * hour.

(** [timedelta(hours=n)] *)
Definition timedelta_hours (n : Z) : Z := n * hour.

(** [t.date()], as the number of days since the epoch. *)
Definition date (t : Z) : Z := t / day.

(** Year, month and day of a day number (proleptic Gregorian calendar). *)
Definition civil_from_days (d : Z) : Z * Z * Z :=
  let z := d + 719468 in
  let era := z / 146097 in
  let doe := z - era * 146097 in
  let yoe := (doe - doe / 1460 + doe / 36524 - doe / 146096) / 365 in
  let doy := doe - (365 * yoe + yoe / 4 - yoe / 100) in
  let mp := (5 * doy + 2) / 153 in
  let dd := doy - (153 * mp + 2) / 5 + 1 in
  let mm := if mp <? 10 then mp + 3 else mp - 9 in
  let yy := yoe + era * 400 in
  (if mm <=? 2 then yy + 1 else yy, mm, dd).

Definition pad (width : nat) (n : Z) : string :=
  Py.zero_pad width (Py.str_int n).

(** [t.isoformat()] for an aware UTC instant. *)
Definition isoformat (t : Z) : string :=
  let '(yy, mm, dd) := civil_from_days (date t) in
  let rest := t mod day in
  let us := rest mod second in
  let secs := rest / second in
  pad 4 yy ++ "-" ++ pad 2 mm ++ "-" ++ pad 2 dd ++ "T" ++
  pad 2 (secs / 3600) ++ ":" ++ pad 2 (secs / 60 mod 60) ++ ":" ++
  pad 2 (secs mod 60) ++
  (if us =? 0 then EmptyString else "." ++ pad 6 us) ++ "+00:00".

End Datetime.

(* ================================================================== *)
(** ** The tables *)
(* ================================================================== *)

(** [events.Event]: the columns the ticketing core reads. *)
Module Event.
Record t : Type := mk
  { id : Z;
    title : string;
    start_datetime : Z;
    end_datetime : Z }.
End Event.

(** [users.User]: the columns the ticketing core reads. *)
Module User.
Record t : Type := mk
  { id : Z;
    email : string;
    role : string }.
End User.

(** [tickets.Ticket] *)
Module Ticket.
Record t : Type := mk
  { id : Z;
    name : string;
    price : Decimal;
    quantity_available : Z;
    quantity_sold : Z;
    event : Z;
    is_active : bool;
    sale_start_datetime : option Z;
    sale_end_datetime : option Z }.

Definition with_quantity_sold (n : Z) (x : t) : t :=
  mk (id x) (name x) (price x) (quantity_available x) n (event x)
     (is_active x) (sale_start_datetime x) (sale_end_datetime x).
End Ticket.

(** [tickets.Purchase].  [id] is [None] on an instance that was never
    saved; [total_amount] is [None] when the caller gave none; [qr_code] is
    the name of the stored image, empty when there is no image. *)
Module Purchase.
Record t : Type := mk
  { id : option Z;
    ticket : Z;
    user : Z;
    quantity : Z;
    unit_price : Decimal;
    total_amount : option Decimal;
    status : string;
    qr_code : string;
    qr_code_data : string;
    purchase_reference : string;
    payment_method : string;
    payment_reference : string;
    created_at : option Z;
    updated_at : option Z;
    paid_at : option Z }.

Definition with_id (v : option Z) (x : t) : t :=
  mk v (ticket x) (user x) (quantity x) (unit_price x) (total_amount x)
     (status x) (qr_code x) (qr_code_data x) (purchase_reference x)
     (payment_method x) (payment_reference x) (created_at x)
     (updated_at x) (paid_at x).
Definition with_total_amount (v : option Decimal) (x : t) : t :=
  mk (id x) (ticket x) (user x) (quantity x) (unit_price x) v
     (status x) (qr_code x) (qr_code_data x) (purchase_reference x)
     (payment_method x) (payment_reference x) (created_at x)
     (updated_at x) (paid_at x).
Definition with_status (v : string) (x : t) : t :=
  mk (id x) (ticket x) (user x) (quantity x) (unit_price x) (total_amount x)
     v (qr_code x) (qr_code_data x) (purchase_reference x)
     (payment_method x) (payment_reference x) (created_at x)
     (updated_at x) (paid_at x).
Definition with_qr_code (v : string) (x : t) : t :=
  mk (id x) (ticket x) (user x) (quantity x) (unit_price x) (total_amount x)
     (status x) v (qr_code_data x) (purchase_reference x)
     (payment_method x) (payment_reference x) (created_at x)
     (updated_at x) (paid_at x).
Definition with_qr_code_data (v : string) (x : t) : t :=
  mk (id x) (ticket x) (user x) (quantity x) (unit_price x) (total_amount x)
     (status x) (qr_code x) v (purchase_reference x)
     (payment_method x) (payment_reference x) (created_at x)
     (updated_at x) (paid_at x).
Definition with_purchase_reference (v : string) (x : t) : t :=
  mk (id x) (ticket x) (user x) (quantity x) (unit_price x) (total_amount x)
     (status x) (qr_code x) (qr_code_data x) v
     (payment_method x) (payment_reference x) (created_at x)
     (updated_at x) (paid_at x).
Definition with_created_at (v : option Z) (x : t) : t :=
  mk (id x) (ticket x) (user x) (quantity x) (unit_price x) (total_amount x)
     (status x) (qr_code x) (qr_code_data x) (purchase_reference x)
     (payment_method x) (payment_reference x) v
     (updated_at x) (paid_at x).
Definition with_updated_at (v : option Z) (x : t) : t :=
  mk (id x) (ticket x) (user x) (quantity x) (unit_price x) (total_amount x)
     (status x) (qr_code x) (qr_code_data x) (purchase_reference x)
     (payment_method x) (payment_reference x) (created_at x)
     v (paid_at x).
Definition with_paid_at (v : option Z) (x : t) : t :=
  mk (id x) (ticket x) (user x) (quantity x) (unit_price x) (total_amount x)
     (status x) (qr_code x) (qr_code_data x) (purchase_reference x)
     (payment_method x) (payment_reference x) (created_at x)
     (updated_at x) v.
End Purchase.

(** [tickets.TicketValidation] *)
Module TicketValidation.
Record t : Type := mk
  { id : Z;
    purchase : Z;
    validated_by : Z;
    validation_datetime : Z;
    location : string;
    notes : string }.
End TicketValidation.

(** [payments.Payment].  The model declares [method]; it declares no
    [payment_method]. *)
Module Payment.
Record t : Type := mk
  { id : Z;
    payment_reference : string;
    amount : Decimal;
    method : string;
    status : string;
    user : Z;
    purchase : option Z }.
End Payment.

(** [payments.RefundRequest] *)
Module RefundRequest.
Record t : Type := mk
  { id : option Z;
    payment : Z;
    requested_by : Z;
    amount : Decimal;
    reason : string;
    status : string;
    reviewed_by : option Z;
    admin_notes : string;
    refund_reference : string;
    processed_amount : option Decimal;
    created_at : option Z;
    updated_at : option Z;
    processed_at : option Z }.

Definition with_id (v : option Z) (x : t) : t :=
  mk v (payment x) (requested_by x) (amount x) (reason x) (status x)
     (reviewed_by x) (admin_notes x) (refund_reference x)
     (processed_amount x) (created_at x) (updated_at x) (processed_at x).
Definition with_status (v : string) (x : t) : t :=
  mk (id x) (payment x) (requested_by x) (amount x) (reason x) v
     (reviewed_by x) (admin_notes x) (refund_reference x)
     (processed_amount x) (created_at x) (updated_at x) (processed_at x).
Definition with_reviewed_by (v : option Z) (x : t) : t :=
  mk (id x) (payment x) (requested_by x) (amount x) (reason x) (status x)
     v (admin_notes x) (refund_reference x)
     (processed_amount x) (created_at x) (updated_at x) (processed_at x).
Definition with_admin_notes (v : string) (x : t) : t :=
  mk (id x) (payment x) (requested_by x) (amount x) (reason x) (status x)
     (reviewed_by x) v (refund_reference x)
     (processed_amount x) (created_at x) (updated_at x) (processed_at x).
Definition with_refund_reference (v : string) (x : t) : t :=
  mk (id x) (payment x) (requested_by x) (amount x) (reason x) (status x)
     (reviewed_by x) (admin_notes x) v
     (processed_amount x) (created_at x) (updated_at x) (processed_at x).
Definition with_processed_amount (v : option Decimal) (x : t) : t :=
  mk (id x) (payment x) (requested_by x) (amount x) (reason x) (status x)
     (reviewed_by x) (admin_notes x) (refund_reference x)
     v (created_at x) (updated_at x) (processed_at x).
Definition with_created_at (v : option Z) (x : t) : t :=
  mk (id x) (payment x) (requested_by x) (amount x) (reason x) (status x)
     (reviewed_by x) (admin_notes x) (refund_reference x)
     (processed_amount x) v (updated_at x) (processed_at x).
Definition with_updated_at (v : option Z) (x : t) : t :=
  mk (id x) (payment x) (requested_by x) (amount x) (reason x) (status x)
     (reviewed_by x) (admin_notes x) (refund_reference x)
     (processed_amount x) (created_at x) v (processed_at x).
Definition with_processed_at (v : option Z) (x : t) : t :=
  mk (id x) (payment x) (requested_by x) (amount x) (reason x) (status x)
     (reviewed_by x) (admin_notes x) (refund_reference x)
     (processed_amount x) (created_at x) (updated_at x) v.
End RefundRequest.

(** [payments.Refund] *)
Module Refund.
Record t : Type := mk
  { id : Z;
    payment : Z;
    refund_request : Z;
    amount : Decimal;
    refund_reference : string;
    refund_method : string;
    status : string;
    processed_at : option Z }.
End Refund.

(** The database: one list of rows per table. *)
Record DB : Type := mkDB
  { events : list Event.t;
    users : list User.t;
    tickets : list Ticket.t;
    purchases : list Purchase.t;
    validations : list TicketValidation.t;
    payments : list Payment.t;
    refund_requests : list RefundRequest.t;
    refunds : list Refund.t }.

Definition with_tickets (v : list Ticket.t) (db : DB) : DB :=
  mkDB (events db) (users db) v (purchases db) (validations db)
       (payments db) (refund_requests db) (refunds db).
Definition with_purchases (v : list Purchase.t) (db : DB) : DB :=
  mkDB (events db) (users db) (tickets db) v (validations db)
       (payments db) (refund_requests db) (refunds db).
Definition with_validations (v : list TicketValidation.t) (db : DB) : DB :=
  mkDB (events db) (users db) (tickets db) (purchases db) v
       (payments db) (refund_requests db) (refunds db).
Definition with_refund_requests (v : list RefundRequest.t) (db : DB) : DB :=
  mkDB (events db) (users db) (tickets db) (purchases db) (validations db)
       (payments db) v (refunds db).
Definition with_refunds (v : list Refund.t) (db : DB) : DB :=
  mkDB (events db) (users db) (tickets db) (purchases db) (validations db)
       (payments db) (refund_requests db) v.

(** What a request reads from outside the database: the clock
    ([timezone.now()]), the hexadecimal text of a fresh [uuid.uuid4()], and
    the numerator [k] of the draw [random.random() = k / 2^53]. *)
Record Env : Type := mkEnv
  { now : Z;
    uuid4_hex : string;
    random_53 : Z }.

(* ================================================================== *)
(** ** Database computations *)
(* ================================================================== *)

Inductive outcome (A : Type) : Type :=
| Ok (a : A)
| Raise (e : Py.exn).
Arguments Ok {A} a.
Arguments Raise {A} e.

(** A computation reads and writes the database and returns or raises. *)
Definition M (A : Type) : Type := DB -> outcome A * DB.

Definition ret {A : Type} (a : A) : M A := fun db => (Ok a, db).

Definition raise {A : Type} (e : Py.exn) : M A := fun db => (Raise e, db).

Definition bind {A B : Type} (m : M A) (k : A -> M B) : M B :=
  fun db =>
    match m db with
    | (Ok a, db') => k a db'
    | (Raise e, db') => (Raise e, db')
    end.

Definition gets {A : Type} (f : DB -> A) : M A := fun db => (Ok (f db), db).

Definition modify (f : DB -> DB) : M unit := fun db => (Ok tt, f db).

Notation "x <- c ;; k" := (bind c (fun x => k))
  (at level 61, c at next level, right associativity).
Notation "c ;;; k" := (bind c (fun _ => k))
  (at level 61, right associativity).

(** [Model.objects.get(pk=k)] on a table. *)
Definition get_or_raise {A : Type} (model : string) (r : option A) : M A :=
  match r with
  | Some a => ret a
  | None => raise (Py.DoesNotExist model)
  end.

(** The key the database gives to a new row. *)
Definition next_id (ids : list Z) : Z := 1 + fold_right Z.max 0 ids.

Definition find_event (k : Z) (db : DB) : option Event.t :=
  find (fun r => Event.id r =? k) (events db).
Definition find_user (k : Z) (db : DB) : option User.t :=
  find (fun r => User.id r =? k) (users db).
Definition find_ticket (k : Z) (db : DB) : option Ticket.t :=
  find (fun r => Ticket.id r =? k) (tickets db).
Definition find_payment (k : Z) (db : DB) : option Payment.t :=
  find (fun r => Payment.id r =? k) (payments db).

Definition has_pk (k : Z) (x : option Z) : bool :=
  match x with
  | Some j => j =? k
  | None => false
  end.

Definition find_purchase (k : Z) (db : DB) : option Purchase.t :=
  find (fun r => has_pk k (Purchase.id r)) (purchases db).
Definition find_refund_request (k : Z) (db : DB) : option RefundRequest.t :=
  find (fun r => has_pk k (RefundRequest.id r)) (refund_requests db).

Definition Event_get (k : Z) : M Event.t :=
  fun db => get_or_raise "Event" (find_event k db) db.
Definition User_get (k : Z) : M User.t :=
  fun db => get_or_raise "User" (find_user k db) db.
Definition Ticket_get (k : Z) : M Ticket.t :=
  fun db => get_or_raise "Ticket" (find_ticket k db) db.
Definition Payment_get (k : Z) : M Payment.t :=
  fun db => get_or_raise "Payment" (find_payment k db) db.

(* ================================================================== *)
(** ** [apps/events/models.py] *)
(* ================================================================== *)

(** [Event.is_past] *)
Definition Event_is_past (env : Env) (self : Event.t) : bool :=
  Event.end_datetime self <? now env.

(* ================================================================== *)
(** ** [apps/tickets/models.py]: [Ticket] *)
(* ================================================================== *)

(** [Ticket.quantity_remaining] *)
Definition Ticket_quantity_remaining (self : Ticket.t) : Z :=
  Z.max 0 (Ticket.quantity_available self - Ticket.quantity_sold self).

(** [Ticket.is_sold_out] *)
Definition Ticket_is_sold_out (self : Ticket.t) : bool :=
  Ticket_quantity_remaining self =? 0.

(** [Ticket.is_available_for_sale].  A bound that is set is a datetime and
    so is true as a condition; a bound that is [None] is skipped. *)
Definition Ticket_is_available_for_sale (env : Env) (self : Ticket.t) : bool :=
  if negb (Ticket.is_active self) || Ticket_is_sold_out self then false
  else if match Ticket.sale_start_datetime self with
          | Some s => now env <? s
          | None => false
          end then false
  else if match Ticket.sale_end_datetime self with
          | Some e => e <? now env
          | None => false
          end then false
  else true.

(** [Ticket.can_purchase] *)
Definition Ticket_can_purchase (env : Env) (self : Ticket.t) (quantity : Z) : bool :=
  Ticket_is_available_for_sale env self
  && (quantity <=? Ticket_quantity_remaining self)
  && (0 <? quantity).

(* ================================================================== *)
(** ** [apps/tickets/models.py]: [Purchase] *)
(* ================================================================== *)

Definition upload_to : string := "tickets/qrcodes/".

(** [Purchase.generate_purchase_reference] *)
Definition Purchase_generate_purchase_reference (env : Env) : string :=
  "EVT-" ++ Py.upper (Py.prefix_slice 8 (uuid4_hex env)).

(** The dictionary [qr_data] of [Purchase.generate_qr_code]. *)
Definition qr_data (self : Purchase.t) (t : Ticket.t) (e : Event.t) (u : User.t) : json :=
  JDict
    [ ("purchase_id", JStr (Py.str_opt_int (Purchase.id self)));
      ("reference", JStr (Purchase.purchase_reference self));
      ("event_id", JStr (Py.str_int (Event.id e)));
      ("event_title", JStr (Event.title e));
      ("ticket_name", JStr (Ticket.name t));
      ("quantity", JInt (Purchase.quantity self));
      ("user_email", JStr (User.email u));
      ("purchase_date",
        match Purchase.created_at self with
        | Some c => JStr (Datetime.isoformat c)
        | None => JNull
        end) ].

(** [Purchase.generate_qr_code].  The image is kept by the name it is saved
    under; its pixels are not modelled. *)
Definition Purchase_generate_qr_code (self : Purchase.t) : M Purchase.t :=
  t <- Ticket_get (Purchase.ticket self) ;;
  e <- Event_get (Ticket.event t) ;;
  u <- User_get (Purchase.user self) ;;
  let self := Purchase.with_qr_code_data (Json.dumps (qr_data self t e u)) self in
  let filename := "qr_" ++ Purchase.purchase_reference self ++ ".png" in
  ret (Purchase.with_qr_code (upload_to ++ filename) self).

(** The rows that count as sold for a ticket: [filter(ticket=..., status='paid')]. *)
Definition paid_purchases (rows : list Purchase.t) (ticket_id : Z) : list Purchase.t :=
  filter (fun r => (Purchase.ticket r =? ticket_id)
                   && (Purchase.status r =? "paid")%string) rows.

(** [aggregate(Sum(...))]: [None] over no rows. *)
Definition Sum (values : list Z) : option Z :=
  match values with
  | [] => None
  | _ :: _ => Some (fold_right Z.add 0 values)
  end.

(** [x or 0] *)
Definition or_0 (x : option Z) : Z :=
  match x with
  | Some n => n
  | None => 0
  end.

(** [ticket.save(update_fields=['quantity_sold'])] *)
Definition Ticket_save_quantity_sold (ticket_id : Z) (n : Z) : M unit :=
  modify (fun db =>
    with_tickets
      (map (fun r => if Ticket.id r =? ticket_id
                     then Ticket.with_quantity_sold n r else r) (tickets db))
      db).

(** [Purchase.update_ticket_quantity] *)
Definition Purchase_update_ticket_quantity (self : Purchase.t) : M unit :=
  t <- Ticket_get (Purchase.ticket self) ;;
  rows <- gets purchases ;;
  let total_sold := Sum (map Purchase.quantity (paid_purchases rows (Ticket.id t))) in
  Ticket_save_quantity_sold (Ticket.id t) (or_0 total_sold).

(** Does another row already carry this purchase reference?  The column is
    declared [unique=True]. *)
Definition reference_taken (rows : list Purchase.t) (self : Purchase.t) : bool :=
  existsb (fun r =>
    (Purchase.purchase_reference r =? Purchase.purchase_reference self)%string
    && negb (match Purchase.id self with
             | Some k => has_pk k (Purchase.id r)
             | None => false
             end)) rows.

(** [models.Model.save] for a purchase: an update of the row with this key
    when there is one, an insert otherwise.  [auto_now] stamps [updated_at]
    on every save and [auto_now_add] stamps [created_at] on insert.  The row
    is written with the values of the instance, which is what the database
    does with values its columns hold: two decimals and at most ten digits
    for [unit_price] and [total_amount], 0 to 2147483647 for [quantity].
    What a database makes of other values (rounding, overflow, a failed
    check) depends on the backend and is not part of the embedding; the
    properties on amounts are stated for values the columns hold. *)
Definition Purchase_Model_save (env : Env) (self : Purchase.t) : M Purchase.t :=
  fun db =>
    let rows := purchases db in
    if reference_taken rows self
    then (Raise (Py.IntegrityError "purchases.purchase_reference"), db)
    else
      let self := Purchase.with_updated_at (Some (now env)) self in
      match Purchase.id self with
      | Some k =>
          if existsb (fun r => has_pk k (Purchase.id r)) rows
          then (Ok self,
                with_purchases
                  (map (fun r => if has_pk k (Purchase.id r) then self else r) rows)
                  db)
          else
            let self := Purchase.with_created_at (Some (now env)) self in
            (Ok self, with_purchases (rows ++ [self])%list db)
      | None =>
          let k := next_id (map (fun r => or_0 (Purchase.id r)) rows) in
          let self := Purchase.with_created_at (Some (now env))
                        (Purchase.with_id (Some k) self) in
          (Ok self, with_purchases (rows ++ [self])%list db)
      end.

(** [Purchase.save] *)
Definition Purchase_save (env : Env) (self : Purchase.t) : M Purchase.t :=
  let self :=
    if negb (Py.truthy_str (Purchase.purchase_reference self))
    then Purchase.with_purchase_reference
           (Purchase_generate_purchase_reference env) self
    else self in
  let self :=
    Purchase.with_total_amount
      (Some (Dec.mul_int (Purchase.unit_price self) (Purchase.quantity self)))
      self in
  self <- (if (Purchase.status self =? "paid")%string
              && negb (Py.truthy_str (Purchase.qr_code self))
           then Purchase_generate_qr_code self
           else ret self) ;;
  let self :=
    if (Purchase.status self =? "paid")%string
       && match Purchase.paid_at self with Some _ => false | None => true end
    then Purchase.with_paid_at (Some (now env)) self
    else self in
  self <- Purchase_Model_save env self ;;
  if match Purchase.id self with Some k => negb (k =? 0) | None => false end
  then Purchase_update_ticket_quantity self ;;; ret self
  else ret self.

(** [Purchase.can_be_cancelled] *)
Definition Purchase_can_be_cancelled (env : Env) (self : Purchase.t) : M bool :=
  if negb (Py.str_in (Purchase.status self) ["pending"; "paid"]) then ret false
  else
    t <- Ticket_get (Purchase.ticket self) ;;
    e <- Event_get (Ticket.event t) ;;
    if Event.start_datetime e <=? now env then ret false
    else ret true.

(** [Purchase.cancel] *)
Definition Purchase_cancel (env : Env) (self : Purchase.t) : M Purchase.t :=
  c <- Purchase_can_be_cancelled env self ;;
  if negb c then raise (Py.ValueError "Purchase cannot be cancelled")
  else Purchase_save env (Purchase.with_status "cancelled" self).

(** [PurchaseCreateSerializer.create]: [validated_data] holds the five
    declared fields; the serializer adds [total_amount] and hands over to
    [Purchase.objects.create], which saves a new instance. *)
Definition PurchaseCreateSerializer_create (env : Env)
    (ticket user quantity : Z) (unit_price : Decimal) (payment_method : string)
    : M Purchase.t :=
  let total_amount := Dec.mul_int unit_price quantity in
  Purchase_save env
    (Purchase.mk None ticket user quantity unit_price (Some total_amount)
       "pending" EmptyString EmptyString EmptyString payment_method
       EmptyString None None None).

(* ================================================================== *)
(** ** HTTP responses *)
(* ================================================================== *)

(** The body of a response, by the keys the views put in it. *)
Inductive Data : Type :=
| ErrorData (error : string) (details : option string)
| SerializerErrors (errors : list (string * string))
| ValidationWarning (warning : string) (validation : TicketValidation.t)
| ValidationSuccess (message : string) (validation : TicketValidation.t)
| RefundRequestData (refund_request : RefundRequest.t).

Record Response : Type := mkResponse
  { status_code : Z;
    data : Data }.

Definition HTTP_200_OK : Z := 200.
Definition HTTP_201_CREATED : Z := 201.
Definition HTTP_400_BAD_REQUEST : Z := 400.
Definition HTTP_403_FORBIDDEN : Z := 403.
Definition HTTP_404_NOT_FOUND : Z := 404.
Definition HTTP_500_INTERNAL_SERVER_ERROR : Z := 500.

(** [str(e)] *)
Definition str_exn (e : Py.exn) : string :=
  match e with
  | Py.ValueError msg => msg
  | Py.TypeError msg => msg
  | Py.AttributeError msg => msg
  | Py.DoesNotExist model => model ++ " matching query does not exist."
  | Py.IntegrityError msg => "UNIQUE constraint failed: " ++ msg
  | Py.Http404 => "No Purchase matches the given query."
  end.

(* ================================================================== *)
(** ** [apps/tickets/views.py]: [TicketValidationViewSet.validate_qr] *)
(* ================================================================== *)

(** The request data of [QRCodeValidationSerializer], after the trimming of
    white space that a [CharField] performs. *)
Record QRCodeValidationRequest : Type := mkQRCodeValidationRequest
  { qr_code_data : option string;
    location : option string;
    notes : option string }.

(** [serializer.errors] of [QRCodeValidationSerializer]: [qr_code_data] is
    required, no field may be blank, [location] holds at most 100
    characters. *)
Definition QRCodeValidationSerializer_errors (d : QRCodeValidationRequest)
    : list (string * string) :=
  (match qr_code_data d with
   | None => [("qr_code_data", "This field is required.")]
   | Some s => if Py.truthy_str s then []
               else [("qr_code_data", "This field may not be blank.")]
   end ++
   match location d with
   | None => []
   | Some s =>
       if negb (Py.truthy_str s)
       then [("location", "This field may not be blank.")]
       else if (100 <? String.length s)%nat
       then [("location", "Ensure this field has no more than 100 characters.")]
       else []
   end ++
   match notes d with
   | None => []
   | Some s => if Py.truthy_str s then []
               else [("notes", "This field may not be blank.")]
   end)%list.

(** [validated_data.get(key, '')] *)
Definition get_or_empty (x : option string) : string :=
  match x with
  | Some s => s
  | None => EmptyString
  end.

(** The key a decoded [purchase_id] stands for in [filter(id=...)]: an
    integer, or text that [int()] accepts; anything else is refused. *)
Definition to_pk (j : json) : M Z :=
  match j with
  | JInt n => ret n
  | JBool b => ret (if b then 1 else 0)
  | JStr s =>
      match Py.int_of_str s with
      | Some n => ret n
      | None => raise (Py.ValueError ("Field 'id' expected a number but got '" ++ s ++ "'."))
      end
  | _ => raise (Py.TypeError "Field 'id' expected a number.")
  end.

(** [get_object_or_404(Purchase, id=purchase_id)] *)
Definition get_Purchase_or_404 (purchase_id : json) : M (Z * Purchase.t) :=
  k <- to_pk purchase_id ;;
  r <- gets (find_purchase k) ;;
  match r with
  | Some p => ret (k, p)
  | None => raise Py.Http404
  end.

(** [queryset.first()] on a query without ordering: the row with the
    smallest key. *)
Fixpoint first (rows : list TicketValidation.t) : option TicketValidation.t :=
  match rows with
  | [] => None
  | x :: r =>
      match first r with
      | None => Some x
      | Some y => if TicketValidation.id x <=? TicketValidation.id y
                  then Some x else Some y
      end
  end.

(** [filter(purchase=purchase, validation_datetime__gte=since)] *)
Definition recent_validations (rows : list TicketValidation.t)
    (purchase_id since : Z) : list TicketValidation.t :=
  filter (fun v => (TicketValidation.purchase v =? purchase_id)
                   && (since <=? TicketValidation.validation_datetime v)) rows.

(** [TicketValidation.objects.create(...)] *)
Definition TicketValidation_create (env : Env)
    (purchase_id validated_by : Z) (location notes : string)
    : M TicketValidation.t :=
  fun db =>
    let rows := validations db in
    let v := TicketValidation.mk
               (next_id (map TicketValidation.id rows))
               purchase_id validated_by (now env) location notes in
    (Ok v, with_validations (rows ++ [v])%list db).

(** The [try] block of [validate_qr], from the decoded payload on. *)
Definition validate_qr_body (env : Env) (request_user : Z)
    (qr : json) (location notes : string) : M Response :=
  purchase_id <-
    match qr with
    | JDict items => ret (Json.get items "purchase_id")
    | _ => raise (Py.AttributeError
                    ("'" ++ Json.type_name qr ++ "' object has no attribute 'get'"))
    end ;;
  match purchase_id with
  | None =>
      ret (mkResponse HTTP_400_BAD_REQUEST (ErrorData "Invalid QR code format" None))
  | Some j =>
      if negb (Json.truthy j)
      then ret (mkResponse HTTP_400_BAD_REQUEST (ErrorData "Invalid QR code format" None))
      else
        kp <- get_Purchase_or_404 j ;;
        let '(k, purchase) := kp in
        if negb (Purchase.status purchase =? "paid")%string
        then ret (mkResponse HTTP_400_BAD_REQUEST
                    (ErrorData "Ticket is not valid for entry"
                               (Some (Purchase.status purchase))))
        else
          t <- Ticket_get (Purchase.ticket purchase) ;;
          event <- Event_get (Ticket.event t) ;;
          if Event.end_datetime event <? now env
          then ret (mkResponse HTTP_400_BAD_REQUEST (ErrorData "Event has ended" None))
          else if Datetime.date (now env) <? Datetime.date (Event.start_datetime event)
          then ret (mkResponse HTTP_400_BAD_REQUEST
                      (ErrorData "Event has not started yet" None))
          else
            rows <- gets validations ;;
            match first (recent_validations rows k
                           (now env - Datetime.timedelta_hours 1)) with
            | Some recent_validation =>
                ret (mkResponse HTTP_200_OK
                       (ValidationWarning "Ticket was already validated recently"
                                          recent_validation))
            | None =>
                validation <- TicketValidation_create env k request_user location notes ;;
                ret (mkResponse HTTP_200_OK
                       (ValidationSuccess "Ticket validated successfully" validation))
            end
  end.

(** [TicketValidationViewSet.validate_qr].  [json_loads] is [json.loads];
    it gives [None] where Python raises [JSONDecodeError]. *)
Definition validate_qr (json_loads : string -> option json) (env : Env)
    (request_user : Z) (request_data : QRCodeValidationRequest)
    : DB -> Response * DB :=
  fun db =>
    match QRCodeValidationSerializer_errors request_data with
    | (_ :: _) as errors => (mkResponse HTTP_400_BAD_REQUEST (SerializerErrors errors), db)
    | [] =>
        let location := get_or_empty (location request_data) in
        let notes := get_or_empty (notes request_data) in
        match json_loads (get_or_empty (qr_code_data request_data)) with
        | None =>
            (mkResponse HTTP_400_BAD_REQUEST (ErrorData "Invalid QR code format" None), db)
        | Some qr =>
            match validate_qr_body env request_user qr location notes db with
            | (Ok response, db') => (response, db')
            | (Raise e, db') =>
                (mkResponse HTTP_500_INTERNAL_SERVER_ERROR
                   (ErrorData "Validation failed" (Some (str_exn e))), db')
            end
        end
    end.

(* ================================================================== *)
(** ** [apps/payments/models.py] *)
(* ================================================================== *)

(** [Payment.can_be_refunded] *)
Definition Payment_can_be_refunded (self : Payment.t) : bool :=
  (Payment.status self =? "success")%string.

(** Reading a text attribute of a [Payment] by name; a name the model does
    not declare raises [AttributeError]. *)
Definition Payment_getattr (self : Payment.t) (name : string) : M string :=
  if (name =? "payment_reference")%string then ret (Payment.payment_reference self)
  else if (name =? "method")%string then ret (Payment.method self)
  else if (name =? "status")%string then ret (Payment.status self)
  else raise (Py.AttributeError
                ("'Payment' object has no attribute '" ++ name ++ "'")).

(** [RefundRequest.can_be_approved]; the payment is read only when the
    request is pending. *)
Definition RefundRequest_can_be_approved (self : RefundRequest.t) : M bool :=
  if (RefundRequest.status self =? "pending")%string
  then payment <- Payment_get (RefundRequest.payment self) ;;
       ret (Payment_can_be_refunded payment)
  else ret false.

(** [models.Model.save] for a refund request. *)
Definition RefundRequest_save (env : Env) (self : RefundRequest.t)
    : M RefundRequest.t :=
  fun db =>
    let rows := refund_requests db in
    let self := RefundRequest.with_updated_at (Some (now env)) self in
    match RefundRequest.id self with
    | Some k =>
        if existsb (fun r => has_pk k (RefundRequest.id r)) rows
        then (Ok self,
              with_refund_requests
                (map (fun r => if has_pk k (RefundRequest.id r) then self else r) rows)
                db)
        else
          let self := RefundRequest.with_created_at (Some (now env)) self in
          (Ok self, with_refund_requests (rows ++ [self])%list db)
    | None =>
        let k := next_id (map (fun r => or_0 (RefundRequest.id r)) rows) in
        let self := RefundRequest.with_created_at (Some (now env))
                      (RefundRequest.with_id (Some k) self) in
        (Ok self, with_refund_requests (rows ++ [self])%list db)
    end.

(** [RefundRequest.approve] *)
Definition RefundRequest_approve (env : Env) (self : RefundRequest.t)
    (admin_user : Z) (notes : string) : M RefundRequest.t :=
  c <- RefundRequest_can_be_approved self ;;
  if negb c then raise (Py.ValueError "Refund cannot be approved")
  else
    RefundRequest_save env
      (RefundRequest.with_admin_notes notes
         (RefundRequest.with_reviewed_by (Some admin_user)
            (RefundRequest.with_status "approved" self))).

(** [RefundRequest.reject] *)
Definition RefundRequest_reject (env : Env) (self : RefundRequest.t)
    (admin_user : Z) (notes : string) : M RefundRequest.t :=
  if negb (RefundRequest.status self =? "pending")%string
  then raise (Py.ValueError "Only pending refunds can be rejected")
  else
    RefundRequest_save env
      (RefundRequest.with_admin_notes notes
         (RefundRequest.with_reviewed_by (Some admin_user)
            (RefundRequest.with_status "rejected" self))).

(* ================================================================== *)
(** ** [apps/payments/services.py] *)
(* ================================================================== *)

(** The dictionary a refund execution returns: ['success'] with
    ['refund_reference'] and ['message'], or failure with ['error']. *)
Inductive RefundResult : Type :=
| RefundSuccess (refund_reference message : string)
| RefundFailure (error : string).

(** What the refund review needs of a payment service. *)
Record PaymentServiceI : Type := mkPaymentService
  { process_refund : Env -> RefundRequest.t -> M RefundResult }.

(** [PaymentService._generate_refund_reference] *)
Definition PaymentService_generate_refund_reference (env : Env) : string :=
  "RF" ++ Py.upper (Py.prefix_slice 12 (uuid4_hex env)).

(** The double nearest to [0.95], as a numerator over [2^53]. *)
Definition threshold_095 : Z := 8556839292003942.

(** [Refund.objects.create(...)] *)
Definition Refund_create (r : Refund.t) : M unit :=
  modify (fun db => with_refunds (refunds db ++ [r])%list db).

(** The [try] block of [PaymentService.process_refund].  The refund method
    is read from the payment under the name [payment_method]. *)
Definition PaymentService_process_refund_body (env : Env)
    (refund_request : RefundRequest.t) : M RefundResult :=
  payment <- Payment_get (RefundRequest.payment refund_request) ;;
  let is_successful := random_53 env <? threshold_095 in
  if is_successful
  then
    let refund_reference := PaymentService_generate_refund_reference env in
    refund_method <- Payment_getattr payment "payment_method" ;;
    ids <- gets (fun db => map Refund.id (refunds db)) ;;
    Refund_create
      (Refund.mk (next_id ids) (Payment.id payment)
         (or_0 (RefundRequest.id refund_request))
         (RefundRequest.amount refund_request)
         refund_reference refund_method "completed" (Some (now env))) ;;;
    ret (RefundSuccess refund_reference "Refund processed successfully")
  else ret (RefundFailure "Refund processing failed. Please try again.").

(** [PaymentService.process_refund]: any exception of the body becomes a
    failure result. *)
Definition PaymentService_process_refund (env : Env)
    (refund_request : RefundRequest.t) : M RefundResult :=
  fun db =>
    match PaymentService_process_refund_body env refund_request db with
    | (Ok r, db') => (Ok r, db')
    | (Raise e, db') =>
        (Ok (RefundFailure ("Refund processing error: " ++ str_exn e)), db')
    end.

(** The payment service of the repository. *)
Definition PaymentService : PaymentServiceI :=
  mkPaymentService PaymentService_process_refund.

(* ================================================================== *)
(** ** [apps/payments/serializers.py] *)
(* ================================================================== *)

(** The request data of [RefundRequestCreateSerializer], with the key
    [payment_id] that the view reads beside it.  [amount] is the decimal
    number the request carries, as [decimal.Decimal] reads it from a text of
    at most 1000 characters, and [reason] its text, as sent; both keys are
    present. *)
Record RefundRequestCreateRequest : Type := mkRefundRequestCreateRequest
  { payment_id : option Z;
    amount : Decimal;
    reason : string }.

Definition msg_amount_positive : string := "Refund amount must be greater than 0".
Definition msg_not_refundable : string := "Payment cannot be refunded".
Definition msg_amount_exceeds : string := "Refund amount cannot exceed payment amount".
Definition msg_duplicate : string := "A refund request is already pending for this payment".

(** [rest_framework.fields.DecimalField.validate_precision]: the message it
    fails with, if any.  The digits of zero are one digit. *)
Definition DecimalField_validate_precision (max_digits decimal_places : Z)
    (value : Decimal) : option string :=
  let len := Dec.ndigits (Z.abs (coefficient value)) in
  let e := exponent value in
  let total_digits :=
    if 0 <=? e then len + e else if Z.abs e <? len then len else Z.abs e in
  let whole_digits :=
    if 0 <=? e then len + e else if Z.abs e <? len then len - Z.abs e else 0 in
  let places := if 0 <=? e then 0 else Z.abs e in
  if max_digits <? total_digits
  then Some ("Ensure that there are no more than " ++ Py.str_int max_digits
             ++ " digits in total.")
  else if decimal_places <? places
  then Some ("Ensure that there are no more than " ++ Py.str_int decimal_places
             ++ " decimal places.")
  else if max_digits - decimal_places <? whole_digits
  then Some ("Ensure that there are no more than "
             ++ Py.str_int (max_digits - decimal_places)
             ++ " digits before the decimal point.")
  else None.

(** [rest_framework.fields.DecimalField.quantize]: the value brought to
    [decimal_places] decimals, rounding half to even.  It is applied to a
    value that passed [validate_precision]; such a value has no decimal to
    round and fits the precision of the context. *)
Definition DecimalField_quantize (decimal_places : Z) (value : Decimal) : Decimal :=
  let shift := exponent value + decimal_places in
  if 0 <=? shift
  then mkDecimal (coefficient value * 10 ^ shift) (- decimal_places)
  else mkDecimal (Z.sgn (coefficient value)
                  * Dec.round_half_even (Z.abs (coefficient value)) (- shift))
                 (- decimal_places).

(** [RefundRequestCreateSerializer.validate_amount] *)
Definition validate_amount (value : Decimal) : list (string * string) :=
  if Dec.leb value Dec.zero2 then [("amount", msg_amount_positive)] else [].

(** The field [reason], a [CharField] built for a [TextField] that is not
    declared [blank=True]: white space is trimmed, what is left may not be
    empty, and it may not hold a null character. *)
Definition validate_reason (value : string) : list (string * string) :=
  if negb (Py.truthy_str (Py.strip value))
  then [("reason", "This field may not be blank.")]
  else if Py.has_char (ascii_of_nat 0) (Py.strip value)
  then [("reason", "Null characters are not allowed.")]
  else [].

(** The errors of the fields, in the order of [Meta.fields]: [amount] is a
    [DecimalField(max_digits=10, decimal_places=2)] whose value goes through
    [validate_precision], [quantize] and then [validate_amount]. *)
Definition RefundRequestCreateSerializer_field_errors
    (d : RefundRequestCreateRequest) : list (string * string) :=
  (match DecimalField_validate_precision 10 2 (amount d) with
   | Some msg => [("amount", msg)]
   | None => validate_amount (DecimalField_quantize 2 (amount d))
   end ++ validate_reason (reason d))%list.

(** The requests that block a new one:
    [filter(payment=payment, status__in=['pending', 'approved', 'processing'])]. *)
Definition existing_refunds (rows : list RefundRequest.t) (payment_id : Z)
    : list RefundRequest.t :=
  filter (fun r => (RefundRequest.payment r =? payment_id)
                   && Py.str_in (RefundRequest.status r)
                        ["pending"; "approved"; "processing"]) rows.

(** [RefundRequestCreateSerializer.validate]: the object-level check, run
    once every field is valid.  The result is the list of errors. *)
Definition RefundRequestCreateSerializer_validate (db : DB)
    (payment : Payment.t) (amount : Decimal) : list (string * string) :=
  if negb (Payment_can_be_refunded payment)
  then [("non_field_errors", msg_not_refundable)]
  else if Dec.gtb amount (Payment.amount payment)
  then [("non_field_errors", msg_amount_exceeds)]
  else
    match existing_refunds (refund_requests db) (Payment.id payment) with
    | _ :: _ => [("non_field_errors", msg_duplicate)]
    | [] => []
    end.

(** [serializer.errors]: the errors of the fields, or, when there is none,
    those of [validate]. *)
Definition RefundRequestCreateSerializer_errors (db : DB) (payment : Payment.t)
    (d : RefundRequestCreateRequest) : list (string * string) :=
  match RefundRequestCreateSerializer_field_errors d with
  | (_ :: _) as errors => errors
  | [] =>
      RefundRequestCreateSerializer_validate db payment
        (DecimalField_quantize 2 (amount d))
  end.

(* ================================================================== *)
(** ** [apps/payments/views.py]: [RefundRequestViewSet] *)
(* ================================================================== *)

(** [RefundRequestViewSet.create] *)
Definition RefundRequestViewSet_create (env : Env) (request_user : Z)
    (request_data : RefundRequestCreateRequest) : DB -> Response * DB :=
  fun db =>
    match payment_id request_data with
    | None =>
        (mkResponse HTTP_400_BAD_REQUEST (ErrorData "payment_id is required" None), db)
    | Some pid =>
        if pid =? 0
        then (mkResponse HTTP_400_BAD_REQUEST (ErrorData "payment_id is required" None), db)
        else
          match find (fun r => (Payment.id r =? pid) && (Payment.user r =? request_user))
                     (payments db) with
          | None => (mkResponse HTTP_404_NOT_FOUND (ErrorData "Not found." None), db)
          | Some payment =>
              match RefundRequestCreateSerializer_errors db payment request_data with
              | (_ :: _) as errors =>
                  (mkResponse HTTP_400_BAD_REQUEST (SerializerErrors errors), db)
              | [] =>
                  match RefundRequest_save env
                          (RefundRequest.mk None (Payment.id payment) request_user
                             (DecimalField_quantize 2 (amount request_data))
                             (Py.strip (reason request_data)) "pending"
                             None EmptyString EmptyString None None None None) db with
                  | (Ok refund_request, db') =>
                      (mkResponse HTTP_201_CREATED (RefundRequestData refund_request), db')
                  | (Raise e, db') =>
                      (mkResponse HTTP_500_INTERNAL_SERVER_ERROR
                         (ErrorData (str_exn e) None), db')
                  end
              end
          end
    end.

(** The request data of [RefundApprovalSerializer]. *)
Record RefundApprovalRequest : Type := mkRefundApprovalRequest
  { action : string;
    admin_notes : option string }.

Definition newline : string := String (ascii_of_nat 10) EmptyString.

(** The [try] block of [RefundRequestViewSet.review]. *)
Definition review_body (payment_service : PaymentServiceI) (env : Env)
    (request_user : Z) (refund_request : RefundRequest.t)
    (action admin_notes : string) : M RefundRequest.t :=
  if (action =? "approve")%string
  then
    refund_request <- RefundRequest_approve env refund_request request_user admin_notes ;;
    refund_result <- process_refund payment_service env refund_request ;;
    match refund_result with
    | RefundSuccess refund_reference _ =>
        RefundRequest_save env
          (RefundRequest.with_processed_at (Some (now env))
             (RefundRequest.with_processed_amount
                (Some (RefundRequest.amount refund_request))
                (RefundRequest.with_refund_reference refund_reference
                   (RefundRequest.with_status "completed" refund_request))))
    | RefundFailure error =>
        RefundRequest_save env
          (RefundRequest.with_admin_notes
             (RefundRequest.admin_notes refund_request
              ++ newline ++ "Refund processing failed: " ++ error)
             (RefundRequest.with_status "failed" refund_request))
    end
  else if (action =? "reject")%string
  then RefundRequest_reject env refund_request request_user admin_notes
  else ret refund_request.

(** [RefundRequestViewSet.review].  A [ValueError] of the block is answered
    with 400; any other exception leaves the view and is answered with 500. *)
Definition RefundRequestViewSet_review (payment_service : PaymentServiceI)
    (env : Env) (request_user : User.t) (pk : Z)
    (request_data : RefundApprovalRequest) : DB -> Response * DB :=
  fun db =>
    if negb (User.role request_user =? "admin")%string
    then (mkResponse HTTP_403_FORBIDDEN (ErrorData "Permission denied" None), db)
    else
      match find_refund_request pk db with
      | None => (mkResponse HTTP_404_NOT_FOUND (ErrorData "Not found." None), db)
      | Some refund_request =>
          if negb (Py.str_in (action request_data) ["approve"; "reject"])
          then (mkResponse HTTP_400_BAD_REQUEST
                  (SerializerErrors [("action", "Not a valid choice.")]), db)
          else
            match review_body payment_service env (User.id request_user)
                    refund_request (action request_data)
                    (get_or_empty (admin_notes request_data)) db with
            | (Ok refund_request, db') =>
                (mkResponse HTTP_200_OK (RefundRequestData refund_request), db')
            | (Raise (Py.ValueError msg), db') =>
                (mkResponse HTTP_400_BAD_REQUEST (ErrorData msg None), db')
            | (Raise e, db') =>
                (mkResponse HTTP_500_INTERNAL_SERVER_ERROR
                   (ErrorData (str_exn e) None), db')
            end
      end.

(* ================================================================== *)
(** ** The requests that change a purchase *)
(* ================================================================== *)

(** [Purchase.objects.get(pk=k)] *)
Definition Purchase_get (k : Z) : M Purchase.t :=
  fun db => get_or_raise "Purchase" (find_purchase k db) db.

(** A purchase is created through [PurchaseCreateSerializer]; after that its
    status is changed by assigning the field and saving the instance (the
    purchase view on a payment result, the payment webhook), or by
    [Purchase.cancel]. *)
Inductive Op : Type :=
| OpCreate (ticket user quantity : Z) (unit_price : Decimal) (payment_method : string)
| OpSetStatus (pk : Z) (status : string)
| OpCancel (pk : Z).

Definition step (env : Env) (op : Op) : M Purchase.t :=
  match op with
  | OpCreate ticket user quantity unit_price payment_method =>
      PurchaseCreateSerializer_create env ticket user quantity unit_price payment_method
  | OpSetStatus pk status =>
      purchase <- Purchase_get pk ;;
      Purchase_save env (Purchase.with_status status purchase)
  | OpCancel pk =>
      purchase <- Purchase_get pk ;;
      Purchase_cancel env purchase
  end.

(** A history of requests, each served in its own environment; a request
    that raises is answered with an error and the next one is served on the
    database it left. *)
Fixpoint run (history : list (Env * Op)) (db : DB) : DB :=
  match history with
  | [] => db
  | (env, op) :: rest => run rest (snd (step env op db))
  end.

(* ================================================================== *)
(** ** Predicates on instances and databases *)
(* ================================================================== *)

(** A purchase holds a QR credential when its image field names a file. *)
Definition has_credential (p : Purchase.t) : bool :=
  Py.truthy_str (Purchase.qr_code p).

(** The quantity sold that the paid purchases of a ticket add up to. *)
Definition paid_quantity (rows : list Purchase.t) (ticket_id : Z) : Z :=
  fold_right Z.add 0 (map Purchase.quantity (paid_purchases rows ticket_id)).

(** Every ticket row carries the sum of its paid purchases. *)
Definition inventory_consistent (db : DB) : Prop :=
  forall t, In t (tickets db) ->
    Ticket.quantity_sold t = paid_quantity (purchases db) (Ticket.id t).

(** Primary keys of the purchase table: present, not zero, pairwise
    different. *)
Definition purchase_keys_ok (rows : list Purchase.t) : Prop :=
  NoDup (map Purchase.id rows)
  /\ forall r, In r rows -> exists k, Purchase.id r = Some k /\ k <> 0.

(** [total_amount] is the exact product of [unit_price] and [quantity]. *)
Definition total_is_exact (p : Purchase.t) : Prop :=
  Purchase.total_amount p =
    Some (mkDecimal (coefficient (Purchase.unit_price p) * Purchase.quantity p)
                    (exponent (Purchase.unit_price p))).

(** The values the columns hold: a [DecimalField(max_digits=10,
    decimal_places=2)] two decimals and at most ten digits, a
    [PositiveIntegerField] a value from 0 to 2147483647. *)
Definition DecimalField_10_2 (d : Decimal) : Prop :=
  exponent d = -2 /\ Z.abs (coefficient d) < 10 ^ 10.
Definition unit_price_in_range (d : Decimal) : Prop :=
  DecimalField_10_2 d.
Definition quantity_in_range (q : Z) : Prop :=
  0 <= q <= 2147483647.

(** The product of the unit price and the quantity of an instance fits the
    column of [total_amount]. *)
Definition total_amount_in_range (p : Purchase.t) : Prop :=
  Z.abs (coefficient (Purchase.unit_price p) * Purchase.quantity p) < 10 ^ 10.

(** The instance once [Purchase.save] has given it a reference. *)
Definition referenced (env : Env) (self : Purchase.t) : Purchase.t :=
  if negb (Py.truthy_str (Purchase.purchase_reference self))
  then Purchase.with_purchase_reference
         (Purchase_generate_purchase_reference env) self
  else self.

(** In a row of the table, a paid purchase holds a credential. *)
Definition paid_rows_hold_credential (db : DB) : Prop :=
  forall p, In p (purchases db) ->
    Purchase.status p = "paid" -> has_credential p = true.

(** A request for a refund that is still open. *)
Definition outstanding (r : RefundRequest.t) : bool :=
  Py.str_in (RefundRequest.status r) ["pending"; "approved"; "processing"].

(** From [db] to [db'] the purchases, the tickets and the payments are what
    they were. *)
Definition sales_untouched (db db' : DB) : Prop :=
  purchases db' = purchases db
  /\ tickets db' = tickets db
  /\ payments db' = payments db.

(* ================================================================== *)
(** ** What a save leaves behind *)
(* ================================================================== *)

(** The columns of a purchase that [models.Model.save] writes as they are:
    all but the key and the two automatic timestamps. *)
Definition business (p : Purchase.t) :=
  (Purchase.ticket p, Purchase.user p, Purchase.quantity p, Purchase.unit_price p,
   Purchase.total_amount p, Purchase.status p, Purchase.qr_code p,
   Purchase.qr_code_data p, Purchase.purchase_reference p, Purchase.paid_at p).

(** The purchase table after the instance [p'] was written under key [k]. *)
Definition row_written (k : Z) (p' : Purchase.t)
    (rows rows' : list Purchase.t) : Prop :=
  (existsb (fun r => has_pk k (Purchase.id r)) rows = true
   /\ rows' = map (fun r => if has_pk k (Purchase.id r) then p' else r) rows)
  \/ (existsb (fun r => has_pk k (Purchase.id r)) rows = false
      /\ rows' = (rows ++ [p'])%list).

(** The database after the counter of a ticket was recomputed. *)
Definition recount (ticket_id : Z) (db : DB) : DB :=
  with_tickets
    (map (fun r => if Ticket.id r =? ticket_id
                   then Ticket.with_quantity_sold
                          (paid_quantity (purchases db) ticket_id) r
                   else r) (tickets db))
    db.

(** How the instance [p'] that [Purchase.save] writes relates to the
    instance [p] it was called on. *)
Definition saved_from (p p' : Purchase.t) : Prop :=
  Purchase.ticket p' = Purchase.ticket p
  /\ Purchase.user p' = Purchase.user p
  /\ Purchase.quantity p' = Purchase.quantity p
  /\ Purchase.unit_price p' = Purchase.unit_price p
  /\ Purchase.status p' = Purchase.status p
  /\ Purchase.total_amount p' =
       Some (Dec.mul_int (Purchase.unit_price p) (Purchase.quantity p))
  /\ (Purchase.status p = "paid" -> has_credential p' = true)
  /\ (Purchase.status p = "paid" -> has_credential p = false ->
        Py.truthy_str (Purchase.qr_code_data p') = true)
  /\ (Purchase.status p <> "paid" \/ has_credential p = true ->
        Purchase.qr_code p' = Purchase.qr_code p
        /\ Purchase.qr_code_data p' = Purchase.qr_code_data p)
  /\ (Py.truthy_str (Purchase.purchase_reference p) = true ->
        Purchase.purchase_reference p' = Purchase.purchase_reference p).

(** The exceptions that come from the database: a missing row, a broken
    constraint. *)
Definition db_error (e : Py.exn) : Prop :=
  match e with
  | Py.DoesNotExist _ | Py.IntegrityError _ => True
  | _ => False
  end.

(* ================================================================== *)
(** ** Sample data *)
(* ================================================================== *)

Module Sample.

Definition days (n : Z) : Z := n * Datetime.day.
Definition hours (n : Z) : Z := n * Datetime.hour.

(** The request environment at an instant. *)
Definition at_instant (t : Z) : Env := mkEnv t "0123abcd4567ef89" 0.

Definition price : Decimal := mkDecimal 2500 (-2).

(** A ticket on sale from instant 10 to instant 20, five units, none sold. *)
Definition ticket_on_sale : Ticket.t :=
  Ticket.mk 3 "VIP" price 5 0 1 true (Some 10) (Some 20).

(** An evening concert on day 10, from 20:00 to 23:00. *)
Definition concert : Event.t :=
  Event.mk 1 "Concert" (days 10 + hours 20) (days 10 + hours 23).

Definition buyer : User.t := User.mk 7 "ada@example.bj" "participant".
Definition admin : User.t := User.mk 9 "admin@example.bj" "admin".

(** One event, one ticket type, no purchase yet. *)
Definition db0 : DB :=
  mkDB [concert] [buyer; admin] [ticket_on_sale] [] [] [] [] [].

(** The buyer orders two units, the order is paid, then cancelled. *)
Definition ordered : list (Env * Op) :=
  [(at_instant 100, OpCreate 3 7 2 price "card")].
Definition ordered_and_paid : list (Env * Op) :=
  (ordered ++ [(at_instant 200, OpSetStatus 1 "paid")])%list.
Definition paid_then_cancelled : list (Env * Op) :=
  (ordered_and_paid ++ [(at_instant 300, OpCancel 1)])%list.

Definition db_paid : DB := run ordered_and_paid db0.

(** The paid purchase as it is stored. *)
Definition paid_purchase : Purchase.t :=
  match find_purchase 1 db_paid with
  | Some p => p
  | None => Purchase.mk None 0 0 0 price None EmptyString EmptyString EmptyString
              EmptyString EmptyString EmptyString None None None
  end.

(** A new instance whose caller supplied a wrong total. *)
Definition mispriced : Purchase.t :=
  Purchase.mk None 3 7 2 price (Some (mkDecimal 1 (-2))) "pending" EmptyString
    EmptyString EmptyString "card" EmptyString None None None.

(** A decoder that reads every payload as the credential of purchase 1. *)
Definition loads (_ : string) : option json :=
  Some (JDict [("purchase_id", JStr "1")]).

Definition scan : QRCodeValidationRequest :=
  mkQRCodeValidationRequest (Some "payload") (Some "Gate A") None.

(** The database after the ticket was scanned at 18:00 on the day of the
    concert, two hours before it starts. *)
Definition db_scanned : DB :=
  snd (validate_qr loads (at_instant (days 10 + hours 18)) 9 scan db_paid).

(** A successful payment of the paid purchase, and a pending request to
    refund it. *)
Definition payment : Payment.t :=
  Payment.mk 1 "PAY-0123ABCD4567" (mkDecimal 5000 (-2)) "card" "success" 7 (Some 1).
Definition refund_request : RefundRequest.t :=
  RefundRequest.mk (Some 1) 1 7 (mkDecimal 5000 (-2)) "Cannot attend" "pending"
    None EmptyString EmptyString None (Some 400) (Some 400) None.
Definition db_refund_requested : DB :=
  mkDB (events db_paid) (users db_paid) (tickets db_paid) (purchases db_paid)
       (validations db_paid) [payment] [refund_request] [].

Definition approve : RefundApprovalRequest :=
  mkRefundApprovalRequest "approve" (Some "ok").

End Sample.

(* ================================================================== *)
(** ** Units that count as sold *)
(* ================================================================== *)

(** What one purchase adds to the sum of [update_ticket_quantity]: its
    quantity when its status is [paid], nothing otherwise. *)
Definition sold_units (p : Purchase.t) : Z :=
  if (Purchase.status p =? "paid")%string then Purchase.quantity p else 0.

(* ================================================================== *)
(** ** Checks that can be computed *)
(* ================================================================== *)

(** Equality of two keys, either of which may be missing. *)
Definition key_eqb (a b : option Z) : bool :=
  match a, b with
  | Some x, Some y => x =? y
  | None, None => true
  | _, _ => false
  end.

(** No key occurs twice. *)
Fixpoint distinct (ids : list (option Z)) : bool :=
  match ids with
  | [] => true
  | a :: r => negb (existsb (key_eqb a) r) && distinct r
  end.

(** [purchase_keys_ok], as a computation. *)
Definition purchase_keys_okb (rows : list Purchase.t) : bool :=
  distinct (map Purchase.id rows)
  && forallb (fun r => match Purchase.id r with
                       | Some k => negb (k =? 0)
                       | None => false
                       end) rows.

(* ================================================================== *)
(** ** An order on its way to the gate *)
(* ================================================================== *)

Module Scenario.

(** The database after the buyer ordered two units and before anything was
    paid. *)
Definition db_ordered : DB := run Sample.ordered Sample.db0.

(** The pending purchase as it is stored. *)
Definition pending_purchase : Purchase.t :=
  match find_purchase 1 db_ordered with
  | Some p => p
  | None => Sample.mispriced
  end.

(** What the credential of that purchase says once it is issued. *)
Definition payload : json :=
  qr_data pending_purchase Sample.ticket_on_sale Sample.concert Sample.buyer.

(** A decoder that reads this payload and nothing else. *)
Definition loads (s : string) : option json :=
  if (s =? Json.dumps payload)%string then Some payload else None.

Definition scan : QRCodeValidationRequest :=
  mkQRCodeValidationRequest (Some (Json.dumps payload)) (Some "Gate A") None.

(** 18:00 on the day of the concert. *)
Definition gate : Env := Sample.at_instant (Sample.days 10 + Sample.hours 18).

End Scenario.

(* ================================================================== *)
(** ** Open refund requests *)
(* ================================================================== *)

(** No payment has more than one request that blocks a new one. *)
Definition at_most_one_outstanding (db : DB) : Prop :=
  forall pid, (List.length (existing_refunds (refund_requests db) pid) <= 1)%nat.

(** The same, computed over the payments the requests name. *)
Definition at_most_one_outstandingb (db : DB) : bool :=
  forallb (fun r => (List.length (existing_refunds (refund_requests db)
                               (RefundRequest.payment r)) <=? 1)%nat)
          (refund_requests db).

(* ================================================================== *)
(** ** [apps/events/models.py]: the phases of an event and its sales *)
(* ================================================================== *)

(** [Event.clean]: the error it raises, if any. *)
Definition Event_clean (self : Event.t) : option string :=
  if Event.end_datetime self <=? Event.start_datetime self
  then Some "End datetime must be after start datetime"
  else None.

(** [Event.is_upcoming] *)
Definition Event_is_upcoming (env : Env) (self : Event.t) : bool :=
  now env <? Event.start_datetime self.

(** [Event.is_ongoing] *)
Definition Event_is_ongoing (env : Env) (self : Event.t) : bool :=
  (Event.start_datetime self <=? now env) && (now env <=? Event.end_datetime self).

(** [Event.total_tickets_sold]: the paid purchases whose ticket belongs to
    the event, joined through the ticket table. *)
Definition Event_total_tickets_sold (self : Event.t) (db : DB) : Z :=
  or_0 (Sum (map Purchase.quantity
               (filter (fun p =>
                          match find_ticket (Purchase.ticket p) db with
                          | Some t => Ticket.event t =? Event.id self
                          | None => false
                          end && (Purchase.status p =? "paid")%string)
                       (purchases db)))).

(** The tickets of an event. *)
Definition tickets_of (event_id : Z) (db : DB) : list Ticket.t :=
  filter (fun t => Ticket.event t =? event_id) (tickets db).

(* ================================================================== *)
(** ** [apps/tickets/serializers.py]: [TicketCreateUpdateSerializer] *)
(* ================================================================== *)

(** [validate_price] *)
Definition TicketCreateUpdateSerializer_validate_price (value : Decimal)
    : list (string * string) :=
  if Dec.ltb value Dec.zero2 then [("price", "Price cannot be negative")] else [].

(** [validate_quantity_available]; [instance] is the ticket being updated,
    [None] on creation. *)
Definition TicketCreateUpdateSerializer_validate_quantity_available
    (instance : option Ticket.t) (value : Z) : list (string * string) :=
  if value <? 1
  then [("quantity_available", "Quantity available must be at least 1")]
  else
    match instance with
    | Some t =>
        if value <? Ticket.quantity_sold t
        then [("quantity_available",
               "Cannot reduce quantity below already sold tickets ("
               ++ Py.str_int (Ticket.quantity_sold t) ++ ")")]
        else []
    | None => []
    end.

(** [validate]: the check on the sale window. *)
Definition TicketCreateUpdateSerializer_validate
    (sale_start sale_end : option Z) : list (string * string) :=
  match sale_start, sale_end with
  | Some s, Some e =>
      if e <=? s
      then [("sale_end_datetime", "Sale end datetime must be after sale start datetime")]
      else []
  | _, _ => []
  end.

(* ================================================================== *)
(** ** The stamp of the payment *)
(* ================================================================== *)

(** [paid_at] after a save: a stamp that is set is kept; one that is not
    set is taken from the clock when the status is [paid]. *)
Definition stamped (env : Env) (p : Purchase.t) : option Z :=
  match Purchase.paid_at p with
  | Some x => Some x
  | None => if (Purchase.status p =? "paid")%string then Some (now env) else None
  end.

(** Every stored purchase carries a reference. *)
Definition references_present (db : DB) : Prop :=
  forall r, In r (purchases db) ->
    Py.truthy_str (Purchase.purchase_reference r) = true.

(* ================================================================== *)
(** ** [apps/tickets/models.py]: [Attendee] *)
(* ================================================================== *)

(** [tickets.Attendee]: the columns of the check-in. *)
Module Attendee.
Record t : Type := mk
  { id : Z;
    purchase : Z;
    checked_in : bool;
    check_in_datetime : option Z }.
End Attendee.

(** [models.Model.save] on a stored attendee, over the attendee table. *)
Definition Attendee_save (self : Attendee.t) (rows : list Attendee.t)
    : list Attendee.t :=
  if existsb (fun r => Attendee.id r =? Attendee.id self) rows
  then map (fun r => if Attendee.id r =? Attendee.id self then self else r) rows
  else (rows ++ [self])%list.

(** [Attendee.check_in]: the instance and the table it leaves. *)
Definition Attendee_check_in (env : Env) (self : Attendee.t)
    (rows : list Attendee.t) : Attendee.t * list Attendee.t :=
  if negb (Attendee.checked_in self)
  then
    let self := Attendee.mk (Attendee.id self) (Attendee.purchase self)
                  true (Some (now env)) in
    (self, Attendee_save self rows)
  else (self, rows).

(* ================================================================== *)
(** ** Inventory: when a ticket can be bought *)
(* ================================================================== *)

Lemma Ticket_quantity_remaining_pos (t : Ticket.t) (q : Z) :
  0 < q -> q <= Ticket_quantity_remaining t -> Ticket_is_sold_out t = false.
Proof.
  intros Hq Hle. unfold Ticket_is_sold_out. apply Z.eqb_neq. lia.
Qed.

(** C4, as the specification states it, fails at the closing instant: with
    the sale window [10, 20) the claim makes the ticket unavailable at
    instant 20, and [can_purchase] accepts the purchase there. *)
Lemma can_purchase_half_open_counterexample :
  ~ (Ticket_can_purchase (Sample.at_instant 20) Sample.ticket_on_sale 1 = true
     <-> (Ticket.is_active Sample.ticket_on_sale = true
          /\ 0 < 1 <= Ticket_quantity_remaining Sample.ticket_on_sale
          /\ 10 <= now (Sample.at_instant 20) < 20)).
Proof.
  intros [H _]. specialize (H eq_refl). cbn in H. lia.
Qed.

(** C4 (amended): for a ticket with both bounds of the sale window set,
    [can_purchase] holds exactly when the ticket is active, the quantity is
    positive and at most the remaining quantity, and the instant lies in
    the closed interval from [sale_start_datetime] to [sale_end_datetime];
    the closing instant itself is still open for sale. *)
Theorem can_purchase_iff_closed_window
    (env : Env) (t : Ticket.t) (quantity s e : Z)
    (Hstart : Ticket.sale_start_datetime t = Some s)
    (Hend : Ticket.sale_end_datetime t = Some e) :
  Ticket_can_purchase env t quantity = true
  <-> (Ticket.is_active t = true
       /\ 0 < quantity <= Ticket_quantity_remaining t
       /\ s <= now env <= e).
Proof.
  unfold Ticket_can_purchase, Ticket_is_available_for_sale.
  rewrite Hstart, Hend. split.
  - intros H.
    apply andb_prop in H as [H Hq]. apply andb_prop in H as [Hav Hle].
    apply Z.ltb_lt in Hq. apply Z.leb_le in Hle.
    destruct (Ticket.is_active t); [|discriminate].
    cbn in Hav.
    destruct (Ticket_is_sold_out t); [discriminate|].
    destruct (now env <? s) eqn:Hs; [discriminate|].
    destruct (e <? now env) eqn:He; [discriminate|].
    apply Z.ltb_ge in Hs. apply Z.ltb_ge in He.
    repeat split; lia.
  - intros (Hact & [Hq Hle] & [Hs He]).
    rewrite Hact. cbn.
    rewrite (Ticket_quantity_remaining_pos t quantity Hq Hle).
    apply Z.ltb_ge in Hs. apply Z.ltb_ge in He. rewrite Hs, He. cbn.
    apply andb_true_intro. split; [apply Z.leb_le | apply Z.ltb_lt]; lia.
Qed.

Lemma can_purchase_iff_closed_window_witness :
  Ticket_can_purchase (Sample.at_instant 20) Sample.ticket_on_sale 1 = true
  <-> (Ticket.is_active Sample.ticket_on_sale = true
       /\ 0 < 1 <= Ticket_quantity_remaining Sample.ticket_on_sale
       /\ 10 <= now (Sample.at_instant 20) <= 20).
Proof.
  apply (can_purchase_iff_closed_window (Sample.at_instant 20)
           Sample.ticket_on_sale 1 10 20); reflexivity.
Defined.

(* ================================================================== *)
(** ** Lemmas on tables *)
(* ================================================================== *)

Lemma or_0_Sum (l : list Z) : or_0 (Sum l) = fold_right Z.add 0 l.
Proof. destruct l; reflexivity. Qed.

Lemma fold_max_le (ids : list Z) (j : Z) :
  In j ids -> j <= fold_right Z.max 0 ids.
Proof.
  induction ids as [|a ids IH]; cbn; [tauto|].
  intros [->|Hin]; [lia|]. specialize (IH Hin). lia.
Qed.

Lemma next_id_pos (ids : list Z) : 0 < next_id ids.
Proof.
  unfold next_id.
  assert (0 <= fold_right Z.max 0 ids) by (induction ids; cbn; lia).
  lia.
Qed.

Lemma next_id_fresh (rows : list Purchase.t) :
  existsb (fun r => has_pk (next_id (map (fun r => or_0 (Purchase.id r)) rows))
                           (Purchase.id r)) rows = false.
Proof.
  apply not_true_is_false. intros H.
  apply existsb_exists in H as (r & Hin & Hpk).
  unfold has_pk in Hpk. destruct (Purchase.id r) as [j|] eqn:Hid; [|discriminate].
  apply Z.eqb_eq in Hpk.
  assert (Hle : j <= fold_right Z.max 0 (map (fun r => or_0 (Purchase.id r)) rows)).
  { apply fold_max_le. apply in_map_iff. exists r. rewrite Hid. auto. }
  unfold next_id in Hpk. lia.
Qed.

Lemma has_pk_Some (k j : Z) : has_pk k (Some j) = true <-> j = k.
Proof. cbn. apply Z.eqb_eq. Qed.

Lemma find_purchase_id (k : Z) (db : DB) (p : Purchase.t) :
  find_purchase k db = Some p -> Purchase.id p = Some k /\ In p (purchases db).
Proof.
  unfold find_purchase. intros H. apply find_some in H as [Hin Hpk].
  split; [|assumption].
  unfold has_pk in Hpk. destruct (Purchase.id p); [|discriminate].
  apply Z.eqb_eq in Hpk. now subst.
Qed.

Lemma find_existsb {A : Type} (f : A -> bool) (l : list A) (a : A) :
  find f l = Some a -> existsb f l = true.
Proof.
  intros H. apply find_some in H as [Hin Hf].
  apply existsb_exists. eauto.
Qed.

Lemma find_replaced (k : Z) (p' : Purchase.t) (rows : list Purchase.t) :
  Purchase.id p' = Some k ->
  existsb (fun r => has_pk k (Purchase.id r)) rows = true ->
  find (fun r => has_pk k (Purchase.id r))
       (map (fun r => if has_pk k (Purchase.id r) then p' else r) rows) = Some p'.
Proof.
  intros Hid. induction rows as [|a rows IH]; cbn; [discriminate|].
  destruct (has_pk k (Purchase.id a)) eqn:Ha; cbn.
  - intros _. rewrite Hid. cbn. now rewrite Z.eqb_refl.
  - intros H. rewrite Ha. auto.
Qed.

Lemma find_appended (k : Z) (p' : Purchase.t) (rows : list Purchase.t) :
  Purchase.id p' = Some k ->
  existsb (fun r => has_pk k (Purchase.id r)) rows = false ->
  find (fun r => has_pk k (Purchase.id r)) (rows ++ [p']) = Some p'.
Proof.
  intros Hid. induction rows as [|a rows IH]; cbn.
  - intros _. rewrite Hid. cbn. now rewrite Z.eqb_refl.
  - intros H. apply orb_false_iff in H as [Ha Hr]. rewrite Ha. auto.
Qed.

(** Once written under key [k], the instance is the row found under [k]. *)
Lemma find_row_written (k : Z) (p' : Purchase.t) (rows rows' : list Purchase.t) :
  Purchase.id p' = Some k -> row_written k p' rows rows' ->
  find (fun r => has_pk k (Purchase.id r)) rows' = Some p'.
Proof.
  intros Hid [[Hex ->]|[Hex ->]];
    [now apply find_replaced | now apply find_appended].
Qed.

(** A row under another key is found as before. *)
Lemma find_other_row_written (k j : Z) (p' : Purchase.t)
    (rows rows' : list Purchase.t) :
  Purchase.id p' = Some k -> j <> k -> row_written k p' rows rows' ->
  find (fun r => has_pk j (Purchase.id r)) rows'
  = find (fun r => has_pk j (Purchase.id r)) rows.
Proof.
  intros Hid Hjk [[_ ->]|[_ ->]].
  - induction rows as [|a rows IH]; cbn; [reflexivity|].
    destruct (has_pk k (Purchase.id a)) eqn:Ha.
    + rewrite Hid. cbn.
      destruct (Purchase.id a) as [i|]; [|discriminate].
      apply has_pk_Some in Ha. subst i. cbn.
      assert (Hne : (k =? j) = false) by (apply Z.eqb_neq; congruence).
      now rewrite Hne.
    + now rewrite IH.
  - induction rows as [|a rows IH]; cbn.
    + rewrite Hid. cbn.
      assert (Hne : (k =? j) = false) by (apply Z.eqb_neq; congruence).
      now rewrite Hne.
    + now rewrite IH.
Qed.

(* ================================================================== *)
(** ** What [Purchase.save] does, step by step *)
(* ================================================================== *)

Lemma Purchase_Model_save_spec (env : Env) (p : Purchase.t) (db : DB) :
  (reference_taken (purchases db) p = true
   /\ exists e, Purchase_Model_save env p db = (Raise e, db) /\ db_error e)
  \/ (reference_taken (purchases db) p = false
      /\ exists p' k rows',
           Purchase_Model_save env p db = (Ok p', with_purchases rows' db)
           /\ Purchase.id p' = Some k
           /\ (Purchase.id p = None /\ 0 < k
                /\ existsb (fun r => has_pk k (Purchase.id r)) (purchases db) = false
               \/ Purchase.id p = Some k)
           /\ business p' = business p
           /\ row_written k p' (purchases db) rows').
Proof.
  unfold Purchase_Model_save.
  destruct (reference_taken (purchases db) p) eqn:Href.
  - left. split; [reflexivity|]. eexists. split; [reflexivity|exact I].
  - right. split; [reflexivity|]. cbn.
    destruct (Purchase.id p) as [k|] eqn:Hid.
    + destruct (existsb (fun r => has_pk k (Purchase.id r)) (purchases db)) eqn:Hex.
      * eexists _, k, _. split; [reflexivity|]. cbn.
        repeat split; auto. left. split; [assumption|reflexivity].
      * eexists _, k, _. split; [reflexivity|]. cbn.
        repeat split; auto. right. split; [assumption|reflexivity].
    + eexists _, _, _. split; [reflexivity|]. cbn.
      split; [reflexivity|].
      split; [left; split; [reflexivity|]; split; [apply next_id_pos|apply next_id_fresh]|].
      split; [reflexivity|].
      right. split; [apply next_id_fresh|reflexivity].
Qed.

Lemma Purchase_generate_qr_code_spec (p : Purchase.t) (db : DB) :
  (exists e, Purchase_generate_qr_code p db = (Raise e, db) /\ db_error e)
  \/ (exists p', Purchase_generate_qr_code p db = (Ok p', db)
        /\ Purchase.id p' = Purchase.id p
        /\ Purchase.ticket p' = Purchase.ticket p
        /\ Purchase.user p' = Purchase.user p
        /\ Purchase.quantity p' = Purchase.quantity p
        /\ Purchase.unit_price p' = Purchase.unit_price p
        /\ Purchase.total_amount p' = Purchase.total_amount p
        /\ Purchase.status p' = Purchase.status p
        /\ Purchase.purchase_reference p' = Purchase.purchase_reference p
        /\ Purchase.paid_at p' = Purchase.paid_at p
        /\ has_credential p' = true
        /\ Py.truthy_str (Purchase.qr_code_data p') = true).
Proof.
  unfold Purchase_generate_qr_code, bind, Ticket_get, Event_get, User_get, get_or_raise.
  destruct (find_ticket (Purchase.ticket p) db) as [t|]; cbn;
    [|left; eexists; split; [reflexivity|exact I]].
  destruct (find_event (Ticket.event t) db) as [e|]; cbn;
    [|left; eexists; split; [reflexivity|exact I]].
  destruct (find_user (Purchase.user p) db) as [u|]; cbn;
    [|left; eexists; split; [reflexivity|exact I]].
  right. eexists. split; [reflexivity|]. cbn. repeat split; reflexivity.
Qed.

Lemma Purchase_update_ticket_quantity_spec (p : Purchase.t) (db : DB) :
  (find_ticket (Purchase.ticket p) db = None
   /\ Purchase_update_ticket_quantity p db = (Raise (Py.DoesNotExist "Ticket"), db))
  \/ (exists t, find_ticket (Purchase.ticket p) db = Some t
        /\ Purchase_update_ticket_quantity p db
           = (Ok tt, recount (Purchase.ticket p) db)).
Proof.
  unfold Purchase_update_ticket_quantity, bind, Ticket_get, get_or_raise.
  destruct (find_ticket (Purchase.ticket p) db) as [t|] eqn:Ht; cbn.
  - right. exists t. split; [reflexivity|].
    assert (Hid : Ticket.id t = Purchase.ticket p).
    { unfold find_ticket in Ht. apply find_some in Ht as [_ Ht].
      now apply Z.eqb_eq in Ht. }
    unfold Ticket_save_quantity_sold, modify, recount, paid_quantity.
    rewrite or_0_Sum, Hid. reflexivity.
  - left. split; reflexivity.
Qed.

(** The three ways [Purchase.save] can end: it raises before anything is
    written; or the row is written and the counter of the ticket is
    recomputed; or the row is written and the recount is not done, because
    the ticket row is missing or the key is zero. *)
Lemma Purchase_save_spec (env : Env) (p : Purchase.t) (db : DB) :
  (exists e, Purchase_save env p db = (Raise e, db) /\ db_error e)
  \/ exists p' k rows',
       Purchase.id p' = Some k
       /\ (Purchase.id p = None /\ 0 < k
            /\ existsb (fun r => has_pk k (Purchase.id r)) (purchases db) = false
           \/ Purchase.id p = Some k)
       /\ saved_from p p'
       /\ row_written k p' (purchases db) rows'
       /\ ((k <> 0
            /\ (exists t, find_ticket (Purchase.ticket p) db = Some t)
            /\ Purchase_save env p db
               = (Ok p', recount (Purchase.ticket p) (with_purchases rows' db)))
           \/ (k <> 0
               /\ find_ticket (Purchase.ticket p) db = None
               /\ Purchase_save env p db
                  = (Raise (Py.DoesNotExist "Ticket"), with_purchases rows' db))
           \/ (k = 0
               /\ Purchase_save env p db = (Ok p', with_purchases rows' db))).
Proof.
  remember (Purchase_save env p db) as res eqn:Hres.
  unfold Purchase_save in Hres.
  set (p1 := if negb (Py.truthy_str (Purchase.purchase_reference p))
             then Purchase.with_purchase_reference
                    (Purchase_generate_purchase_reference env) p
             else p) in Hres.
  set (p2 := Purchase.with_total_amount
               (Some (Dec.mul_int (Purchase.unit_price p1) (Purchase.quantity p1))) p1)
    in Hres.
  assert (H1 : Purchase.id p1 = Purchase.id p /\ Purchase.ticket p1 = Purchase.ticket p
               /\ Purchase.user p1 = Purchase.user p
               /\ Purchase.quantity p1 = Purchase.quantity p
               /\ Purchase.unit_price p1 = Purchase.unit_price p
               /\ Purchase.status p1 = Purchase.status p
               /\ Purchase.qr_code p1 = Purchase.qr_code p
               /\ Purchase.qr_code_data p1 = Purchase.qr_code_data p
               /\ Purchase.paid_at p1 = Purchase.paid_at p
               /\ (Py.truthy_str (Purchase.purchase_reference p) = true ->
                   Purchase.purchase_reference p1 = Purchase.purchase_reference p)).
  { subst p1. destruct (Py.truthy_str (Purchase.purchase_reference p));
      cbn; repeat split; auto; discriminate. }
  destruct H1 as (Hid1 & Htk1 & Hus1 & Hq1 & Hup1 & Hst1 & Hqr1 & Hqd1 & Hpa1 & Href1).
  (* the credential *)
  assert (Hqr : (exists e,
             (if (Purchase.status p2 =? "paid")%string
                 && negb (Py.truthy_str (Purchase.qr_code p2))
              then Purchase_generate_qr_code p2 else ret p2) db = (Raise e, db)
             /\ db_error e)
          \/ exists p3,
             (if (Purchase.status p2 =? "paid")%string
                 && negb (Py.truthy_str (Purchase.qr_code p2))
              then Purchase_generate_qr_code p2 else ret p2) db = (Ok p3, db)
             /\ Purchase.id p3 = Purchase.id p
             /\ Purchase.ticket p3 = Purchase.ticket p
             /\ Purchase.user p3 = Purchase.user p
             /\ Purchase.quantity p3 = Purchase.quantity p
             /\ Purchase.unit_price p3 = Purchase.unit_price p
             /\ Purchase.status p3 = Purchase.status p
             /\ Purchase.total_amount p3 =
                  Some (Dec.mul_int (Purchase.unit_price p) (Purchase.quantity p))
             /\ Purchase.purchase_reference p3 = Purchase.purchase_reference p1
             /\ Purchase.paid_at p3 = Purchase.paid_at p
             /\ (Purchase.status p = "paid" -> has_credential p3 = true)
             /\ (Purchase.status p = "paid" -> has_credential p = false ->
                   Py.truthy_str (Purchase.qr_code_data p3) = true)
             /\ (Purchase.status p <> "paid" \/ has_credential p = true ->
                   Purchase.qr_code p3 = Purchase.qr_code p
                   /\ Purchase.qr_code_data p3 = Purchase.qr_code_data p)).
  { assert (Hst2 : Purchase.status p2 = Purchase.status p) by (subst p2; cbn; auto).
    assert (Hqr2 : Purchase.qr_code p2 = Purchase.qr_code p) by (subst p2; cbn; auto).
    rewrite Hst2, Hqr2.
    destruct (Purchase.status p =? "paid")%string eqn:Hpaid; cbn.
    - apply String.eqb_eq in Hpaid.
      destruct (Py.truthy_str (Purchase.qr_code p)) eqn:Hcred; cbn.
      + right. exists p2. split; [reflexivity|]. subst p2. cbn.
        rewrite Hq1, Hup1. unfold has_credential. cbn.
        repeat split; intros; congruence.
      + destruct (Purchase_generate_qr_code_spec p2 db) as [(e & He & Hdb)|(p3 & He & F)].
        * left. eauto.
        * right. exists p3. split; [assumption|].
          destruct F as (F1 & F2 & F3 & F4 & F5 & F6 & F7 & F8 & F9 & F10 & F11).
          subst p2. cbn in *. rewrite Hq1, Hup1 in F6.
          unfold has_credential in *.
          repeat split; intros; try congruence.
          all: destruct H; congruence.
    - apply String.eqb_neq in Hpaid.
      right. exists p2. split; [reflexivity|]. subst p2. cbn.
      rewrite Hq1, Hup1. unfold has_credential. cbn.
      repeat split; intros; congruence. }
  unfold bind in Hres.
  destruct Hqr as [(e & He & Hdb)|(p3 & He & G)].
  { left. exists e. rewrite He in Hres. split; assumption. }
  rewrite He in Hres.
  destruct G as (Gid & Gtk & Gus & Gq & Gup & Gst & Gtot & Gref & Gpa & Gc1 & Gc2 & Gc3).
  set (p4 := if (Purchase.status p3 =? "paid")%string
                && match Purchase.paid_at p3 with Some _ => false | None => true end
             then Purchase.with_paid_at (Some (now env)) p3 else p3) in Hres.
  assert (H4 : Purchase.id p4 = Purchase.id p3 /\ Purchase.ticket p4 = Purchase.ticket p3
               /\ Purchase.user p4 = Purchase.user p3
               /\ Purchase.quantity p4 = Purchase.quantity p3
               /\ Purchase.unit_price p4 = Purchase.unit_price p3
               /\ Purchase.status p4 = Purchase.status p3
               /\ Purchase.total_amount p4 = Purchase.total_amount p3
               /\ Purchase.qr_code p4 = Purchase.qr_code p3
               /\ Purchase.qr_code_data p4 = Purchase.qr_code_data p3
               /\ Purchase.purchase_reference p4 = Purchase.purchase_reference p3).
  { subst p4. destruct ((Purchase.status p3 =? "paid")%string
                        && match Purchase.paid_at p3 with Some _ => false | None => true end);
      cbn; repeat split; auto. }
  destruct H4 as (Iid & Itk & Ius & Iq & Iup & Ist & Itot & Iqr & Iqd & Iref).
  destruct (Purchase_Model_save_spec env p4 db)
    as [[_ (e & Hm & Hdb)]|(_ & p' & k & rows' & Hm & Jid & Jpk & Jb & Jw)].
  { left. exists e. rewrite Hm in Hres. split; assumption. }
  rewrite Hm in Hres.
  unfold business in Jb.
  injection Jb as Jtk Jus Jq Jup Jtot Jst Jqr Jqd Jref Jpa.
  assert (Ktk : Purchase.ticket p' = Purchase.ticket p) by congruence.
  right. exists p', k, rows'.
  split; [assumption|].
  split; [rewrite Iid, Gid in Jpk; assumption|].
  split.
  { unfold saved_from, has_credential in *.
    repeat split; try congruence.
    - intros Hp. rewrite Jqr, Iqr. auto.
    - intros Hp Hc. rewrite Jqd, Iqd. auto.
    - match goal with H : _ \/ _ |- _ => destruct (Gc3 H) end. congruence.
    - match goal with H : _ \/ _ |- _ => destruct (Gc3 H) end. congruence.
    - intros Hr. rewrite Jref, Iref, Gref. auto. }
  split; [assumption|].
  rewrite Jid in Hres.
  destruct (k =? 0) eqn:Hk0; cbn in Hres.
  - apply Z.eqb_eq in Hk0. right. right. split; assumption.
  - apply Z.eqb_neq in Hk0.
    destruct (Purchase_update_ticket_quantity_spec p' (with_purchases rows' db))
      as [[Hn Hu]|(t & Ht & Hu)]; rewrite Hu in Hres.
    + right. left. split; [assumption|].
      split; [|assumption].
      rewrite <- Hn. unfold find_ticket. cbn. now rewrite Ktk.
    + left. split; [assumption|].
      split.
      * exists t. rewrite <- Ht. unfold find_ticket. cbn. now rewrite Ktk.
      * rewrite Hres. cbn. unfold ret. now rewrite Ktk.
Qed.

Lemma in_row_written (k : Z) (p' r : Purchase.t) (rows rows' : list Purchase.t) :
  row_written k p' rows rows' -> In r rows' -> r = p' \/ In r rows.
Proof.
  intros [[_ ->]|[_ ->]] Hin.
  - apply in_map_iff in Hin as (a & Ha & Hin).
    destruct (has_pk k (Purchase.id a)); [left; congruence | right; congruence].
  - apply in_app_or in Hin as [Hin|[Hin|[]]]; auto.
Qed.

(** A save that returns has written the instance it returns. *)
Lemma Purchase_save_ok_inv (env : Env) (p p' : Purchase.t) (db db' : DB) :
  Purchase_save env p db = (Ok p', db') ->
  exists k,
    Purchase.id p' = Some k
    /\ (Purchase.id p = None /\ 0 < k
         /\ existsb (fun r => has_pk k (Purchase.id r)) (purchases db) = false
        \/ Purchase.id p = Some k)
    /\ saved_from p p'
    /\ row_written k p' (purchases db) (purchases db')
    /\ find_purchase k db' = Some p'.
Proof.
  intros H.
  destruct (Purchase_save_spec env p db)
    as [(e & He & _)|(q & k & rows' & Hid & Hpk & Hs & Hw & Hcase)].
  { congruence. }
  assert (Hq : q = p' /\ purchases db' = rows').
  { destruct Hcase as [(_ & _ & E)|[(_ & _ & E)|(_ & E)]];
      rewrite E in H; inversion H; subst; cbn; auto. }
  destruct Hq as [-> Hrows]. exists k.
  rewrite Hrows. do 4 (split; [assumption|]).
  unfold find_purchase. rewrite Hrows. now apply find_row_written with (rows := purchases db).
Qed.

Lemma reference_taken_ext (rows : list Purchase.t) (p q : Purchase.t) :
  Purchase.id q = Purchase.id p ->
  Purchase.purchase_reference q = Purchase.purchase_reference p ->
  reference_taken rows q = reference_taken rows p.
Proof.
  intros Hid Href. unfold reference_taken. now rewrite Hid, Href.
Qed.

(** A save that has no credential to issue returns as soon as the reference
    of the instance is free and its ticket exists. *)
Lemma Purchase_save_succeeds (env : Env) (p : Purchase.t) (db : DB) (t : Ticket.t) :
  Py.truthy_str (Purchase.purchase_reference p) = true ->
  reference_taken (purchases db) p = false ->
  find_ticket (Purchase.ticket p) db = Some t ->
  Purchase.status p <> "paid" \/ has_credential p = true ->
  exists p' db', Purchase_save env p db = (Ok p', db').
Proof.
  intros Href Hfree Ht Hcred.
  remember (Purchase_save env p db) as res eqn:Hres.
  unfold Purchase_save in Hres. rewrite Href in Hres. cbn [negb] in Hres.
  cbv iota in Hres.
  set (p2 := Purchase.with_total_amount _ p) in Hres.
  assert (Hskip : (Purchase.status p2 =? "paid")%string
                  && negb (Py.truthy_str (Purchase.qr_code p2)) = false).
  { subst p2. cbn. destruct Hcred as [Hn|Hc].
    - apply String.eqb_neq in Hn. now rewrite Hn.
    - unfold has_credential in Hc. rewrite Hc. apply andb_false_r. }
  rewrite Hskip in Hres. unfold bind at 1, ret at 1 in Hres.
  cbv beta iota in Hres.
  match type of Hres with
  | context [Purchase_Model_save env ?x] => set (p4 := x) in Hres
  end.
  assert (H4 : Purchase.id p4 = Purchase.id p
               /\ Purchase.purchase_reference p4 = Purchase.purchase_reference p
               /\ Purchase.ticket p4 = Purchase.ticket p).
  { subst p4 p2.
    match goal with |- context [if ?c then _ else _] => destruct c end; cbn; auto. }
  destruct H4 as (Hid4 & Href4 & Htk4).
  unfold bind at 1 in Hres.
  destruct (Purchase_Model_save_spec env p4 db)
    as [[Htaken _]|(_ & p' & k & rows' & Hm & Jid & Jpk & Jb & Jw)].
  { rewrite (reference_taken_ext _ p p4) in Htaken by assumption. congruence. }
  rewrite Hm in Hres. rewrite Jid in Hres.
  unfold business in Jb. injection Jb as Jtk _ _ _ _ _ _ _ _ _.
  assert (Ktk : Purchase.ticket p' = Purchase.ticket p) by congruence.
  destruct (k =? 0); cbn in Hres.
  - eauto.
  - unfold bind in Hres.
    destruct (Purchase_update_ticket_quantity_spec p' (with_purchases rows' db))
      as [[Hn Hu]|(t' & Ht' & Hu)]; rewrite Hu in Hres.
    + exfalso. unfold find_ticket in Hn, Ht. cbn in Hn. rewrite Ktk in Hn. congruence.
    + eauto.
Qed.

(** A save that issues a credential returns as soon as the reference of the
    instance is free and its ticket, the event of the ticket and its buyer
    exist. *)
Lemma Purchase_save_returns (env : Env) (p : Purchase.t) (db : DB)
    (t : Ticket.t) (e : Event.t) (u : User.t) :
  Py.truthy_str (Purchase.purchase_reference p) = true ->
  reference_taken (purchases db) p = false ->
  find_ticket (Purchase.ticket p) db = Some t ->
  find_event (Ticket.event t) db = Some e ->
  find_user (Purchase.user p) db = Some u ->
  exists p' db', Purchase_save env p db = (Ok p', db').
Proof.
  intros Href Hfree Ht He Hu.
  remember (Purchase_save env p db) as res eqn:Hres.
  unfold Purchase_save in Hres. rewrite Href in Hres. cbn [negb] in Hres.
  cbv iota in Hres.
  set (p2 := Purchase.with_total_amount _ p) in Hres.
  assert (Hgen : exists p3,
            (if (Purchase.status p2 =? "paid")%string
                && negb (Py.truthy_str (Purchase.qr_code p2))
             then Purchase_generate_qr_code p2 else ret p2) db = (Ok p3, db)
            /\ Purchase.id p3 = Purchase.id p
            /\ Purchase.purchase_reference p3 = Purchase.purchase_reference p
            /\ Purchase.ticket p3 = Purchase.ticket p).
  { destruct ((Purchase.status p2 =? "paid")%string
              && negb (Py.truthy_str (Purchase.qr_code p2))).
    - unfold Purchase_generate_qr_code, bind, Ticket_get, Event_get, User_get,
        get_or_raise.
      change (Purchase.ticket p2) with (Purchase.ticket p).
      change (Purchase.user p2) with (Purchase.user p).
      rewrite Ht. cbn [ret]. unfold ret at 1. cbv beta iota.
      rewrite He. unfold ret at 1. cbv beta iota.
      rewrite Hu. unfold ret at 1. cbv beta iota.
      eexists. split; [reflexivity|]. cbn. auto.
    - exists p2. split; [reflexivity|]. cbn. auto. }
  destruct Hgen as (p3 & Hgen & Hid3 & Href3 & Htk3).
  unfold bind at 1 in Hres. rewrite Hgen in Hres.
  match type of Hres with
  | context [Purchase_Model_save env ?x] => set (p4 := x) in Hres
  end.
  assert (H4 : Purchase.id p4 = Purchase.id p
               /\ Purchase.purchase_reference p4 = Purchase.purchase_reference p
               /\ Purchase.ticket p4 = Purchase.ticket p).
  { subst p4.
    match goal with |- context [if ?c then _ else _] => destruct c end; cbn; auto. }
  destruct H4 as (Hid4 & Href4 & Htk4).
  unfold bind at 1 in Hres.
  destruct (Purchase_Model_save_spec env p4 db)
    as [[Htaken _]|(_ & p' & k & rows' & Hm & Jid & Jpk & Jb & Jw)].
  { rewrite (reference_taken_ext _ p p4) in Htaken by assumption. congruence. }
  rewrite Hm in Hres. rewrite Jid in Hres.
  unfold business in Jb. injection Jb as Jtk _ _ _ _ _ _ _ _ _.
  assert (Ktk : Purchase.ticket p' = Purchase.ticket p) by congruence.
  destruct (k =? 0); cbn in Hres.
  - eauto.
  - unfold bind in Hres.
    destruct (Purchase_update_ticket_quantity_spec p' (with_purchases rows' db))
      as [[Hn Hu']|(t' & Ht' & Hu')]; rewrite Hu' in Hres.
    + exfalso. unfold find_ticket in Hn, Ht. cbn in Hn. rewrite Ktk in Hn. congruence.
    + eauto.
Qed.

(** Whatever reference the instance has, [save] goes on with the instance
    that carries one. *)
Lemma Purchase_save_referenced (env : Env) (p : Purchase.t) (db : DB) :
  Purchase_save env p db = Purchase_save env (referenced env p) db.
Proof.
  assert (Hg : Py.truthy_str (Purchase_generate_purchase_reference env) = true)
    by reflexivity.
  unfold referenced.
  destruct (Py.truthy_str (Purchase.purchase_reference p)) eqn:E; cbn [negb]; cbv iota;
    [reflexivity|].
  unfold Purchase_save.
  cbn [Purchase.purchase_reference Purchase.with_purchase_reference].
  rewrite E, Hg. reflexivity.
Qed.

Lemma referenced_truthy (env : Env) (p : Purchase.t) :
  Py.truthy_str (Purchase.purchase_reference (referenced env p)) = true.
Proof.
  unfold referenced.
  destruct (Py.truthy_str (Purchase.purchase_reference p)) eqn:E; cbn [negb]; cbv iota;
    [assumption|reflexivity].
Qed.

Lemma referenced_terms (env : Env) (p : Purchase.t) :
  Purchase.ticket (referenced env p) = Purchase.ticket p
  /\ Purchase.user (referenced env p) = Purchase.user p.
Proof.
  unfold referenced.
  destruct (negb (Py.truthy_str (Purchase.purchase_reference p))); split; reflexivity.
Qed.

(* ================================================================== *)
(** ** Amounts *)
(* ================================================================== *)

(** A product whose coefficient has at most 28 digits is not rounded. *)
Lemma mul_int_exact (d : Decimal) (n : Z) :
  Z.abs (coefficient d * n) < 10 ^ Dec.prec ->
  Dec.mul_int d n = mkDecimal (coefficient d * n) (exponent d).
Proof.
  intros H. unfold Dec.mul_int, Dec.mul, Dec.of_int, Dec.fix_. cbn [coefficient exponent].
  apply Z.ltb_lt in H. rewrite H. now rewrite Z.add_0_r.
Qed.

(** A product that fits the column of [total_amount] is far below the
    precision of the context. *)
Lemma product_fits (d : Decimal) (n : Z) :
  Z.abs (coefficient d * n) < 10 ^ 10 ->
  Z.abs (coefficient d * n) < 10 ^ Dec.prec.
Proof.
  unfold Dec.prec. intros H.
  change (10 ^ 10) with 10000000000 in H.
  change (10 ^ 28) with 10000000000000000000000000000.
  lia.
Qed.

(* ================================================================== *)
(** ** What a request leaves in the database *)
(* ================================================================== *)

(** The database a save leaves, whatever the save returns or raises. *)
Lemma Purchase_save_db (env : Env) (p : Purchase.t) (db : DB) :
  snd (Purchase_save env p db) = db
  \/ exists p' k rows',
       Purchase.id p' = Some k
       /\ (Purchase.id p = None /\ 0 < k
            /\ existsb (fun r => has_pk k (Purchase.id r)) (purchases db) = false
           \/ Purchase.id p = Some k)
       /\ saved_from p p'
       /\ row_written k p' (purchases db) rows'
       /\ ((k <> 0 /\ snd (Purchase_save env p db)
                      = recount (Purchase.ticket p) (with_purchases rows' db))
           \/ ((k = 0 \/ find_ticket (Purchase.ticket p) db = None)
               /\ snd (Purchase_save env p db) = with_purchases rows' db)).
Proof.
  destruct (Purchase_save_spec env p db)
    as [(e & He & _)|(p' & k & rows' & Hid & Hpk & Hs & Hw & Hcase)].
  - left. now rewrite He.
  - right. exists p', k, rows'. do 4 (split; [assumption|]).
    destruct Hcase as [(Hk & _ & E)|[(Hk & Hn & E)|(Hk & E)]]; rewrite E; cbn; auto.
Qed.

(** A request changes nothing, or it saves one instance: a new one, or a
    stored row with another status. *)
Lemma step_db (env : Env) (op : Op) (db : DB) :
  snd (step env op db) = db
  \/ exists p,
       snd (step env op db) = snd (Purchase_save env p db)
       /\ (Purchase.id p = None
           \/ exists k p0 s, find_purchase k db = Some p0
                             /\ p = Purchase.with_status s p0).
Proof.
  remember (step env op db) as res eqn:Hres.
  destruct op as [ticket user quantity unit_price payment_method|pk s|pk];
    unfold step in Hres.
  - unfold PurchaseCreateSerializer_create in Hres.
    right. eexists. split; [rewrite Hres; reflexivity|]. left. reflexivity.
  - unfold bind, Purchase_get, get_or_raise in Hres.
    destruct (find_purchase pk db) as [p0|] eqn:Hf; [|left; now rewrite Hres].
    unfold ret in Hres. right. eexists. split; [rewrite Hres; reflexivity|].
    right. eauto.
  - unfold bind at 1 in Hres. unfold Purchase_get, get_or_raise in Hres.
    destruct (find_purchase pk db) as [p0|] eqn:Hf; [|left; now rewrite Hres].
    unfold ret in Hres. unfold Purchase_cancel in Hres. unfold bind at 1 in Hres.
    assert (Hc : (exists e, Purchase_can_be_cancelled env p0 db = (Raise e, db))
                 \/ exists b, Purchase_can_be_cancelled env p0 db = (Ok b, db)).
    { unfold Purchase_can_be_cancelled, bind, Ticket_get, Event_get, get_or_raise.
      destruct (negb (Py.str_in (Purchase.status p0) ["pending"; "paid"]));
        [right; exists false; reflexivity|].
      destruct (find_ticket (Purchase.ticket p0) db) as [t|]; cbn;
        [|left; eexists; reflexivity].
      destruct (find_event (Ticket.event t) db) as [e|]; cbn;
        [|left; eexists; reflexivity].
      destruct (Event.start_datetime e <=? now env); cbn;
        right; eexists; reflexivity. }
    destruct Hc as [[e Hc]|[b Hc]]; rewrite Hc in Hres; [left; now rewrite Hres|].
    destruct b; cbn [negb] in Hres; cbv iota in Hres; [|left; now rewrite Hres].
    right. eexists. split; [rewrite Hres; reflexivity|]. right. eauto.
Qed.

Lemma purchases_recount (ticket_id : Z) (db : DB) :
  purchases (recount ticket_id db) = purchases db.
Proof. reflexivity. Qed.

(* ================================================================== *)
(** ** QR credentials *)
(* ================================================================== *)

Lemma save_keeps_paid_rows_credentialed (env : Env) (p : Purchase.t) (db : DB) :
  paid_rows_hold_credential db ->
  paid_rows_hold_credential (snd (Purchase_save env p db)).
Proof.
  intros Hinv.
  destruct (Purchase_save_db env p db)
    as [->|(p' & k & rows' & Hid & Hpk & Hs & Hw & Hcase)]; [assumption|].
  assert (Hrows : purchases (snd (Purchase_save env p db)) = rows').
  { destruct Hcase as [[_ ->]|[_ ->]]; reflexivity. }
  intros r Hin Hpaid. rewrite Hrows in Hin.
  destruct (in_row_written k p' r _ _ Hw Hin) as [->|Hold].
  - destruct Hs as (_ & _ & _ & _ & Hst & _ & Hc & _). apply Hc. congruence.
  - now apply Hinv.
Qed.

Lemma step_keeps_paid_rows_credentialed (env : Env) (op : Op) (db : DB) :
  paid_rows_hold_credential db ->
  paid_rows_hold_credential (snd (step env op db)).
Proof.
  intros Hinv. destruct (step_db env op db) as [->|(p & -> & _)]; [assumption|].
  now apply save_keeps_paid_rows_credentialed.
Qed.

Lemma step_keeps_credential (env : Env) (op : Op) (db : DB) (k0 : Z) (q : Purchase.t) :
  find_purchase k0 db = Some q -> has_credential q = true ->
  exists q', find_purchase k0 (snd (step env op db)) = Some q'
             /\ Purchase.qr_code q' = Purchase.qr_code q
             /\ Purchase.qr_code_data q' = Purchase.qr_code_data q.
Proof.
  intros Hq Hcred.
  destruct (step_db env op db) as [->|(p & -> & Hp)]; [eauto|].
  destruct (Purchase_save_db env p db)
    as [->|(p' & k & rows' & Hid & Hpk & Hs & Hw & Hcase)]; [eauto|].
  assert (Hfind : find_purchase k0 (snd (Purchase_save env p db))
                  = find (fun r => has_pk k0 (Purchase.id r)) rows').
  { destruct Hcase as [[_ ->]|[_ ->]]; reflexivity. }
  rewrite Hfind.
  destruct (Z.eq_dec k0 k) as [->|Hne].
  - rewrite (find_row_written k p' _ _ Hid Hw). exists p'. split; [reflexivity|].
    destruct Hpk as [(_ & _ & Hfresh)|Hsame].
    + apply find_existsb in Hq. unfold find_purchase in Hq. congruence.
    + destruct Hp as [Hnone|(k1 & p0 & s & Hp0 & ->)]; [congruence|].
      cbn in Hsame. destruct (find_purchase_id _ _ _ Hp0) as [Hid0 _].
      assert (k1 = k) by congruence. subst k1.
      assert (p0 = q) by congruence. subst p0.
      destruct Hs as (_ & _ & _ & _ & _ & _ & _ & _ & Hkeep & _).
      apply Hkeep. right. exact Hcred.
  - rewrite (find_other_row_written k k0 p' _ _ Hid Hne Hw). eauto.
Qed.

(** What [Purchase.save] raises comes from the database. *)
Lemma Purchase_save_raises (env : Env) (p : Purchase.t) (db : DB) (e : Py.exn) :
  fst (Purchase_save env p db) = Raise e -> db_error e.
Proof.
  intros H.
  destruct (Purchase_save_spec env p db)
    as [(e' & He & Hdb)|(p' & k & rows' & _ & _ & _ & _ & Hcase)].
  - rewrite He in H. cbn in H. congruence.
  - destruct Hcase as [(_ & _ & E)|[(_ & _ & E)|(_ & E)]];
      rewrite E in H; cbn in H; try discriminate.
    inversion H. exact I.
Qed.

(** The invariant on paid rows can be checked row by row. *)
Lemma paid_rows_hold_credential_check (db : DB) :
  forallb (fun p => negb (Purchase.status p =? "paid")%string || has_credential p)
          (purchases db) = true ->
  paid_rows_hold_credential db.
Proof.
  intros H p Hin Hpaid. rewrite forallb_forall in H. specialize (H p Hin).
  apply String.eqb_eq in Hpaid. rewrite Hpaid in H. exact H.
Qed.

(** C1, as the specification states it, fails: a purchase that was paid and
    then cancelled is stored with status [cancelled] and still holds the
    credential issued when it was paid. *)
Lemma credential_iff_paid_counterexample :
  exists p,
    find_purchase 1 (run Sample.paid_then_cancelled Sample.db0) = Some p
    /\ ~ (has_credential p = true <-> Purchase.status p = "paid").
Proof.
  eexists. split; [vm_compute; reflexivity|].
  intros [H _]. vm_compute in H. specialize (H eq_refl). discriminate H.
Qed.

(** C1 (amended): along every history of purchase requests, a stored
    purchase whose status is [paid] holds a QR credential; and a credential,
    once issued, is kept unchanged whatever the purchase becomes, so a
    purchase cancelled after payment still holds its [qr_code] and
    [qr_code_data]. *)
Theorem credential_kept_along_history (history : list (Env * Op)) (db : DB) :
  (paid_rows_hold_credential db -> paid_rows_hold_credential (run history db))
  /\ (forall k p,
        find_purchase k db = Some p -> has_credential p = true ->
        exists p', find_purchase k (run history db) = Some p'
                   /\ Purchase.qr_code p' = Purchase.qr_code p
                   /\ Purchase.qr_code_data p' = Purchase.qr_code_data p).
Proof.
  revert db. induction history as [|[env op] rest IH]; intros db; cbn [run].
  - split; [auto|]. intros k p Hp _. eauto.
  - destruct (IH (snd (step env op db))) as [IH1 IH2]. split.
    + intros Hinv. apply IH1. now apply step_keeps_paid_rows_credentialed.
    + intros k p Hp Hc.
      destruct (step_keeps_credential env op db k p Hp Hc) as (q & Hq & Hqr & Hqd).
      assert (Hcq : has_credential q = true).
      { unfold has_credential in *. congruence. }
      destruct (IH2 k q Hq Hcq) as (p' & Hp' & Hqr' & Hqd').
      exists p'. repeat split; congruence.
Qed.

Lemma credential_kept_along_history_witness :
  paid_rows_hold_credential
    (run [(Sample.at_instant 300, OpCancel 1)] Sample.db_paid)
  /\ exists p',
       find_purchase 1 (run [(Sample.at_instant 300, OpCancel 1)] Sample.db_paid)
       = Some p'
       /\ Purchase.qr_code p' = Purchase.qr_code Sample.paid_purchase
       /\ Purchase.qr_code_data p' = Purchase.qr_code_data Sample.paid_purchase.
Proof.
  destruct (credential_kept_along_history
              [(Sample.at_instant 300, OpCancel 1)] Sample.db_paid) as [H1 H2].
  split.
  - apply H1. apply paid_rows_hold_credential_check. vm_compute. reflexivity.
  - apply (H2 1 Sample.paid_purchase); vm_compute; reflexivity.
Defined.

(** C9: saving again a paid purchase that holds a credential returns, issues
    nothing, and leaves [qr_code_data] and [qr_code] as they were, in the
    instance and in the stored row. *)
Theorem issuing_twice_keeps_payload
    (env : Env) (p : Purchase.t) (db : DB) (t : Ticket.t)
    (Hpaid : Purchase.status p = "paid")
    (Hcred : has_credential p = true)
    (Href : Py.truthy_str (Purchase.purchase_reference p) = true)
    (Hfree : reference_taken (purchases db) p = false)
    (Hticket : find_ticket (Purchase.ticket p) db = Some t) :
  exists p' db' k,
    Purchase_save env p db = (Ok p', db')
    /\ Purchase.qr_code_data p' = Purchase.qr_code_data p
    /\ Purchase.qr_code p' = Purchase.qr_code p
    /\ Purchase.status p' = "paid"
    /\ find_purchase k db' = Some p'.
Proof.
  destruct (Purchase_save_succeeds env p db t Href Hfree Hticket (or_intror Hcred))
    as (p' & db' & Hsave).
  destruct (Purchase_save_ok_inv env p p' db db' Hsave)
    as (k & Hid & _ & Hs & _ & Hfind).
  destruct Hs as (_ & _ & _ & _ & Hst & _ & _ & _ & Hkeep & _).
  destruct (Hkeep (or_intror Hcred)) as [Hqr Hqd].
  exists p', db', k. repeat split; try assumption. congruence.
Qed.

Lemma issuing_twice_keeps_payload_witness :
  exists p' db' k,
    Purchase_save (Sample.at_instant 250) Sample.paid_purchase Sample.db_paid
    = (Ok p', db')
    /\ Purchase.qr_code_data p' = Purchase.qr_code_data Sample.paid_purchase
    /\ Purchase.qr_code p' = Purchase.qr_code Sample.paid_purchase
    /\ Purchase.status p' = "paid"
    /\ find_purchase k db' = Some p'.
Proof.
  apply (issuing_twice_keeps_payload (Sample.at_instant 250) Sample.paid_purchase
           Sample.db_paid (Ticket.with_quantity_sold 2 Sample.ticket_on_sale));
    vm_compute; reflexivity.
Defined.

(** C6: for an instance whose unit price and quantity are values its columns
    hold and whose product fits the column of [total_amount], a save whose
    reference is free and whose ticket, event and buyer are stored returns,
    and it sets [total_amount] to the exact product of [unit_price] and
    [quantity], whatever total the caller supplied: the product is not
    rounded, it is itself a value the column holds, it is what the stored
    row carries, and every row of the table is exact after the save if every
    row was before it. *)
Theorem total_amount_is_exact_product
    (env : Env) (p : Purchase.t) (db : DB) (t : Ticket.t) (e : Event.t) (u : User.t)
    (Hprice : unit_price_in_range (Purchase.unit_price p))
    (Hquantity : quantity_in_range (Purchase.quantity p))
    (Htotal : total_amount_in_range p)
    (Hfree : reference_taken (purchases db) (referenced env p) = false)
    (Ht : find_ticket (Purchase.ticket p) db = Some t)
    (He : find_event (Ticket.event t) db = Some e)
    (Hu : find_user (Purchase.user p) db = Some u) :
  exists p' db' k,
    Purchase_save env p db = (Ok p', db')
    /\ Purchase.total_amount p' =
         Some (mkDecimal (coefficient (Purchase.unit_price p) * Purchase.quantity p) (-2))
    /\ DecimalField_10_2
         (mkDecimal (coefficient (Purchase.unit_price p) * Purchase.quantity p) (-2))
    /\ total_is_exact p'
    /\ Purchase.unit_price p' = Purchase.unit_price p
    /\ Purchase.quantity p' = Purchase.quantity p
    /\ find_purchase k db' = Some p'
    /\ ((forall r, In r (purchases db) -> total_is_exact r) ->
        forall r, In r (purchases db') -> total_is_exact r).
Proof.
  destruct Hprice as [Hexp Hdigits].
  destruct (referenced_terms env p) as [Rtk Rus].
  destruct (Purchase_save_returns env (referenced env p) db t e u)
    as (p' & db' & Hsave).
  { apply referenced_truthy. }
  { exact Hfree. }
  { now rewrite Rtk. }
  { exact He. }
  { now rewrite Rus. }
  rewrite <- Purchase_save_referenced in Hsave.
  destruct (Purchase_save_ok_inv env p p' db db' Hsave)
    as (k & _ & _ & Hs & Hw & Hfind).
  destruct Hs as (_ & _ & Hq & Hup & _ & Htot & _).
  assert (Hamount : Purchase.total_amount p' =
            Some (mkDecimal (coefficient (Purchase.unit_price p) * Purchase.quantity p)
                            (-2))).
  { rewrite Htot, mul_int_exact by now apply product_fits. now rewrite Hexp. }
  assert (Hexact : total_is_exact p').
  { unfold total_is_exact. rewrite Hamount, Hq, Hup, Hexp. reflexivity. }
  exists p', db', k.
  split; [assumption|]. split; [assumption|].
  split; [split; [reflexivity|exact Htotal]|].
  split; [assumption|]. split; [assumption|]. split; [assumption|].
  split; [assumption|].
  intros Hinv r Hin.
  destruct (in_row_written k p' r _ _ Hw Hin) as [->|Hold]; auto.
Qed.

Lemma total_amount_is_exact_product_witness :
  exists p' db' k,
    Purchase_save (Sample.at_instant 100) Sample.mispriced Sample.db0 = (Ok p', db')
    /\ Purchase.total_amount p' =
         Some (mkDecimal (coefficient (Purchase.unit_price Sample.mispriced)
                          * Purchase.quantity Sample.mispriced) (-2))
    /\ DecimalField_10_2
         (mkDecimal (coefficient (Purchase.unit_price Sample.mispriced)
                     * Purchase.quantity Sample.mispriced) (-2))
    /\ total_is_exact p'
    /\ Purchase.unit_price p' = Purchase.unit_price Sample.mispriced
    /\ Purchase.quantity p' = Purchase.quantity Sample.mispriced
    /\ find_purchase k db' = Some p'
    /\ ((forall r, In r (purchases Sample.db0) -> total_is_exact r) ->
        forall r, In r (purchases db') -> total_is_exact r).
Proof.
  apply (total_amount_is_exact_product (Sample.at_instant 100) Sample.mispriced
           Sample.db0 Sample.ticket_on_sale Sample.concert Sample.buyer).
  - split; [reflexivity|]. simpl. lia.
  - unfold quantity_in_range. simpl. lia.
  - unfold total_amount_in_range. simpl. lia.
  - vm_compute. reflexivity.
  - vm_compute. reflexivity.
  - vm_compute. reflexivity.
  - vm_compute. reflexivity.
Defined.

(* ================================================================== *)
(** ** The counter of sold units *)
(* ================================================================== *)

Lemma existsb_has_pk_In (k : Z) (rows : list Purchase.t) :
  existsb (fun r => has_pk k (Purchase.id r)) rows = true
  <-> In (Some k) (map Purchase.id rows).
Proof.
  rewrite existsb_exists, in_map_iff. split.
  - intros (r & Hin & Hpk). exists r. split; [|assumption].
    destruct (Purchase.id r) as [j|]; [|discriminate].
    apply has_pk_Some in Hpk. now subst.
  - intros (r & Hid & Hin). exists r. split; [assumption|].
    rewrite Hid. now apply has_pk_Some.
Qed.

Lemma map_id_replaced (k : Z) (p' : Purchase.t) (rows : list Purchase.t) :
  Purchase.id p' = Some k ->
  map Purchase.id (map (fun r => if has_pk k (Purchase.id r) then p' else r) rows)
  = map Purchase.id rows.
Proof.
  intros Hid. induction rows as [|a rows IH]; cbn; [reflexivity|].
  rewrite IH. f_equal.
  destruct (has_pk k (Purchase.id a)) eqn:Ha; [|reflexivity].
  destruct (Purchase.id a) as [j|]; [|discriminate].
  apply has_pk_Some in Ha. congruence.
Qed.

(** Writing a row under a key that is not zero keeps the keys in order. *)
Lemma row_written_keys_ok (k : Z) (p' : Purchase.t) (rows rows' : list Purchase.t) :
  Purchase.id p' = Some k -> k <> 0 ->
  row_written k p' rows rows' ->
  purchase_keys_ok rows -> purchase_keys_ok rows'.
Proof.
  intros Hid Hk Hw [Hnd Hall]. split.
  - destruct Hw as [[_ ->]|[Hex ->]].
    + now rewrite map_id_replaced.
    + rewrite map_app. cbn. rewrite Hid.
      apply NoDup_app; [assumption | repeat constructor; intros [] |].
      intros x Hx [<-|[]].
      apply existsb_has_pk_In in Hx. congruence.
  - intros r Hin. destruct (in_row_written k p' r _ _ Hw Hin) as [->|Hold]; eauto.
Qed.

(** With keys in order, the row found under a key is the only one there. *)
Lemma keyed_row_unique (k : Z) (db : DB) (p0 a : Purchase.t) :
  purchase_keys_ok (purchases db) ->
  find_purchase k db = Some p0 ->
  In a (purchases db) -> has_pk k (Purchase.id a) = true -> a = p0.
Proof.
  intros [Hnd _] Hf Ha Hpk.
  destruct (find_purchase_id k db p0 Hf) as [Hid0 Hin0].
  assert (Hida : Purchase.id a = Some k).
  { destruct (Purchase.id a) as [j|]; [|discriminate].
    apply has_pk_Some in Hpk. now subst. }
  revert Hnd Ha Hin0. generalize (purchases db) as rows.
  induction rows as [|r rows IH]; cbn; [tauto|].
  intros Hnd [->|Ha] [->|Hin0]; inversion Hnd; subst; auto.
  - exfalso. apply H1. rewrite Hida, <- Hid0. now apply in_map.
  - exfalso. apply H1. rewrite Hid0, <- Hida. now apply in_map.
Qed.

(** Writing a row of ticket [T] over rows of ticket [T] leaves the sums of
    the other tickets as they were. *)
Lemma paid_quantity_other (k T T' : Z) (p' : Purchase.t) (rows rows' : list Purchase.t) :
  row_written k p' rows rows' ->
  Purchase.ticket p' = T ->
  (forall a, In a rows -> has_pk k (Purchase.id a) = true -> Purchase.ticket a = T) ->
  T' <> T ->
  paid_quantity rows' T' = paid_quantity rows T'.
Proof.
  intros Hw Hp' Hold Hne.
  assert (Hskip : forall a, Purchase.ticket a = T ->
            ((Purchase.ticket a =? T') && (Purchase.status a =? "paid")%string) = false).
  { intros a Ha. rewrite Ha.
    assert (E : (T =? T') = false) by (apply Z.eqb_neq; congruence).
    now rewrite E. }
  unfold paid_quantity, paid_purchases.
  destruct Hw as [[_ ->]|[_ ->]].
  - induction rows as [|a rows IH]; cbn; [reflexivity|].
    assert (IH' : fold_right Z.add 0
              (map Purchase.quantity
                 (filter (fun r => (Purchase.ticket r =? T')
                                   && (Purchase.status r =? "paid")%string)
                    (map (fun r => if has_pk k (Purchase.id r) then p' else r) rows)))
            = fold_right Z.add 0
              (map Purchase.quantity
                 (filter (fun r => (Purchase.ticket r =? T')
                                   && (Purchase.status r =? "paid")%string) rows))).
    { apply IH. intros b Hb. apply Hold. now right. }
    destruct (has_pk k (Purchase.id a)) eqn:Ha.
    + rewrite (Hskip p' Hp').
      rewrite (Hskip a (Hold a (or_introl eq_refl) Ha)). exact IH'.
    + destruct ((Purchase.ticket a =? T') && (Purchase.status a =? "paid")%string);
        cbn; now rewrite IH'.
  - rewrite filter_app. cbn. rewrite (Hskip p' Hp'). now rewrite app_nil_r.
Qed.

Lemma find_ticket_None (T : Z) (db : DB) (t : Ticket.t) :
  find_ticket T db = None -> In t (tickets db) -> Ticket.id t <> T.
Proof.
  unfold find_ticket. intros Hn Hin Hid.
  apply (find_none _ _ Hn) in Hin. apply Z.eqb_neq in Hin. contradiction.
Qed.

(** Saving a new instance, or a stored row with another status, keeps the
    counters equal to the sums of the paid purchases, whatever the save
    returns or raises. *)
Lemma save_keeps_inventory (env : Env) (p : Purchase.t) (db : DB) :
  purchase_keys_ok (purchases db) ->
  inventory_consistent db ->
  (Purchase.id p = None
   \/ exists k p0 s, find_purchase k db = Some p0 /\ p = Purchase.with_status s p0) ->
  purchase_keys_ok (purchases (snd (Purchase_save env p db)))
  /\ inventory_consistent (snd (Purchase_save env p db)).
Proof.
  intros Hkeys Hinv Hp.
  destruct (Purchase_save_db env p db)
    as [->|(p' & k & rows' & Hid & Hpk & Hs & Hw & Hcase)]; [auto|].
  assert (Htk : Purchase.ticket p' = Purchase.ticket p) by apply Hs.
  assert (Hk : k <> 0).
  { destruct Hpk as [(_ & Hpos & _)|Hsame]; [lia|].
    destruct Hp as [Hnone|(k1 & p0 & s & Hp0 & ->)]; [congruence|].
    cbn in Hsame. destruct (find_purchase_id _ _ _ Hp0) as [Hid0 Hin0].
    destruct Hkeys as [_ Hall]. destruct (Hall p0 Hin0) as (j & Hj & Hj0).
    congruence. }
  assert (Hold : forall a, In a (purchases db) -> has_pk k (Purchase.id a) = true ->
                           Purchase.ticket a = Purchase.ticket p).
  { intros a Ha Hpk'.
    destruct Hpk as [(_ & _ & Hfresh)|Hsame].
    - assert (existsb (fun r => has_pk k (Purchase.id r)) (purchases db) = true)
        by (apply existsb_exists; eauto).
      congruence.
    - destruct Hp as [Hnone|(k1 & p0 & s & Hp0 & ->)]; [congruence|].
      cbn in Hsame. destruct (find_purchase_id _ _ _ Hp0) as [Hid0 _].
      assert (k1 = k) by congruence. subst k1.
      now rewrite (keyed_row_unique k db p0 a Hkeys Hp0 Ha Hpk'). }
  assert (Hother : forall T', T' <> Purchase.ticket p ->
            paid_quantity rows' T' = paid_quantity (purchases db) T').
  { intros T' HT'.
    now apply (paid_quantity_other k (Purchase.ticket p) T' p'). }
  assert (Hkeys' : purchase_keys_ok rows')
    by now apply (row_written_keys_ok k p' (purchases db)).
  destruct Hcase as [[_ ->]|[[Hk0|Hnone] ->]].
  - split; [exact Hkeys'|].
    intros t Hin.
    change (tickets (recount (Purchase.ticket p) (with_purchases rows' db)))
      with (map (fun r => if Ticket.id r =? Purchase.ticket p
                          then Ticket.with_quantity_sold
                                 (paid_quantity rows' (Purchase.ticket p)) r
                          else r) (tickets db)) in Hin.
    change (purchases (recount (Purchase.ticket p) (with_purchases rows' db)))
      with rows'.
    apply in_map_iff in Hin as (r & <- & Hr).
    destruct (Ticket.id r =? Purchase.ticket p) eqn:E.
    + apply Z.eqb_eq in E. cbn [Ticket.with_quantity_sold Ticket.quantity_sold Ticket.id].
      now rewrite E.
    + apply Z.eqb_neq in E. rewrite (Hother _ E). now apply Hinv.
  - contradiction.
  - split; [exact Hkeys'|].
    intros t Hin.
    change (tickets (with_purchases rows' db)) with (tickets db) in Hin.
    change (purchases (with_purchases rows' db)) with rows'.
    rewrite (Hother _ (find_ticket_None _ _ _ Hnone Hin)). now apply Hinv.
Qed.

Lemma step_keeps_inventory (env : Env) (op : Op) (db : DB) :
  purchase_keys_ok (purchases db) ->
  inventory_consistent db ->
  purchase_keys_ok (purchases (snd (step env op db)))
  /\ inventory_consistent (snd (step env op db)).
Proof.
  intros Hkeys Hinv.
  destruct (step_db env op db) as [->|(p & -> & Hp)]; [auto|].
  now apply save_keeps_inventory.
Qed.

(** C5: along every history of purchase requests that starts from a
    database whose counters are right, every ticket row carries in
    [quantity_sold] the sum of the quantities of its paid purchases, and
    [quantity_remaining] is [max(0, quantity_available - quantity_sold)]. *)
Theorem quantity_sold_is_sum_of_paid (history : list (Env * Op)) (db : DB)
    (Hkeys : purchase_keys_ok (purchases db))
    (Hinv : inventory_consistent db) :
  inventory_consistent (run history db)
  /\ purchase_keys_ok (purchases (run history db))
  /\ forall t, In t (tickets (run history db)) ->
       Ticket.quantity_sold t = paid_quantity (purchases (run history db)) (Ticket.id t)
       /\ Ticket_quantity_remaining t
          = Z.max 0 (Ticket.quantity_available t
                     - paid_quantity (purchases (run history db)) (Ticket.id t)).
Proof.
  revert db Hkeys Hinv.
  induction history as [|[env op] rest IH]; intros db Hkeys Hinv; cbn [run].
  - split; [assumption|]. split; [assumption|].
    intros t Hin. split; [now apply Hinv|].
    unfold Ticket_quantity_remaining. now rewrite (Hinv t Hin).
  - destruct (step_keeps_inventory env op db Hkeys Hinv) as [Hkeys' Hinv'].
    now apply IH.
Qed.

Lemma inventory_consistent_check (db : DB) :
  forallb (fun t => Ticket.quantity_sold t
                    =? paid_quantity (purchases db) (Ticket.id t)) (tickets db) = true ->
  inventory_consistent db.
Proof.
  intros H t Hin. rewrite forallb_forall in H. now apply Z.eqb_eq, H.
Qed.

Lemma quantity_sold_is_sum_of_paid_witness :
  inventory_consistent (run Sample.paid_then_cancelled Sample.db0)
  /\ purchase_keys_ok (purchases (run Sample.paid_then_cancelled Sample.db0))
  /\ forall t, In t (tickets (run Sample.paid_then_cancelled Sample.db0)) ->
       Ticket.quantity_sold t
       = paid_quantity (purchases (run Sample.paid_then_cancelled Sample.db0)) (Ticket.id t)
       /\ Ticket_quantity_remaining t
          = Z.max 0 (Ticket.quantity_available t
                     - paid_quantity (purchases (run Sample.paid_then_cancelled Sample.db0))
                                     (Ticket.id t)).
Proof.
  apply (quantity_sold_is_sum_of_paid Sample.paid_then_cancelled Sample.db0).
  - split; [constructor|]. intros r [].
  - apply inventory_consistent_check. vm_compute. reflexivity.
Defined.

(* ================================================================== *)
(** ** Cancellation *)
(* ================================================================== *)

(** C3, as the specification states it, fails: the ticket of a paid
    purchase was scanned and accepted at 18:00 on the day of the concert,
    the concert starts at 20:00, and at 18:30 [cancel] still goes through. *)
Lemma cancel_after_validation_counterexample :
  ~ (fst (Purchase_cancel (Sample.at_instant (Sample.days 10 + Sample.hours 18 + 1800 * Datetime.second))
            Sample.paid_purchase Sample.db_scanned)
     = Raise (Py.ValueError "Purchase cannot be cancelled")
     <-> (Event.start_datetime Sample.concert
          <= now (Sample.at_instant (Sample.days 10 + Sample.hours 18 + 1800 * Datetime.second))
          \/ exists v, In v (validations Sample.db_scanned)
                       /\ TicketValidation.purchase v = 1)).
Proof.
  intros [_ H].
  assert (E : exists p', fst (Purchase_cancel
                (Sample.at_instant (Sample.days 10 + Sample.hours 18 + 1800 * Datetime.second))
                Sample.paid_purchase Sample.db_scanned) = Ok p')
    by (vm_compute; eexists; reflexivity).
  destruct E as [p' E]. rewrite E in H.
  assert (Hv : In (TicketValidation.mk 1 1 9 (Sample.days 10 + Sample.hours 18)
                     "Gate A" EmptyString) (validations Sample.db_scanned))
    by (vm_compute; left; reflexivity).
  discriminate H. right. eexists. split; [exact Hv|reflexivity].
Qed.

(** C3 (amended): for a purchase in status pending or paid, [cancel] fails
    with "Purchase cannot be cancelled" exactly when the event's start is
    at or before now; validations of the purchase play no part.  A stored
    purchase whose event has not started is cancelled. *)
Theorem cancel_fails_iff_event_started
    (env : Env) (p : Purchase.t) (db : DB) (t : Ticket.t) (e : Event.t)
    (Hstatus : Purchase.status p = "pending" \/ Purchase.status p = "paid")
    (Ht : find_ticket (Purchase.ticket p) db = Some t)
    (He : find_event (Ticket.event t) db = Some e) :
  (fst (Purchase_cancel env p db) = Raise (Py.ValueError "Purchase cannot be cancelled")
   <-> Event.start_datetime e <= now env)
  /\ (now env < Event.start_datetime e ->
      Py.truthy_str (Purchase.purchase_reference p) = true ->
      reference_taken (purchases db) p = false ->
      exists p' db', Purchase_cancel env p db = (Ok p', db')
                     /\ Purchase.status p' = "cancelled").
Proof.
  assert (Hin : Py.str_in (Purchase.status p) ["pending"; "paid"] = true)
    by (destruct Hstatus as [-> | ->]; reflexivity).
  assert (Hcan : Purchase_can_be_cancelled env p db
                 = (Ok (negb (Event.start_datetime e <=? now env)), db)).
  { unfold Purchase_can_be_cancelled, bind, Ticket_get, Event_get, get_or_raise.
    rewrite Hin. cbn [negb]. cbv iota. rewrite Ht. cbn. rewrite He. cbn.
    destruct (Event.start_datetime e <=? now env); reflexivity. }
  assert (Hcancel : Purchase_cancel env p db
                    = if Event.start_datetime e <=? now env
                      then (Raise (Py.ValueError "Purchase cannot be cancelled"), db)
                      else Purchase_save env (Purchase.with_status "cancelled" p) db).
  { unfold Purchase_cancel, bind. rewrite Hcan.
    destruct (Event.start_datetime e <=? now env); reflexivity. }
  rewrite Hcancel. split.
  - destruct (Event.start_datetime e <=? now env) eqn:Hle.
    + apply Z.leb_le in Hle. split; auto.
    + apply Z.leb_gt in Hle. split; [|lia].
      intros Hraise. apply Purchase_save_raises in Hraise. contradiction.
  - intros Hlt Href Hfree.
    assert (Hle : (Event.start_datetime e <=? now env) = false) by (apply Z.leb_gt; lia).
    rewrite Hle.
    destruct (Purchase_save_succeeds env (Purchase.with_status "cancelled" p) db t)
      as (p' & db' & Hsave); auto.
    { left. cbn. discriminate. }
    exists p', db'. split; [assumption|].
    destruct (Purchase_save_ok_inv _ _ _ _ _ Hsave) as (k & _ & _ & Hs & _).
    destruct Hs as (_ & _ & _ & _ & Hst & _). exact Hst.
Qed.

Lemma cancel_fails_iff_event_started_witness :
  (fst (Purchase_cancel (Sample.at_instant 300) Sample.paid_purchase Sample.db_paid)
   = Raise (Py.ValueError "Purchase cannot be cancelled")
   <-> Event.start_datetime Sample.concert <= now (Sample.at_instant 300))
  /\ (now (Sample.at_instant 300) < Event.start_datetime Sample.concert ->
      Py.truthy_str (Purchase.purchase_reference Sample.paid_purchase) = true ->
      reference_taken (purchases Sample.db_paid) Sample.paid_purchase = false ->
      exists p' db',
        Purchase_cancel (Sample.at_instant 300) Sample.paid_purchase Sample.db_paid
        = (Ok p', db')
        /\ Purchase.status p' = "cancelled").
Proof.
  apply (cancel_fails_iff_event_started (Sample.at_instant 300) Sample.paid_purchase
           Sample.db_paid (Ticket.with_quantity_sold 2 Sample.ticket_on_sale)
           Sample.concert).
  - right. vm_compute. reflexivity.
  - vm_compute. reflexivity.
  - vm_compute. reflexivity.
Defined.

(* ================================================================== *)
(** ** Validation at the gate *)
(* ================================================================== *)







(* ================================================================== *)
(** ** Refund requests *)
(* ================================================================== *)



(** [models.Model.save] on a refund request always returns, and the row it
    writes is the instance it returns. *)
Lemma RefundRequest_save_returns (env : Env) (r : RefundRequest.t) (db : DB) :
  exists r' db', RefundRequest_save env r db = (Ok r', db')
                 /\ In r' (refund_requests db')
                 /\ RefundRequest.status r' = RefundRequest.status r
                 /\ RefundRequest.payment r' = RefundRequest.payment r
                 /\ RefundRequest.amount r' = RefundRequest.amount r.
Proof.
  unfold RefundRequest_save. cbn.
  destruct (RefundRequest.id r) as [k|] eqn:Hid.
  - destruct (existsb _ _) eqn:Hex.
    + eexists _, _. split; [reflexivity|]. cbn. split; [|auto].
      apply existsb_exists in Hex as (x & Hin & Hx).
      apply in_map_iff. exists x. now rewrite Hx.
    + eexists _, _. split; [reflexivity|]. cbn. split; [|auto].
      apply in_or_app. right. now left.
  - eexists _, _. split; [reflexivity|]. cbn. split; [|auto].
    apply in_or_app. right. now left.
Qed.













(** The payment service of the repository never reports a success: when the
    draw is below the threshold, reading [payment_method] from the payment
    raises, and the exception is turned into a failure.  It writes
    nothing. *)
Lemma PaymentService_process_refund_fails (env : Env) (r : RefundRequest.t) (db : DB) :
  exists error, PaymentService_process_refund env r db = (Ok (RefundFailure error), db).
Proof.
  unfold PaymentService_process_refund, PaymentService_process_refund_body.
  unfold bind at 1. unfold Payment_get, get_or_raise.
  destruct (find_payment (RefundRequest.payment r) db) as [pay|]; cbn;
    [|eexists; reflexivity].
  destruct (random_53 env <? threshold_095); cbn; eexists; reflexivity.
Qed.

(** Whatever [RefundRequestViewSet.create] answers other than 201, it has
    written nothing. *)
Lemma RefundRequestViewSet_create_writes_only_on_201 (env : Env) (user : Z)
    (d : RefundRequestCreateRequest) (db : DB) :
  status_code (fst (RefundRequestViewSet_create env user d db)) <> HTTP_201_CREATED ->
  snd (RefundRequestViewSet_create env user d db) = db.
Proof.
  unfold RefundRequestViewSet_create.
  destruct (payment_id d) as [pid|]; [|reflexivity].
  destruct (pid =? 0); [reflexivity|].
  destruct (find _ (payments db)) as [pay|]; [|reflexivity].
  destruct (RefundRequestCreateSerializer_errors db pay d); [|reflexivity].
  destruct (RefundRequest_save_returns env
              (RefundRequest.mk None (Payment.id pay) user
                 (DecimalField_quantize 2 (amount d)) (Py.strip (reason d))
                 "pending" None EmptyString EmptyString None None None None) db)
    as (r & db' & -> & _).
  cbn. intros H. now contradiction H.
Qed.

(** C8, as the specification states it, fails: the payment of the sample
    has a pending request, so the claim asks for the answer "A refund
    request is already pending for this payment"; the request asks for more
    than the payment's amount, and the answer is "Refund amount cannot
    exceed payment amount", the check that comes first. *)
Lemma refund_rejection_kinds_counterexample :
  ~ ((exists r, In r (refund_requests Sample.db_refund_requested)
                /\ RefundRequest.payment r = Payment.id Sample.payment
                /\ outstanding r = true) ->
     fst (RefundRequestViewSet_create (Sample.at_instant 500) 7
            (mkRefundRequestCreateRequest (Some 1) (mkDecimal 15000 (-2)) "Cannot attend")
            Sample.db_refund_requested)
     = mkResponse HTTP_400_BAD_REQUEST
         (SerializerErrors [("non_field_errors", msg_duplicate)])).
Proof.
  intros H.
  assert (Hout : exists r, In r (refund_requests Sample.db_refund_requested)
                           /\ RefundRequest.payment r = Payment.id Sample.payment
                           /\ outstanding r = true).
  { exists Sample.refund_request. split; [left; reflexivity|]. split; reflexivity. }
  specialize (H Hout).
  assert (E : fst (RefundRequestViewSet_create (Sample.at_instant 500) 7
                     (mkRefundRequestCreateRequest (Some 1) (mkDecimal 15000 (-2))
                        "Cannot attend")
                     Sample.db_refund_requested)
              = mkResponse HTTP_400_BAD_REQUEST
                  (SerializerErrors [("non_field_errors", msg_amount_exceeds)]))
    by (vm_compute; reflexivity).
  rewrite E in H. unfold msg_amount_exceeds, msg_duplicate in H. discriminate H.
Qed.

(** C8 (amended): on a request for a payment of the requester whose fields
    are valid, creating a refund request runs three checks in order and
    fails with the first that applies: "Payment cannot be refunded" when the
    payment is not successful; "Refund amount cannot exceed payment amount"
    when the payment is successful and the amount exceeds the payment's; "A
    refund request is already pending for this payment" when the payment is
    successful, the amount does not exceed it and a pending, approved or
    processing request exists for the payment.  The three messages differ,
    and no answer other than 201 writes anything. *)
Theorem refund_request_rejections
    (env : Env) (user pid : Z) (db : DB) (pay : Payment.t)
    (d : RefundRequestCreateRequest)
    (Hpid : payment_id d = Some pid)
    (Hnz : pid <> 0)
    (Hfound : find (fun r => (Payment.id r =? pid) && (Payment.user r =? user))
                   (payments db) = Some pay)
    (Hfields : RefundRequestCreateSerializer_field_errors d = []) :
  (Payment.status pay <> "success" ->
   RefundRequestViewSet_create env user d db
   = (mkResponse HTTP_400_BAD_REQUEST
        (SerializerErrors [("non_field_errors", msg_not_refundable)]), db))
  /\ (Payment.status pay = "success" ->
      Dec.gtb (DecimalField_quantize 2 (amount d)) (Payment.amount pay) = true ->
      RefundRequestViewSet_create env user d db
      = (mkResponse HTTP_400_BAD_REQUEST
           (SerializerErrors [("non_field_errors", msg_amount_exceeds)]), db))
  /\ (Payment.status pay = "success" ->
      Dec.gtb (DecimalField_quantize 2 (amount d)) (Payment.amount pay) = false ->
      (exists r, In r (refund_requests db)
                 /\ RefundRequest.payment r = Payment.id pay
                 /\ outstanding r = true) ->
      RefundRequestViewSet_create env user d db
      = (mkResponse HTTP_400_BAD_REQUEST
           (SerializerErrors [("non_field_errors", msg_duplicate)]), db))
  /\ (msg_not_refundable <> msg_amount_exceeds
      /\ msg_not_refundable <> msg_duplicate
      /\ msg_amount_exceeds <> msg_duplicate)
  /\ (forall env' user' d' db',
        status_code (fst (RefundRequestViewSet_create env' user' d' db'))
        <> HTTP_201_CREATED ->
        snd (RefundRequestViewSet_create env' user' d' db') = db').
Proof.
  assert (Hcreate : RefundRequestViewSet_create env user d db
            = match RefundRequestCreateSerializer_validate db pay
                      (DecimalField_quantize 2 (amount d)) with
              | (_ :: _) as errors =>
                  (mkResponse HTTP_400_BAD_REQUEST (SerializerErrors errors), db)
              | [] => RefundRequestViewSet_create env user d db
              end).
  { unfold RefundRequestViewSet_create at 1. rewrite Hpid.
    apply Z.eqb_neq in Hnz. rewrite Hnz, Hfound.
    unfold RefundRequestCreateSerializer_errors. rewrite Hfields.
    destruct (RefundRequestCreateSerializer_validate db pay
                (DecimalField_quantize 2 (amount d))) eqn:Hv; [|reflexivity].
    unfold RefundRequestViewSet_create. rewrite Hpid, Hnz, Hfound.
    unfold RefundRequestCreateSerializer_errors. rewrite Hfields. now rewrite Hv. }
  repeat split.
  - intros Hns. rewrite Hcreate.
    unfold RefundRequestCreateSerializer_validate, Payment_can_be_refunded.
    apply String.eqb_neq in Hns. rewrite Hns. reflexivity.
  - intros Hs Hgt. rewrite Hcreate.
    unfold RefundRequestCreateSerializer_validate, Payment_can_be_refunded.
    rewrite Hs. change ("success" =? "success")%string with true. cbn [negb]. cbv iota.
    rewrite Hgt. reflexivity.
  - intros Hs Hle (r & Hin & Hp & Hout). rewrite Hcreate.
    unfold RefundRequestCreateSerializer_validate, Payment_can_be_refunded.
    rewrite Hs. change ("success" =? "success")%string with true. cbn [negb]. cbv iota.
    rewrite Hle.
    assert (Hr : In r (existing_refunds (refund_requests db) (Payment.id pay))).
    { unfold existing_refunds. apply filter_In. split; [assumption|].
      rewrite Hp, Z.eqb_refl. exact Hout. }
    destruct (existing_refunds (refund_requests db) (Payment.id pay));
      [destruct Hr | reflexivity].
  - discriminate.
  - discriminate.
  - discriminate.
  - apply RefundRequestViewSet_create_writes_only_on_201.
Qed.

Lemma refund_request_rejections_witness :
  (Payment.status Sample.payment <> "success" ->
   RefundRequestViewSet_create (Sample.at_instant 500) 7
     (mkRefundRequestCreateRequest (Some 1) (mkDecimal 15000 (-2)) "Cannot attend")
     Sample.db_refund_requested
   = (mkResponse HTTP_400_BAD_REQUEST
        (SerializerErrors [("non_field_errors", msg_not_refundable)]),
      Sample.db_refund_requested))
  /\ (Payment.status Sample.payment = "success" ->
      Dec.gtb (DecimalField_quantize 2
                 (amount (mkRefundRequestCreateRequest (Some 1) (mkDecimal 15000 (-2))
                            "Cannot attend")))
              (Payment.amount Sample.payment) = true ->
      RefundRequestViewSet_create (Sample.at_instant 500) 7
        (mkRefundRequestCreateRequest (Some 1) (mkDecimal 15000 (-2)) "Cannot attend")
        Sample.db_refund_requested
      = (mkResponse HTTP_400_BAD_REQUEST
           (SerializerErrors [("non_field_errors", msg_amount_exceeds)]),
         Sample.db_refund_requested))
  /\ (Payment.status Sample.payment = "success" ->
      Dec.gtb (DecimalField_quantize 2
                 (amount (mkRefundRequestCreateRequest (Some 1) (mkDecimal 15000 (-2))
                            "Cannot attend")))
              (Payment.amount Sample.payment) = false ->
      (exists r, In r (refund_requests Sample.db_refund_requested)
                 /\ RefundRequest.payment r = Payment.id Sample.payment
                 /\ outstanding r = true) ->
      RefundRequestViewSet_create (Sample.at_instant 500) 7
        (mkRefundRequestCreateRequest (Some 1) (mkDecimal 15000 (-2)) "Cannot attend")
        Sample.db_refund_requested
      = (mkResponse HTTP_400_BAD_REQUEST
           (SerializerErrors [("non_field_errors", msg_duplicate)]),
         Sample.db_refund_requested))
  /\ (msg_not_refundable <> msg_amount_exceeds
      /\ msg_not_refundable <> msg_duplicate
      /\ msg_amount_exceeds <> msg_duplicate)
  /\ (forall env' user' d' db',
        status_code (fst (RefundRequestViewSet_create env' user' d' db'))
        <> HTTP_201_CREATED ->
        snd (RefundRequestViewSet_create env' user' d' db') = db').
Proof.
  apply (refund_request_rejections (Sample.at_instant 500) 7 1
           Sample.db_refund_requested Sample.payment
           (mkRefundRequestCreateRequest (Some 1) (mkDecimal 15000 (-2)) "Cannot attend")).
  - reflexivity.
  - lia.
  - vm_compute. reflexivity.
  - vm_compute. reflexivity.
Defined.





Lemma RefundRequest_save_sales (env : Env) (r : RefundRequest.t) (db : DB) :
  sales_untouched db (snd (RefundRequest_save env r db)).
Proof.
  unfold RefundRequest_save, sales_untouched.
  cbn [RefundRequest.id RefundRequest.with_updated_at].
  destruct (RefundRequest.id r); [destruct (existsb _ _)|]; repeat split.
Qed.

Lemma sales_untouched_trans (db1 db2 db3 : DB) :
  sales_untouched db1 db2 -> sales_untouched db2 db3 -> sales_untouched db1 db3.
Proof.
  unfold sales_untouched. intros (A & B & C) (A' & B' & C').
  repeat split; congruence.
Qed.

Lemma RefundRequest_approve_sales (env : Env) (r : RefundRequest.t) (admin : Z)
    (notes : string) (db : DB) :
  sales_untouched db (snd (RefundRequest_approve env r admin notes db)).
Proof.
  unfold RefundRequest_approve, bind, RefundRequest_can_be_approved.
  destruct (RefundRequest.status r =? "pending")%string; [|repeat split].
  unfold bind, Payment_get, get_or_raise.
  destruct (find_payment (RefundRequest.payment r) db) as [pay|]; cbn; [|repeat split].
  destruct (Payment_can_be_refunded pay); cbn; [|repeat split].
  apply RefundRequest_save_sales.
Qed.

(** With the payment service of the repository, the body of the review
    writes refund requests only. *)
Lemma review_body_sales (env : Env) (user : Z) (rr : RefundRequest.t)
    (action notes : string) (db : DB) :
  sales_untouched db (snd (review_body PaymentService env user rr action notes db)).
Proof.
  unfold review_body.
  destruct (action =? "approve")%string.
  - unfold bind at 1.
    pose proof (RefundRequest_approve_sales env rr user notes db) as H1.
    destruct (RefundRequest_approve env rr user notes db) as [[r1|e] db1];
      cbn [snd] in H1; [|exact H1].
    unfold bind at 1. cbn [process_refund PaymentService].
    destruct (PaymentService_process_refund_fails env r1 db1) as [err ->].
    eapply sales_untouched_trans; [exact H1|apply RefundRequest_save_sales].
  - destruct (action =? "reject")%string; [|repeat split].
    unfold RefundRequest_reject.
    destruct (negb (RefundRequest.status rr =? "pending")%string); [repeat split|].
    apply RefundRequest_save_sales.
Qed.

(** C2, as the specification states it, fails: an admin approves the pending
    request of the sample at a draw for which the gateway reports success;
    after the review the request is not completed and the purchase it would
    refund is still stored as paid. *)
Lemma review_marks_refunded_counterexample :
  ~ (random_53 (Sample.at_instant 500) < threshold_095 ->
     exists completed p,
       data (fst (RefundRequestViewSet_review PaymentService (Sample.at_instant 500)
                    Sample.admin 1 Sample.approve Sample.db_refund_requested))
       = RefundRequestData completed
       /\ RefundRequest.status completed = "completed"
       /\ find_purchase 1
            (snd (RefundRequestViewSet_review PaymentService (Sample.at_instant 500)
                    Sample.admin 1 Sample.approve Sample.db_refund_requested))
          = Some p
       /\ Purchase.status p = "refunded").
Proof.
  intros H.
  destruct H as (completed & p & Hdata & Hstatus & Hfind & Hrefunded);
    [vm_compute; reflexivity|].
  assert (E : find_purchase 1
                (snd (RefundRequestViewSet_review PaymentService (Sample.at_instant 500)
                        Sample.admin 1 Sample.approve Sample.db_refund_requested))
              = Some Sample.paid_purchase) by (vm_compute; reflexivity).
  rewrite E in Hfind. injection Hfind as <-.
  assert (P : Purchase.status Sample.paid_purchase = "paid") by (vm_compute; reflexivity).
  rewrite P in Hrefunded. discriminate Hrefunded.
Qed.

(** C2 (amended): the review of a refund request, whoever asks for it and
    whatever it decides, writes refund requests only: the purchases, the
    tickets and the payments are after the review what they were before it,
    so the purchase of the refunded payment keeps the status it had.
    Nothing marks a purchase as refunded. *)
Theorem review_leaves_purchases_untouched
    (env : Env) (reviewer : User.t) (rid : Z) (request_data : RefundApprovalRequest)
    (db : DB) :
  sales_untouched db
    (snd (RefundRequestViewSet_review PaymentService env reviewer rid request_data db))
  /\ forall k,
       find_purchase k
         (snd (RefundRequestViewSet_review PaymentService env reviewer rid request_data db))
       = find_purchase k db.
Proof.
  assert (H : sales_untouched db
                (snd (RefundRequestViewSet_review PaymentService env reviewer rid
                        request_data db))).
  { unfold RefundRequestViewSet_review.
    destruct (negb (User.role reviewer =? "admin")%string); [repeat split|].
    destruct (find_refund_request rid db) as [rr|]; [|repeat split].
    destruct (negb (Py.str_in (action request_data) ["approve"; "reject"]));
      [repeat split|].
    pose proof (review_body_sales env (User.id reviewer) rr (action request_data)
                  (get_or_empty (admin_notes request_data)) db) as Hb.
    destruct (review_body PaymentService env (User.id reviewer) rr
                (action request_data) (get_or_empty (admin_notes request_data)) db)
      as [[r|e] db']; cbn [snd] in Hb; [exact Hb|].
    destruct e; exact Hb. }
  split; [exact H|].
  intros k. unfold find_purchase. destruct H as (Hp & _). now rewrite Hp.
Qed.

(* ================================================================== *)
(** ** More on validation at the gate *)
(* ================================================================== *)

(** [to_pk] reads; it writes nothing. *)
Lemma to_pk_reads (j : json) (db : DB) : snd (to_pk j db) = db.
Proof.
  destruct j as [|b|n|s|l|l]; cbn; try reflexivity.
  destruct (Py.int_of_str s); reflexivity.
Qed.

Ltac unchanged :=
  match goal with
  | Hres : ?res = _ |- _ =>
      subst res; left; split; [reflexivity | intros ? ? H; cbn in H; discriminate H]
  end.

(** X1: a scan writes nothing unless it is accepted, and an accepted scan
    appends one validation record, stamped with the purchase found, the
    validating user and the time of the scan, and changes nothing else. *)
Theorem validate_qr_writes_only_when_accepted
    (json_loads : string -> option json) (env : Env) (user : Z)
    (req : QRCodeValidationRequest) (db : DB) :
  (snd (validate_qr json_loads env user req db) = db
   /\ forall message v,
        data (fst (validate_qr json_loads env user req db))
        <> ValidationSuccess message v)
  \/ exists v,
       fst (validate_qr json_loads env user req db)
       = mkResponse HTTP_200_OK (ValidationSuccess "Ticket validated successfully" v)
       /\ snd (validate_qr json_loads env user req db)
          = with_validations (validations db ++ [v])%list db
       /\ TicketValidation.validated_by v = user
       /\ TicketValidation.validation_datetime v = now env
       /\ (exists p, find_purchase (TicketValidation.purchase v) db = Some p
                     /\ Purchase.status p = "paid")
       /\ ~ In (TicketValidation.id v) (map TicketValidation.id (validations db)).
Proof.
  remember (validate_qr json_loads env user req db) as res eqn:Hres.
  unfold validate_qr in Hres.
  destruct (QRCodeValidationSerializer_errors req) as [|err errs]; [|unchanged].
  destruct (json_loads _) as [qr|]; [|unchanged].
  unfold validate_qr_body in Hres.
  destruct qr as [|b|n|s|l|items]; try unchanged.
  unfold bind at 1 in Hres. unfold ret at 1 in Hres.
  destruct (Json.get items "purchase_id") as [j|]; [|unchanged].
  destruct (Json.truthy j); cbn [negb] in Hres; cbv iota in Hres; [|unchanged].
  unfold bind at 1 in Hres. unfold get_Purchase_or_404 in Hres.
  unfold bind at 1 in Hres.
  pose proof (to_pk_reads j db) as Hpk.
  destruct (to_pk j db) as [[k|e] db0]; cbn in Hpk; subst db0; [|unchanged].
  unfold bind at 1 in Hres. unfold gets at 1 in Hres.
  destruct (find_purchase k db) as [p|] eqn:Hp; [|unchanged].
  unfold ret at 1 in Hres.
  destruct (Purchase.status p =? "paid")%string eqn:Hpaid;
    cbn [negb] in Hres; cbv iota in Hres; [|unchanged].
  unfold bind at 1 in Hres. unfold Ticket_get, get_or_raise in Hres.
  destruct (find_ticket (Purchase.ticket p) db) as [t|]; [|unchanged].
  unfold ret at 1 in Hres. unfold bind at 1 in Hres.
  unfold Event_get, get_or_raise in Hres.
  destruct (find_event (Ticket.event t) db) as [e|]; [|unchanged].
  unfold ret at 1 in Hres.
  destruct (Event.end_datetime e <? now env); [unchanged|].
  destruct (Datetime.date (now env) <? Datetime.date (Event.start_datetime e));
    [unchanged|].
  unfold bind at 1 in Hres. unfold gets at 1 in Hres.
  destruct (first _) as [prior|]; [unchanged|].
  unfold bind, TicketValidation_create, ret in Hres. subst res.
  right. eexists. split; [reflexivity|]. split; [reflexivity|].
  cbn [TicketValidation.validated_by TicketValidation.validation_datetime
       TicketValidation.purchase TicketValidation.id].
  split; [reflexivity|]. split; [reflexivity|].
  split.
  - exists p. split; [assumption|]. now apply String.eqb_eq.
  - intros Hin. apply fold_max_le in Hin. unfold next_id in Hin. lia.
Qed.








(* ================================================================== *)
(** ** More on the review of refund requests *)
(* ================================================================== *)







(* ================================================================== *)
(** ** More on the life of a purchase *)
(* ================================================================== *)

Lemma step_keeps_terms (env : Env) (op : Op) (db : DB) (k0 : Z) (q : Purchase.t) :
  find_purchase k0 db = Some q ->
  exists q', find_purchase k0 (snd (step env op db)) = Some q'
             /\ Purchase.ticket q' = Purchase.ticket q
             /\ Purchase.user q' = Purchase.user q
             /\ Purchase.quantity q' = Purchase.quantity q
             /\ Purchase.unit_price q' = Purchase.unit_price q
             /\ (Py.truthy_str (Purchase.purchase_reference q) = true ->
                 Purchase.purchase_reference q' = Purchase.purchase_reference q).
Proof.
  intros Hq.
  destruct (step_db env op db) as [->|(p & -> & Hp)]; [exists q; auto 10|].
  destruct (Purchase_save_db env p db)
    as [->|(p' & k & rows' & Hid & Hpk & Hs & Hw & Hcase)]; [exists q; auto 10|].
  assert (Hfind : find_purchase k0 (snd (Purchase_save env p db))
                  = find (fun r => has_pk k0 (Purchase.id r)) rows').
  { destruct Hcase as [[_ ->]|[_ ->]]; reflexivity. }
  rewrite Hfind.
  destruct (Z.eq_dec k0 k) as [->|Hne].
  - rewrite (find_row_written k p' _ _ Hid Hw). exists p'. split; [reflexivity|].
    destruct Hpk as [(_ & _ & Hfresh)|Hsame].
    + apply find_existsb in Hq. unfold find_purchase in Hq. congruence.
    + destruct Hp as [Hnone|(k1 & p0 & s & Hp0 & ->)]; [congruence|].
      cbn in Hsame. destruct (find_purchase_id _ _ _ Hp0) as [Hid0 _].
      assert (k1 = k) by congruence. subst k1.
      assert (p0 = q) by congruence. subst p0.
      destruct Hs as (Htk & Hu & Hqty & Hup & _ & _ & _ & _ & _ & Href).
      auto.
  - rewrite (find_other_row_written k k0 p' _ _ Hid Hne Hw). exists q. auto 10.
Qed.

(** X8: along every history of purchase requests a stored purchase stays stored
    under its key, and its ticket, its buyer, its quantity, its unit price
    and its reference stay what they were: no request deletes a row or
    rewrites the terms of an order. *)
Theorem purchase_terms_frozen_along_history
    (history : list (Env * Op)) (db : DB) (k : Z) (p : Purchase.t)
    (Hp : find_purchase k db = Some p) :
  exists p', find_purchase k (run history db) = Some p'
             /\ Purchase.ticket p' = Purchase.ticket p
             /\ Purchase.user p' = Purchase.user p
             /\ Purchase.quantity p' = Purchase.quantity p
             /\ Purchase.unit_price p' = Purchase.unit_price p
             /\ (Py.truthy_str (Purchase.purchase_reference p) = true ->
                 Purchase.purchase_reference p' = Purchase.purchase_reference p).
Proof.
  revert db p Hp. induction history as [|[env op] rest IH]; intros db p Hp; cbn [run].
  - exists p. auto 10.
  - destruct (step_keeps_terms env op db k p Hp) as (q & Hq & Htk & Hu & Hqty & Hup & Href).
    destruct (IH _ q Hq) as (p' & Hp' & Htk' & Hu' & Hqty' & Hup' & Href').
    exists p'. split; [assumption|].
    repeat split; try congruence.
    intros Ht. rewrite <- (Href Ht). apply Href'. now rewrite (Href Ht).
Qed.

Lemma purchase_terms_frozen_along_history_witness :
  exists p', find_purchase 1 (run [(Sample.at_instant 300, OpCancel 1)] Sample.db_paid)
             = Some p'
             /\ Purchase.ticket p' = Purchase.ticket Sample.paid_purchase
             /\ Purchase.user p' = Purchase.user Sample.paid_purchase
             /\ Purchase.quantity p' = Purchase.quantity Sample.paid_purchase
             /\ Purchase.unit_price p' = Purchase.unit_price Sample.paid_purchase
             /\ (Py.truthy_str (Purchase.purchase_reference Sample.paid_purchase) = true ->
                 Purchase.purchase_reference p'
                 = Purchase.purchase_reference Sample.paid_purchase).
Proof.
  apply (purchase_terms_frozen_along_history
           [(Sample.at_instant 300, OpCancel 1)] Sample.db_paid 1 Sample.paid_purchase).
  vm_compute. reflexivity.
Defined.

Lemma Purchase_can_be_cancelled_db (env : Env) (p : Purchase.t) (db : DB) :
  snd (Purchase_can_be_cancelled env p db) = db.
Proof.
  unfold Purchase_can_be_cancelled, bind, Ticket_get, Event_get, get_or_raise.
  destruct (negb (Py.str_in (Purchase.status p) ["pending"; "paid"])); [reflexivity|].
  destruct (find_ticket (Purchase.ticket p) db) as [t|]; cbn; [|reflexivity].
  destruct (find_event (Ticket.event t) db) as [e|]; cbn; [|reflexivity].
  destruct (Event.start_datetime e <=? now env); reflexivity.
Qed.

(** A purchase whose status is neither [pending] nor [paid] cannot be
    cancelled: [cancel] raises before it reads the ticket or the clock. *)
Lemma Purchase_cancel_refused_by_status (env : Env) (p : Purchase.t) (db : DB) :
  Py.str_in (Purchase.status p) ["pending"; "paid"] = false ->
  Purchase_cancel env p db
  = (Raise (Py.ValueError "Purchase cannot be cancelled"), db).
Proof.
  intros H. unfold Purchase_cancel, bind, Purchase_can_be_cancelled.
  rewrite H. reflexivity.
Qed.

(** X9: a cancellation that goes through cannot be repeated: the instance it
    returns is stored with status [cancelled], and cancelling that instance
    again, at any later instant, raises and writes nothing. *)
Theorem cancel_not_repeatable
    (env : Env) (p p' : Purchase.t) (db db' : DB)
    (Hcancel : Purchase_cancel env p db = (Ok p', db')) :
  Purchase.status p' = "cancelled"
  /\ (exists k, Purchase.id p' = Some k /\ find_purchase k db' = Some p')
  /\ forall env',
       Purchase_cancel env' p' db'
       = (Raise (Py.ValueError "Purchase cannot be cancelled"), db').
Proof.
  unfold Purchase_cancel in Hcancel. unfold bind at 1 in Hcancel.
  pose proof (Purchase_can_be_cancelled_db env p db) as Hdb.
  destruct (Purchase_can_be_cancelled env p db) as [[c|e] db1]; cbn in Hdb; subst db1;
    [|discriminate].
  destruct c; cbn [negb] in Hcancel; cbv iota in Hcancel; [|discriminate].
  destruct (Purchase_save_ok_inv _ _ _ _ _ Hcancel) as (k & Hid & _ & Hs & _ & Hf).
  destruct Hs as (_ & _ & _ & _ & Hst & _).
  cbn in Hst.
  split; [assumption|]. split; [eauto|].
  intros env'. apply Purchase_cancel_refused_by_status. now rewrite Hst.
Qed.

Lemma cancel_not_repeatable_witness :
  Purchase.status
    (Purchase.with_updated_at (Some 300)
       (Purchase.with_status "cancelled" Sample.paid_purchase)) = "cancelled"
  /\ (exists k,
        Purchase.id
          (Purchase.with_updated_at (Some 300)
             (Purchase.with_status "cancelled" Sample.paid_purchase)) = Some k
        /\ find_purchase k (run Sample.paid_then_cancelled Sample.db0)
           = Some (Purchase.with_updated_at (Some 300)
                     (Purchase.with_status "cancelled" Sample.paid_purchase)))
  /\ forall env',
       Purchase_cancel env'
         (Purchase.with_updated_at (Some 300)
            (Purchase.with_status "cancelled" Sample.paid_purchase))
         (run Sample.paid_then_cancelled Sample.db0)
       = (Raise (Py.ValueError "Purchase cannot be cancelled"),
          run Sample.paid_then_cancelled Sample.db0).
Proof.
  apply (cancel_not_repeatable (Sample.at_instant 300) Sample.paid_purchase
           (Purchase.with_updated_at (Some 300)
              (Purchase.with_status "cancelled" Sample.paid_purchase))
           Sample.db_paid (run Sample.paid_then_cancelled Sample.db0)).
  vm_compute. reflexivity.
Defined.

(* ================================================================== *)
(** ** How the counter of sold units moves *)
(* ================================================================== *)

Lemma with_quantity_sold_same (r : Ticket.t) :
  Ticket.with_quantity_sold (Ticket.quantity_sold r) r = r.
Proof. destruct r; reflexivity. Qed.

Lemma paid_quantity_appended (rows : list Purchase.t) (p' : Purchase.t) (T : Z) :
  paid_quantity (rows ++ [p']) T
  = paid_quantity rows T + (if Purchase.ticket p' =? T then sold_units p' else 0).
Proof.
  unfold paid_quantity, paid_purchases, sold_units.
  rewrite filter_app, map_app, fold_right_app. cbn [filter].
  destruct (Purchase.ticket p' =? T); cbn [andb].
  - destruct (Purchase.status p' =? "paid")%string; cbn [map fold_right].
    + induction (map Purchase.quantity (filter _ rows)) as [|x l IH]; cbn; lia.
    + lia.
  - cbn [map fold_right]. lia.
Qed.

Lemma paid_quantity_replaced (k T : Z) (p0 p' : Purchase.t) (rows : list Purchase.t) :
  NoDup (map Purchase.id rows) ->
  In p0 rows -> Purchase.id p0 = Some k ->
  paid_quantity (map (fun r => if has_pk k (Purchase.id r) then p' else r) rows) T
  = paid_quantity rows T
    - (if Purchase.ticket p0 =? T then sold_units p0 else 0)
    + (if Purchase.ticket p' =? T then sold_units p' else 0).
Proof.
  intros Hnd Hin Hid.
  assert (Hcons : forall a l, paid_quantity (a :: l) T
                  = (if Purchase.ticket a =? T then sold_units a else 0)
                    + paid_quantity l T).
  { intros a l. unfold paid_quantity, paid_purchases, sold_units. cbn [filter].
    destruct (Purchase.ticket a =? T); cbn [andb]; [|lia].
    destruct (Purchase.status a =? "paid")%string; cbn [map fold_right]; lia. }
  induction rows as [|a rows IH]; [destruct Hin|].
  cbn [map]. rewrite !Hcons. inversion Hnd as [|x l Hnotin Hnd']; subst.
  destruct Hin as [->|Hin].
  - rewrite Hid. cbn [has_pk]. rewrite Z.eqb_refl.
    assert (Hrest : map (fun r => if has_pk k (Purchase.id r) then p' else r) rows = rows).
    { rewrite <- (map_id rows) at 2. apply map_ext_in. intros b Hb.
      destruct (has_pk k (Purchase.id b)) eqn:Hpk; [|reflexivity].
      exfalso. apply Hnotin. rewrite Hid.
      destruct (Purchase.id b) as [j|] eqn:Hj; [|discriminate].
      apply has_pk_Some in Hpk. subst j. rewrite <- Hj. now apply in_map. }
    rewrite Hrest. lia.
  - assert (Ha : has_pk k (Purchase.id a) = false).
    { destruct (has_pk k (Purchase.id a)) eqn:Hpk; [|reflexivity].
      exfalso. apply Hnotin.
      destruct (Purchase.id a) as [j|] eqn:Hj; [|discriminate].
      apply has_pk_Some in Hpk. subst j. rewrite <- Hid. now apply in_map. }
    rewrite Ha. rewrite (IH Hnd' Hin). lia.
Qed.

Lemma find_ticket_recount (T : Z) (db : DB) (rows' : list Purchase.t) (t : Ticket.t) :
  find_ticket T db = Some t ->
  find_ticket T (recount T (with_purchases rows' db))
  = Some (Ticket.with_quantity_sold (paid_quantity rows' T) t).
Proof.
  unfold find_ticket, recount. cbn [tickets with_tickets with_purchases purchases].
  induction (tickets db) as [|a l IH]; cbn [find map]; [discriminate|].
  destruct (Ticket.id a =? T) eqn:Ha.
  - intros [= ->]. cbn [Ticket.with_quantity_sold Ticket.id]. now rewrite Ha.
  - rewrite Ha. exact IH.
Qed.

Lemma find_ticket_id (T : Z) (db : DB) (t : Ticket.t) :
  find_ticket T db = Some t -> Ticket.id t = T /\ In t (tickets db).
Proof.
  unfold find_ticket. intros H. apply find_some in H as [Hin Hid].
  apply Z.eqb_eq in Hid. auto.
Qed.


(** Saving a stored row with another status, when the save returns, moves
    the counter of its ticket by the units the row stops or starts to add. *)
Lemma status_change_counter (env : Env) (k : Z) (s : string) (db db' : DB)
    (p0 p' : Purchase.t) (t : Ticket.t) :
  purchase_keys_ok (purchases db) ->
  inventory_consistent db ->
  find_purchase k db = Some p0 ->
  find_ticket (Purchase.ticket p0) db = Some t ->
  Purchase_save env (Purchase.with_status s p0) db = (Ok p', db') ->
  saved_from (Purchase.with_status s p0) p'
  /\ find_purchase k db' = Some p'
  /\ find_ticket (Purchase.ticket p0) db'
     = Some (Ticket.with_quantity_sold
               (Ticket.quantity_sold t - sold_units p0 + sold_units p') t)
  /\ events db' = events db
  /\ validations db' = validations db.
Proof.
  intros Hkeys Hinv Hp0 Ht Hsave.
  destruct (find_purchase_id _ _ _ Hp0) as [Hid0 Hin0].
  destruct (find_ticket_id _ _ _ Ht) as [Htid Htin].
  destruct (Purchase_save_spec env (Purchase.with_status s p0) db)
    as [(e & He & _)|(q & j & rows' & Hid & Hpk & Hs & Hw & Hcase)]; [congruence|].
  cbn [Purchase.with_status Purchase.id Purchase.ticket] in Hpk, Hcase.
  destruct Hpk as [(Hnone & _)|Hsame]; [congruence|].
  assert (j = k) by congruence. subst j.
  assert (Hk : k <> 0).
  { destruct Hkeys as [_ Hall]. destruct (Hall p0 Hin0) as (j & Hj & Hj0). congruence. }
  destruct Hcase as [(_ & _ & E)|[(_ & _ & E)|(Hk0 & _)]]; [|congruence|contradiction].
  rewrite E in Hsave. injection Hsave as -> <-.
  split; [assumption|].
  assert (Hrows : rows' = map (fun r => if has_pk k (Purchase.id r) then p' else r)
                              (purchases db)).
  { destruct Hw as [[_ ->]|[Hex _]]; [reflexivity|].
    unfold find_purchase in Hp0. apply find_existsb in Hp0. congruence. }
  split.
  - unfold find_purchase. rewrite purchases_recount.
    cbn [purchases with_purchases].
    now apply find_row_written with (rows := purchases db).
  - rewrite (find_ticket_recount _ db rows' t Ht).
    split; [|split; reflexivity]. do 2 f_equal.
    rewrite Hrows.
    rewrite (paid_quantity_replaced k (Purchase.ticket p0) p0 p' (purchases db)
               (proj1 Hkeys) Hin0 Hid0).
    assert (Htk : Purchase.ticket p' = Purchase.ticket p0) by apply Hs.
    rewrite Htk, Z.eqb_refl.
    rewrite (Hinv t Htin), Htid. reflexivity.
Qed.

(** X10: an order that is not paid reserves nothing: creating a purchase leaves
    every ticket row, and so every answer of [can_purchase], as it was. *)
Theorem order_reserves_nothing
    (env : Env) (ticket user quantity : Z) (unit_price : Decimal)
    (payment_method : string) (db : DB)
    (Hinv : inventory_consistent db) :
  tickets (snd (PurchaseCreateSerializer_create env ticket user quantity unit_price
                  payment_method db))
  = tickets db.
Proof.
  unfold PurchaseCreateSerializer_create.
  match goal with |- context [Purchase_save env ?x db] => set (p := x) end.
  destruct (Purchase_save_db env p db)
    as [->|(p' & k & rows' & Hid & Hpk & Hs & Hw & Hcase)]; [reflexivity|].
  destruct Hpk as [(_ & _ & Hfresh)|Hsame]; [|discriminate].
  destruct Hcase as [[_ ->]|[_ ->]]; [|reflexivity].
  assert (Hrows : rows' = (purchases db ++ [p'])%list).
  { destruct Hw as [[Hex _]|[_ ->]]; [congruence|reflexivity]. }
  assert (Hst : Purchase.status p' = "pending") by apply Hs.
  unfold recount. cbn [tickets with_tickets with_purchases purchases].
  rewrite <- (map_id (tickets db)) at 2. apply map_ext_in. intros r Hr.
  destruct (Ticket.id r =? Purchase.ticket p) eqn:E; [|reflexivity].
  apply Z.eqb_eq in E.
  rewrite Hrows, paid_quantity_appended. unfold sold_units. rewrite Hst.
  change ("pending" =? "paid")%string with false.
  rewrite <- E, <- (Hinv r Hr).
  destruct (Purchase.ticket p' =? Ticket.id r); rewrite Z.add_0_r;
    apply with_quantity_sold_same.
Qed.

Lemma order_reserves_nothing_witness :
  tickets (snd (PurchaseCreateSerializer_create (Sample.at_instant 250) 3 7 3
                  Sample.price "card" Sample.db_paid))
  = tickets Sample.db_paid.
Proof.
  apply (order_reserves_nothing (Sample.at_instant 250) 3 7 3 Sample.price "card"
           Sample.db_paid).
  apply inventory_consistent_check. vm_compute. reflexivity.
Defined.

(** X11: marking a stored, unpaid purchase as paid returns, issues its
    credential, and raises the counter of its ticket by the quantity of the
    purchase; the quantity available is not consulted. *)
Theorem paying_adds_quantity
    (env : Env) (k : Z) (db : DB) (p0 : Purchase.t)
    (t : Ticket.t) (e : Event.t) (u : User.t)
    (Hkeys : purchase_keys_ok (purchases db))
    (Hinv : inventory_consistent db)
    (Hp0 : find_purchase k db = Some p0)
    (Hunpaid : Purchase.status p0 <> "paid")
    (Href : Py.truthy_str (Purchase.purchase_reference p0) = true)
    (Hfree : reference_taken (purchases db) p0 = false)
    (Ht : find_ticket (Purchase.ticket p0) db = Some t)
    (He : find_event (Ticket.event t) db = Some e)
    (Hu : find_user (Purchase.user p0) db = Some u) :
  exists p' db',
    step env (OpSetStatus k "paid") db = (Ok p', db')
    /\ Purchase.status p' = "paid"
    /\ has_credential p' = true
    /\ find_purchase k db' = Some p'
    /\ find_ticket (Purchase.ticket p0) db'
       = Some (Ticket.with_quantity_sold
                 (Ticket.quantity_sold t + Purchase.quantity p0) t).
Proof.
  assert (Hstep : step env (OpSetStatus k "paid") db
                  = Purchase_save env (Purchase.with_status "paid" p0) db).
  { unfold step, bind, Purchase_get, get_or_raise. rewrite Hp0. reflexivity. }
  rewrite Hstep.
  destruct (Purchase_save_returns env (Purchase.with_status "paid" p0) db t e u)
    as (p' & db' & Hsave); try assumption.
  exists p', db'. split; [assumption|].
  destruct (status_change_counter env k "paid" db db' p0 p' t Hkeys Hinv Hp0 Ht Hsave)
    as (Hs & Hf & Hcount & _).
  destruct Hs as (_ & _ & Hq & _ & Hst & _ & Hcred & _).
  cbn in Hst, Hq, Hcred.
  split; [assumption|]. split; [now apply Hcred|]. split; [assumption|].
  rewrite Hcount. do 2 f_equal. unfold sold_units. rewrite Hst.
  apply String.eqb_neq in Hunpaid. rewrite Hunpaid.
  change ("paid" =? "paid")%string with true. cbv iota. lia.
Qed.

(** X12: cancelling a paid purchase before its event starts returns and lowers
    the counter of its ticket by the quantity of the purchase. *)
Theorem cancel_releases_quantity
    (env : Env) (k : Z) (db : DB) (p0 : Purchase.t) (t : Ticket.t) (e : Event.t)
    (Hkeys : purchase_keys_ok (purchases db))
    (Hinv : inventory_consistent db)
    (Hp0 : find_purchase k db = Some p0)
    (Hpaid : Purchase.status p0 = "paid")
    (Hcred : has_credential p0 = true)
    (Href : Py.truthy_str (Purchase.purchase_reference p0) = true)
    (Hfree : reference_taken (purchases db) p0 = false)
    (Ht : find_ticket (Purchase.ticket p0) db = Some t)
    (He : find_event (Ticket.event t) db = Some e)
    (Hbefore : now env < Event.start_datetime e) :
  exists p' db',
    step env (OpCancel k) db = (Ok p', db')
    /\ Purchase.status p' = "cancelled"
    /\ find_purchase k db' = Some p'
    /\ find_ticket (Purchase.ticket p0) db'
       = Some (Ticket.with_quantity_sold
                 (Ticket.quantity_sold t - Purchase.quantity p0) t).
Proof.
  assert (Hstep : step env (OpCancel k) db
                  = Purchase_save env (Purchase.with_status "cancelled" p0) db).
  { assert (Hle : (Event.start_datetime e <=? now env) = false) by (apply Z.leb_gt; lia).
    assert (Hcan : Purchase_can_be_cancelled env p0 db = (Ok true, db)).
    { unfold Purchase_can_be_cancelled, bind, Ticket_get, Event_get, get_or_raise.
      rewrite Hpaid. change (Py.str_in "paid" ["pending"; "paid"]) with true.
      cbn [negb]. cbv iota. rewrite Ht. cbn. rewrite He. cbn. now rewrite Hle. }
    unfold step. unfold bind at 1. unfold Purchase_get, get_or_raise. rewrite Hp0.
    unfold ret at 1. cbv beta iota.
    unfold Purchase_cancel, bind. rewrite Hcan. reflexivity. }
  rewrite Hstep.
  destruct (Purchase_save_succeeds env (Purchase.with_status "cancelled" p0) db t)
    as (p' & db' & Hsave); try assumption.
  { left. cbn. discriminate. }
  exists p', db'. split; [assumption|].
  destruct (status_change_counter env k "cancelled" db db' p0 p' t Hkeys Hinv Hp0 Ht Hsave)
    as (Hs & Hf & Hcount & _).
  destruct Hs as (_ & _ & Hq & _ & Hst & _).
  cbn in Hst, Hq.
  split; [assumption|]. split; [assumption|].
  rewrite Hcount. do 2 f_equal. unfold sold_units. rewrite Hst, Hpaid.
  change ("paid" =? "paid")%string with true.
  change ("cancelled" =? "paid")%string with false. cbv iota. lia.
Qed.

(* ================================================================== *)
(** ** From the credential back to the purchase *)
(* ================================================================== *)

(** [int(str(n))] is [n]. *)
Lemma int_of_str_str_int (n : Z) : Py.int_of_str (Py.str_int n) = Some n.
Proof.
  unfold Py.int_of_str, Py.str_int.
  rewrite NilZero.isi.
  - cbn [option_map]. now rewrite DecimalZ.of_to.
  - destruct n as [|q|q]; cbn; try discriminate.
    intros [= H]. now apply DecimalPos.Unsigned.to_uint_nonnil in H.
  - destruct n as [|q|q]; cbn; try discriminate.
    intros [= H]. now apply DecimalPos.Unsigned.to_uint_nonnil in H.
Qed.

(** [str(n)] is never the empty string. *)
Lemma str_int_truthy (n : Z) : Py.truthy_str (Py.str_int n) = true.
Proof.
  unfold Py.truthy_str, Py.str_int.
  destruct (NilZero.string_of_int (Z.to_int n)) eqn:E; [|reflexivity].
  exfalso.
  assert (H : NilZero.int_of_string (NilZero.string_of_int (Z.to_int n)) = None)
    by now rewrite E.
  pose proof (int_of_str_str_int n) as R. unfold Py.int_of_str, Py.str_int in R.
  rewrite H in R. discriminate R.
Qed.

(** X13: the payload of a credential names its purchase in a form the scan
    accepts as a key: for an instance that has a key, the [purchase_id] of
    [qr_data] is true as a condition and [filter(id=...)] reads it back as
    that key; for an instance that has none yet, it is the text [None],
    which the lookup refuses with a [ValueError]. *)
Theorem payload_names_purchase
    (p : Purchase.t) (t : Ticket.t) (e : Event.t) (u : User.t) (db : DB) :
  exists items j,
    qr_data p t e u = JDict items
    /\ Json.get items "purchase_id" = Some j
    /\ Json.truthy j = true
    /\ to_pk j db
       = match Purchase.id p with
         | Some k => (Ok k, db)
         | None =>
             (Raise (Py.ValueError "Field 'id' expected a number but got 'None'."), db)
         end.
Proof.
  unfold qr_data. eexists _, _. split; [reflexivity|].
  split; [reflexivity|].
  destruct (Purchase.id p) as [k|]; cbn [Py.str_opt_int].
  - split.
    + exact (str_int_truthy k).
    + unfold to_pk. now rewrite int_of_str_str_int.
  - split; reflexivity.
Qed.

(* ================================================================== *)
(** ** From payment to the gate *)
(* ================================================================== *)



Lemma key_eqb_eq (a b : option Z) : key_eqb a b = true <-> a = b.
Proof.
  destruct a as [x|], b as [y|]; cbn; split; try discriminate; try reflexivity.
  - intros H. apply Z.eqb_eq in H. now subst.
  - intros [= ->]. apply Z.eqb_refl.
Qed.

Lemma distinct_NoDup (ids : list (option Z)) : distinct ids = true -> NoDup ids.
Proof.
  induction ids as [|a r IH]; cbn; [constructor|].
  intros H. apply andb_prop in H as [Ha Hr]. constructor; [|auto].
  intros Hin. apply negb_true_iff in Ha.
  assert (Hex : existsb (key_eqb a) r = true).
  { apply existsb_exists. exists a. split; [assumption|]. now apply key_eqb_eq. }
  congruence.
Qed.

(** The condition on the keys of the purchase table can be computed. *)
Lemma purchase_keys_ok_check (rows : list Purchase.t) :
  purchase_keys_okb rows = true -> purchase_keys_ok rows.
Proof.
  unfold purchase_keys_okb. intros H. apply andb_prop in H as [Hd Hk]. split.
  - now apply distinct_NoDup.
  - intros r Hin. rewrite forallb_forall in Hk. specialize (Hk r Hin).
    destruct (Purchase.id r) as [k|]; [|discriminate].
    exists k. split; [reflexivity|].
    apply negb_true_iff, Z.eqb_neq in Hk. exact Hk.
Qed.

Lemma paying_adds_quantity_witness :
  exists p' db',
    step (Sample.at_instant 200) (OpSetStatus 1 "paid") Scenario.db_ordered = (Ok p', db')
    /\ Purchase.status p' = "paid"
    /\ has_credential p' = true
    /\ find_purchase 1 db' = Some p'
    /\ find_ticket (Purchase.ticket Scenario.pending_purchase) db'
       = Some (Ticket.with_quantity_sold
                 (Ticket.quantity_sold Sample.ticket_on_sale
                  + Purchase.quantity Scenario.pending_purchase)
                 Sample.ticket_on_sale).
Proof.
  apply (paying_adds_quantity (Sample.at_instant 200) 1 Scenario.db_ordered
           Scenario.pending_purchase Sample.ticket_on_sale Sample.concert Sample.buyer).
  - apply purchase_keys_ok_check. vm_compute. reflexivity.
  - apply inventory_consistent_check. vm_compute. reflexivity.
  - vm_compute. reflexivity.
  - vm_compute. discriminate.
  - vm_compute. reflexivity.
  - vm_compute. reflexivity.
  - vm_compute. reflexivity.
  - vm_compute. reflexivity.
  - vm_compute. reflexivity.
Defined.

Lemma cancel_releases_quantity_witness :
  exists p' db',
    step (Sample.at_instant 300) (OpCancel 1) Sample.db_paid = (Ok p', db')
    /\ Purchase.status p' = "cancelled"
    /\ find_purchase 1 db' = Some p'
    /\ find_ticket (Purchase.ticket Sample.paid_purchase) db'
       = Some (Ticket.with_quantity_sold
                 (Ticket.quantity_sold (Ticket.with_quantity_sold 2 Sample.ticket_on_sale)
                  - Purchase.quantity Sample.paid_purchase)
                 (Ticket.with_quantity_sold 2 Sample.ticket_on_sale)).
Proof.
  apply (cancel_releases_quantity (Sample.at_instant 300) 1 Sample.db_paid
           Sample.paid_purchase (Ticket.with_quantity_sold 2 Sample.ticket_on_sale)
           Sample.concert).
  - apply purchase_keys_ok_check. vm_compute. reflexivity.
  - apply inventory_consistent_check. vm_compute. reflexivity.
  - vm_compute. reflexivity.
  - vm_compute. reflexivity.
  - vm_compute. reflexivity.
  - vm_compute. reflexivity.
  - vm_compute. reflexivity.
  - vm_compute. reflexivity.
  - vm_compute. reflexivity.
  - vm_compute. reflexivity.
Defined.


(* ================================================================== *)
(** ** More on asking for a refund *)
(* ================================================================== *)

Lemma at_most_one_outstanding_check (db : DB) :
  at_most_one_outstandingb db = true -> at_most_one_outstanding db.
Proof.
  unfold at_most_one_outstandingb, at_most_one_outstanding. intros H pid.
  destruct (existing_refunds (refund_requests db) pid) as [|r l] eqn:E; [cbn; lia|].
  assert (Hin : In r (existing_refunds (refund_requests db) pid))
    by (rewrite E; now left).
  unfold existing_refunds in Hin. apply filter_In in Hin as [Hin Hr].
  apply andb_prop in Hr as [Hp _]. apply Z.eqb_eq in Hp.
  rewrite forallb_forall in H. specialize (H r Hin). rewrite Hp, E in H.
  now apply Nat.leb_le in H.
Qed.

(** When the serializer reports no error, no request blocks a new one for
    the payment. *)
Lemma no_error_no_outstanding (db : DB) (pay : Payment.t)
    (d : RefundRequestCreateRequest) :
  RefundRequestCreateSerializer_errors db pay d = [] ->
  existing_refunds (refund_requests db) (Payment.id pay) = [].
Proof.
  unfold RefundRequestCreateSerializer_errors.
  destruct (RefundRequestCreateSerializer_field_errors d); [|discriminate].
  unfold RefundRequestCreateSerializer_validate.
  destruct (negb (Payment_can_be_refunded pay)); [discriminate|].
  destruct (Dec.gtb (DecimalField_quantize 2 (amount d)) (Payment.amount pay));
    [discriminate|].
  destruct (existing_refunds (refund_requests db) (Payment.id pay));
    [reflexivity|discriminate].
Qed.

(** X15: asking for a refund keeps the requests in order: whatever the answer,
    no payment ends up with two requests that block a new one. *)
Theorem create_keeps_one_outstanding
    (env : Env) (user : Z) (d : RefundRequestCreateRequest) (db : DB)
    (Hone : at_most_one_outstanding db) :
  at_most_one_outstanding (snd (RefundRequestViewSet_create env user d db)).
Proof.
  unfold RefundRequestViewSet_create.
  destruct (payment_id d) as [pid|]; [|exact Hone].
  destruct (pid =? 0); [exact Hone|].
  destruct (find _ (payments db)) as [pay|]; [|exact Hone].
  destruct (RefundRequestCreateSerializer_errors db pay d) eqn:Herr; [|exact Hone].
  apply no_error_no_outstanding in Herr.
  unfold RefundRequest_save. cbn [RefundRequest.id RefundRequest.with_updated_at].
  cbn [snd]. intros pid'.
  cbn [refund_requests with_refund_requests].
  unfold existing_refunds in *. rewrite filter_app, List.length_app.
  destruct (pid' =? Payment.id pay) eqn:E.
  - apply Z.eqb_eq in E. subst pid'. rewrite Herr. cbn [List.length filter].
    match goal with |- context [if ?c then _ else _] => destruct c end; cbn; lia.
  - cbn [filter].
    match goal with
    | |- context [if ?c then _ else _] =>
        replace c with false
          by (symmetry; apply andb_false_iff; left; cbn; now rewrite Z.eqb_sym)
    end.
    cbn [List.length].
    specialize (Hone pid'). unfold existing_refunds in Hone. lia.
Qed.

Lemma create_keeps_one_outstanding_witness :
  at_most_one_outstanding
    (snd (RefundRequestViewSet_create (Sample.at_instant 500) 7
            (mkRefundRequestCreateRequest (Some 1) (mkDecimal 5000 (-2)) "Cannot attend")
            Sample.db_refund_requested)).
Proof.
  apply (create_keeps_one_outstanding (Sample.at_instant 500) 7
           (mkRefundRequestCreateRequest (Some 1) (mkDecimal 5000 (-2)) "Cannot attend")
           Sample.db_refund_requested).
  apply at_most_one_outstanding_check. vm_compute. reflexivity.
Defined.



(* ================================================================== *)
(** ** More on the sale of a ticket *)
(* ================================================================== *)

(** X17: [can_purchase] in full: the ticket is active, the quantity is positive
    and at most what is left of the quantity available, and the instant
    respects each bound of the sale window that is set; a bound that is not
    set does not restrict the sale. *)
Theorem can_purchase_characterised (env : Env) (t : Ticket.t) (quantity : Z) :
  Ticket_can_purchase env t quantity = true
  <-> (Ticket.is_active t = true
       /\ 0 < quantity <= Ticket.quantity_available t - Ticket.quantity_sold t
       /\ (forall s, Ticket.sale_start_datetime t = Some s -> s <= now env)
       /\ (forall e, Ticket.sale_end_datetime t = Some e -> now env <= e)).
Proof.
  unfold Ticket_can_purchase, Ticket_is_available_for_sale, Ticket_is_sold_out,
    Ticket_quantity_remaining.
  split.
  - intros H.
    apply andb_prop in H as [H Hq]. apply andb_prop in H as [Hav Hle].
    apply Z.ltb_lt in Hq. apply Z.leb_le in Hle.
    destruct (Ticket.is_active t); [|discriminate].
    cbn [negb orb] in Hav.
    destruct (Z.max 0 (Ticket.quantity_available t - Ticket.quantity_sold t) =? 0)
      eqn:Hso; [discriminate|].
    split; [reflexivity|]. split; [lia|]. split.
    + intros s Hs. rewrite Hs in Hav.
      destruct (now env <? s) eqn:E; [discriminate|]. now apply Z.ltb_ge in E.
    + intros e He. rewrite He in Hav.
      destruct (match Ticket.sale_start_datetime t with
                | Some s => now env <? s
                | None => false
                end); [discriminate|].
      destruct (e <? now env) eqn:E; [discriminate|]. now apply Z.ltb_ge in E.
  - intros (Hact & [Hq Hle] & Hs & He).
    rewrite Hact. cbn [negb orb].
    assert (Hso : (Z.max 0 (Ticket.quantity_available t - Ticket.quantity_sold t) =? 0)
                  = false) by (apply Z.eqb_neq; lia).
    rewrite Hso.
    assert (Hstart : match Ticket.sale_start_datetime t with
                     | Some s => now env <? s
                     | None => false
                     end = false).
    { destruct (Ticket.sale_start_datetime t) as [s|]; [|reflexivity].
      apply Z.ltb_ge. now apply Hs. }
    assert (Hend : match Ticket.sale_end_datetime t with
                   | Some e => e <? now env
                   | None => false
                   end = false).
    { destruct (Ticket.sale_end_datetime t) as [e|]; [|reflexivity].
      apply Z.ltb_ge. now apply He. }
    rewrite Hstart, Hend. cbn [andb].
    apply andb_true_intro. split; [apply Z.leb_le | apply Z.ltb_lt]; lia.
Qed.

(* ================================================================== *)
(** ** References *)
(* ================================================================== *)

(** The reference of an instance that had none is the one generated at the
    save. *)
Lemma Purchase_save_new_reference (env : Env) (p p' : Purchase.t) (db db' : DB) :
  Py.truthy_str (Purchase.purchase_reference p) = false ->
  Purchase_save env p db = (Ok p', db') ->
  Purchase.purchase_reference p' = Purchase_generate_purchase_reference env.
Proof.
  intros Href Hsave.
  unfold Purchase_save in Hsave. rewrite Href in Hsave. cbn [negb] in Hsave.
  cbv iota in Hsave.
  set (p2 := Purchase.with_total_amount _ _) in Hsave.
  assert (H2 : Purchase.purchase_reference p2 = Purchase_generate_purchase_reference env)
    by reflexivity.
  unfold bind at 1 in Hsave.
  assert (Hgen : exists p3,
            (if (Purchase.status p2 =? "paid")%string
                && negb (Py.truthy_str (Purchase.qr_code p2))
             then Purchase_generate_qr_code p2 else ret p2) db = (Ok p3, db)
            /\ Purchase.purchase_reference p3 = Purchase.purchase_reference p2).
  { destruct ((Purchase.status p2 =? "paid")%string
              && negb (Py.truthy_str (Purchase.qr_code p2))).
    - destruct (Purchase_generate_qr_code_spec p2 db)
        as [(e & He & _)|(p3 & Hg & _ & _ & _ & _ & _ & _ & _ & Hr & _)].
      + rewrite He in Hsave. discriminate.
      + exists p3. auto.
    - exists p2. split; reflexivity. }
  destruct Hgen as (p3 & Hgen & H3). rewrite Hgen in Hsave.
  match type of Hsave with
  | context [Purchase_Model_save env ?x] => set (p4 := x) in Hsave
  end.
  assert (H4 : Purchase.purchase_reference p4 = Purchase.purchase_reference p3).
  { subst p4.
    match goal with |- context [if ?c then _ else _] => destruct c end; reflexivity. }
  unfold bind at 1 in Hsave.
  destruct (Purchase_Model_save_spec env p4 db)
    as [(_ & e' & Hm & _)|(_ & q & k & rows' & Hm & Jid & Jpk & Jb & Jw)];
    rewrite Hm in Hsave; [discriminate|].
  unfold business in Jb. injection Jb as _ _ _ _ _ _ _ _ Jref _.
  assert (Hq : q = p').
  { rewrite Jid in Hsave. destruct (negb (k =? 0)).
    - unfold bind in Hsave.
      destruct (Purchase_update_ticket_quantity q (with_purchases rows' db))
        as [[[]|x] d]; [|discriminate].
      unfold ret in Hsave. congruence.
    - unfold ret in Hsave. congruence. }
  subst q. congruence.
Qed.

(** X18: a reference that is drawn twice is not drawn again: when an order was
    stored under a generated reference and a later order draws the same
    eight characters, the later order raises [IntegrityError] and nothing
    is written. *)
Theorem reference_collision_raises
    (env env' : Env) (ticket user quantity : Z) (unit_price : Decimal)
    (payment_method : string) (ticket' user' quantity' : Z) (unit_price' : Decimal)
    (payment_method' : string) (db db' : DB) (p' : Purchase.t)
    (Hfirst : PurchaseCreateSerializer_create env ticket user quantity unit_price
                payment_method db = (Ok p', db'))
    (Hsame : Purchase_generate_purchase_reference env'
             = Purchase_generate_purchase_reference env) :
  PurchaseCreateSerializer_create env' ticket' user' quantity' unit_price'
    payment_method' db'
  = (Raise (Py.IntegrityError "purchases.purchase_reference"), db').
Proof.
  unfold PurchaseCreateSerializer_create in Hfirst.
  assert (Href : Purchase.purchase_reference p'
                 = Purchase_generate_purchase_reference env).
  { eapply Purchase_save_new_reference; [|exact Hfirst]. reflexivity. }
  destruct (Purchase_save_ok_inv _ _ _ _ _ Hfirst) as (k & _ & _ & _ & _ & Hf).
  destruct (find_purchase_id _ _ _ Hf) as [_ Hin].
  remember (PurchaseCreateSerializer_create env' ticket' user' quantity' unit_price'
              payment_method' db') as res eqn:Hres.
  unfold PurchaseCreateSerializer_create, Purchase_save in Hres.
  change (negb (Py.truthy_str (Purchase.purchase_reference
            (Purchase.mk None ticket' user' quantity' unit_price'
               (Some (Dec.mul_int unit_price' quantity')) "pending" EmptyString
               EmptyString EmptyString payment_method' EmptyString None None None))))
    with true in Hres.
  cbv iota in Hres.
  set (p2 := Purchase.with_total_amount _ _) in Hres.
  assert (Hskip : (Purchase.status p2 =? "paid")%string
                  && negb (Py.truthy_str (Purchase.qr_code p2)) = false) by reflexivity.
  rewrite Hskip in Hres. unfold bind at 1, ret at 1 in Hres. cbv beta iota in Hres.
  assert (Hunpaid : (Purchase.status p2 =? "paid")%string
                    && match Purchase.paid_at p2 with Some _ => false | None => true end
                    = false) by reflexivity.
  rewrite Hunpaid in Hres.
  assert (Htaken : reference_taken (purchases db') p2 = true).
  { unfold reference_taken. apply existsb_exists. exists p'. split; [assumption|].
    subst p2.
    cbn [Purchase.purchase_reference Purchase.with_total_amount
           Purchase.with_purchase_reference Purchase.id].
    rewrite Href, Hsame, String.eqb_refl. reflexivity. }
  unfold bind at 1, Purchase_Model_save in Hres. rewrite Htaken in Hres.
  exact Hres.
Qed.

(* ================================================================== *)
(** ** The phases of an event *)
(* ================================================================== *)

(** X19: an event that passes [clean] is, at every instant, in exactly one of
    its three phases: upcoming, ongoing or past. *)
Theorem event_phase_exclusive (env : Env) (e : Event.t)
    (Hclean : Event_clean e = None) :
  (Event_is_upcoming env e = true /\ Event_is_ongoing env e = false
   /\ Event_is_past env e = false)
  \/ (Event_is_upcoming env e = false /\ Event_is_ongoing env e = true
      /\ Event_is_past env e = false)
  \/ (Event_is_upcoming env e = false /\ Event_is_ongoing env e = false
      /\ Event_is_past env e = true).
Proof.
  unfold Event_clean in Hclean.
  destruct (Event.end_datetime e <=? Event.start_datetime e) eqn:Hle; [discriminate|].
  apply Z.leb_gt in Hle.
  unfold Event_is_upcoming, Event_is_ongoing, Event_is_past.
  destruct (now env <? Event.start_datetime e) eqn:Hu.
  - left. apply Z.ltb_lt in Hu. split; [reflexivity|]. split.
    + apply andb_false_iff. left. apply Z.leb_gt. lia.
    + apply Z.ltb_ge. lia.
  - right. apply Z.ltb_ge in Hu.
    destruct (Event.end_datetime e <? now env) eqn:Hp.
    + right. apply Z.ltb_lt in Hp. split; [reflexivity|]. split; [|reflexivity].
      apply andb_false_iff. right. apply Z.leb_gt. lia.
    + left. apply Z.ltb_ge in Hp. split; [reflexivity|]. split; [|reflexivity].
      apply andb_true_intro. split; apply Z.leb_le; lia.
Qed.

Lemma event_phase_exclusive_witness :
  (Event_is_upcoming Scenario.gate Sample.concert = true
   /\ Event_is_ongoing Scenario.gate Sample.concert = false
   /\ Event_is_past Scenario.gate Sample.concert = false)
  \/ (Event_is_upcoming Scenario.gate Sample.concert = false
      /\ Event_is_ongoing Scenario.gate Sample.concert = true
      /\ Event_is_past Scenario.gate Sample.concert = false)
  \/ (Event_is_upcoming Scenario.gate Sample.concert = false
      /\ Event_is_ongoing Scenario.gate Sample.concert = false
      /\ Event_is_past Scenario.gate Sample.concert = true).
Proof.
  apply (event_phase_exclusive Scenario.gate Sample.concert).
  vm_compute. reflexivity.
Defined.

(* ================================================================== *)
(** ** The sales of an event *)
(* ================================================================== *)

Lemma paid_quantity_cons (a : Purchase.t) (rows : list Purchase.t) (T : Z) :
  paid_quantity (a :: rows) T
  = (if Purchase.ticket a =? T then sold_units a else 0) + paid_quantity rows T.
Proof.
  unfold paid_quantity, paid_purchases, sold_units. cbn [filter].
  destruct (Purchase.ticket a =? T); cbn [andb]; [|lia].
  destruct (Purchase.status a =? "paid")%string; cbn [map fold_right]; lia.
Qed.

Lemma sum_paid_quantity_cons (p : Purchase.t) (rows : list Purchase.t)
    (ts : list Ticket.t) :
  fold_right Z.add 0 (map (fun t => paid_quantity (p :: rows) (Ticket.id t)) ts)
  = fold_right Z.add 0
      (map (fun t => if Purchase.ticket p =? Ticket.id t then sold_units p else 0) ts)
    + fold_right Z.add 0 (map (fun t => paid_quantity rows (Ticket.id t)) ts).
Proof.
  induction ts as [|t l IHl]; [reflexivity|].
  cbn [map fold_right]. rewrite IHl, paid_quantity_cons. lia.
Qed.

(** Among tickets with pairwise different keys, the units of a purchase are
    counted once, for the ticket it names. *)
Lemma counted_once (E k q : Z) (ts : list Ticket.t) :
  NoDup (map Ticket.id ts) ->
  fold_right Z.add 0
    (map (fun t => if k =? Ticket.id t then q else 0)
         (filter (fun t => Ticket.event t =? E) ts))
  = match find (fun t => Ticket.id t =? k) ts with
    | Some t => if Ticket.event t =? E then q else 0
    | None => 0
    end.
Proof.
  induction ts as [|a ts IH]; intros Hnd; [reflexivity|].
  inversion Hnd as [|x l Hnotin Hnd']; subst.
  cbn [find filter].
  destruct (Ticket.id a =? k) eqn:Ha.
  - apply Z.eqb_eq in Ha.
    assert (Hrest : fold_right Z.add 0
              (map (fun t => if k =? Ticket.id t then q else 0)
                   (filter (fun t => Ticket.event t =? E) ts)) = 0).
    { rewrite (IH Hnd').
      destruct (find (fun t => Ticket.id t =? k) ts) as [b|] eqn:Hb; [|reflexivity].
      exfalso. apply find_some in Hb as [Hin Hid]. apply Z.eqb_eq in Hid.
      apply Hnotin. rewrite Ha, <- Hid. now apply in_map. }
    destruct (Ticket.event a =? E); cbn [map fold_right].
    + rewrite Hrest, Ha, Z.eqb_refl. lia.
    + exact Hrest.
  - rewrite <- (IH Hnd').
    destruct (Ticket.event a =? E); cbn [map fold_right]; [|reflexivity].
    rewrite Z.eqb_sym, Ha. lia.
Qed.

(** X20: [Event.total_tickets_sold] agrees with the counters of the tickets:
    when the keys of the tickets are pairwise different and every counter
    carries the sum of its paid purchases, the number the event reports is
    the sum of [quantity_sold] over its tickets. *)
Theorem total_tickets_sold_is_sum_of_counters (e : Event.t) (db : DB)
    (Hkeys : NoDup (map Ticket.id (tickets db)))
    (Hinv : inventory_consistent db) :
  Event_total_tickets_sold e db
  = fold_right Z.add 0 (map Ticket.quantity_sold (tickets_of (Event.id e) db)).
Proof.
  unfold Event_total_tickets_sold. rewrite or_0_Sum.
  assert (Hcount : fold_right Z.add 0
                     (map Ticket.quantity_sold (tickets_of (Event.id e) db))
                   = fold_right Z.add 0
                       (map (fun t => paid_quantity (purchases db) (Ticket.id t))
                            (tickets_of (Event.id e) db))).
  { f_equal. apply map_ext_in. intros t Ht. apply Hinv.
    unfold tickets_of in Ht. now apply filter_In in Ht as [Ht _]. }
  rewrite Hcount. clear Hcount Hinv.
  unfold tickets_of, find_ticket.
  induction (purchases db) as [|p rows IH].
  - cbn [filter map fold_right].
    induction (filter _ (tickets db)) as [|t l IHl]; [reflexivity|].
    cbn [map fold_right]. rewrite <- IHl. reflexivity.
  - rewrite sum_paid_quantity_cons, <- IH, (counted_once _ _ _ _ Hkeys). clear IH.
    cbn [filter]. unfold sold_units.
    destruct (find (fun t => Ticket.id t =? Purchase.ticket p) (tickets db)) as [t|];
      [|reflexivity].
    destruct (Ticket.event t =? Event.id e); cbn [andb]; [|reflexivity].
    destruct (Purchase.status p =? "paid")%string; reflexivity.
Qed.

(** That the keys of the tickets are pairwise different can be computed. *)
Lemma ticket_keys_check (ts : list Ticket.t) :
  distinct (map (fun t => Some (Ticket.id t)) ts) = true ->
  NoDup (map Ticket.id ts).
Proof.
  intros H. apply distinct_NoDup in H.
  apply (NoDup_map_inv Some). now rewrite map_map.
Qed.

Lemma total_tickets_sold_is_sum_of_counters_witness :
  Event_total_tickets_sold Sample.concert Sample.db_paid
  = fold_right Z.add 0
      (map Ticket.quantity_sold (tickets_of (Event.id Sample.concert) Sample.db_paid)).
Proof.
  apply (total_tickets_sold_is_sum_of_counters Sample.concert Sample.db_paid).
  - apply ticket_keys_check. vm_compute. reflexivity.
  - apply inventory_consistent_check. vm_compute. reflexivity.
Defined.

(* ================================================================== *)
(** ** What the ticket serializer accepts *)
(* ================================================================== *)

(** X21: a quantity the serializer accepts for a ticket leaves no deficit: on a
    ticket that carries it, with the units already sold, what remains is the
    plain difference, and the ticket is sold out exactly when the accepted
    quantity is the number sold. *)
Theorem accepted_quantity_is_exact (t t' : Ticket.t) (value : Z)
    (Hok : TicketCreateUpdateSerializer_validate_quantity_available (Some t) value = [])
    (Hvalue : Ticket.quantity_available t' = value)
    (Hsold : Ticket.quantity_sold t' = Ticket.quantity_sold t) :
  1 <= value
  /\ Ticket_quantity_remaining t' = value - Ticket.quantity_sold t
  /\ (Ticket_is_sold_out t' = true <-> value = Ticket.quantity_sold t).
Proof.
  unfold TicketCreateUpdateSerializer_validate_quantity_available in Hok.
  destruct (value <? 1) eqn:H1; [discriminate|].
  destruct (value <? Ticket.quantity_sold t) eqn:H2; [discriminate|].
  apply Z.ltb_ge in H1. apply Z.ltb_ge in H2.
  unfold Ticket_is_sold_out, Ticket_quantity_remaining. rewrite Hvalue, Hsold.
  split; [assumption|]. split; [lia|].
  rewrite Z.eqb_eq. lia.
Qed.

Lemma accepted_quantity_is_exact_witness :
  1 <= 3
  /\ Ticket_quantity_remaining
       (Ticket.mk 3 "VIP" Sample.price 3 2 1 true (Some 10) (Some 20))
     = 3 - Ticket.quantity_sold (Ticket.with_quantity_sold 2 Sample.ticket_on_sale)
  /\ (Ticket_is_sold_out
        (Ticket.mk 3 "VIP" Sample.price 3 2 1 true (Some 10) (Some 20)) = true
      <-> 3 = Ticket.quantity_sold (Ticket.with_quantity_sold 2 Sample.ticket_on_sale)).
Proof.
  apply (accepted_quantity_is_exact
           (Ticket.with_quantity_sold 2 Sample.ticket_on_sale)
           (Ticket.mk 3 "VIP" Sample.price 3 2 1 true (Some 10) (Some 20)) 3);
    reflexivity.
Defined.

(** X22: a sale window the serializer accepts is open: a ticket that carries
    it, is active and is not sold out is available for sale at every instant
    from the start to the end of the window, both included, and the window
    holds more than one instant. *)
Theorem accepted_window_is_open (t' : Ticket.t) (s e : Z)
    (Hok : TicketCreateUpdateSerializer_validate (Some s) (Some e) = [])
    (Hstart : Ticket.sale_start_datetime t' = Some s)
    (Hend : Ticket.sale_end_datetime t' = Some e)
    (Hactive : Ticket.is_active t' = true)
    (Hleft : Ticket_is_sold_out t' = false) :
  s < e
  /\ forall env, s <= now env <= e -> Ticket_is_available_for_sale env t' = true.
Proof.
  unfold TicketCreateUpdateSerializer_validate in Hok.
  destruct (e <=? s) eqn:H; [discriminate|]. apply Z.leb_gt in H.
  split; [assumption|]. intros env [H1 H2].
  unfold Ticket_is_available_for_sale. rewrite Hactive, Hleft, Hstart, Hend.
  cbn [negb orb].
  apply Z.ltb_ge in H1. apply Z.ltb_ge in H2. now rewrite H1, H2.
Qed.

Lemma accepted_window_is_open_witness :
  10 < 20
  /\ forall env, 10 <= now env <= 20 ->
       Ticket_is_available_for_sale env Sample.ticket_on_sale = true.
Proof.
  apply (accepted_window_is_open Sample.ticket_on_sale 10 20); reflexivity.
Defined.

Lemma reference_collision_raises_witness :
  PurchaseCreateSerializer_create (Sample.at_instant 250) 3 9 1 Sample.price
    "mobile_money" Scenario.db_ordered
  = (Raise (Py.IntegrityError "purchases.purchase_reference"), Scenario.db_ordered).
Proof.
  apply (reference_collision_raises (Sample.at_instant 100) (Sample.at_instant 250)
           3 7 2 Sample.price "card" 3 9 1 Sample.price "mobile_money"
           Sample.db0 Scenario.db_ordered Scenario.pending_purchase);
    vm_compute; reflexivity.
Defined.

(* ================================================================== *)
(** ** References and payment stamps *)
(* ================================================================== *)

(** What a save writes into the purchase table, whatever it returns or
    raises afterwards: nothing, or one row that carries a reference and the
    stamp of the payment. *)
Lemma Purchase_save_written (env : Env) (p : Purchase.t) (db : DB) :
  snd (Purchase_save env p db) = db
  \/ exists p' k,
       Purchase.id p' = Some k
       /\ (Purchase.id p = None
            /\ existsb (fun r => has_pk k (Purchase.id r)) (purchases db) = false
           \/ Purchase.id p = Some k)
       /\ row_written k p' (purchases db) (purchases (snd (Purchase_save env p db)))
       /\ Py.truthy_str (Purchase.purchase_reference p') = true
       /\ Purchase.paid_at p' = stamped env p.
Proof.
  remember (Purchase_save env p db) as res eqn:Hres.
  unfold Purchase_save in Hres.
  set (p1 := if negb (Py.truthy_str (Purchase.purchase_reference p))
             then Purchase.with_purchase_reference
                    (Purchase_generate_purchase_reference env) p
             else p) in Hres.
  set (p2 := Purchase.with_total_amount
               (Some (Dec.mul_int (Purchase.unit_price p1) (Purchase.quantity p1))) p1)
    in Hres.
  assert (H2 : Purchase.id p2 = Purchase.id p
               /\ Purchase.status p2 = Purchase.status p
               /\ Purchase.paid_at p2 = Purchase.paid_at p
               /\ Py.truthy_str (Purchase.purchase_reference p2) = true).
  { subst p2 p1. destruct (Py.truthy_str (Purchase.purchase_reference p)) eqn:E;
      cbn [negb]; cbv iota; repeat split; try assumption; try reflexivity. }
  destruct H2 as (Hid2 & Hst2 & Hpa2 & Href2).
  assert (Hgen : (exists e,
             (if (Purchase.status p2 =? "paid")%string
                 && negb (Py.truthy_str (Purchase.qr_code p2))
              then Purchase_generate_qr_code p2 else ret p2) db = (Raise e, db))
          \/ exists p3,
             (if (Purchase.status p2 =? "paid")%string
                 && negb (Py.truthy_str (Purchase.qr_code p2))
              then Purchase_generate_qr_code p2 else ret p2) db = (Ok p3, db)
             /\ Purchase.id p3 = Purchase.id p
             /\ Purchase.status p3 = Purchase.status p
             /\ Purchase.paid_at p3 = Purchase.paid_at p
             /\ Py.truthy_str (Purchase.purchase_reference p3) = true).
  { destruct ((Purchase.status p2 =? "paid")%string
              && negb (Py.truthy_str (Purchase.qr_code p2))).
    - destruct (Purchase_generate_qr_code_spec p2 db)
        as [(e & He & _)|(p3 & He & F1 & _ & _ & _ & _ & _ & F7 & F8 & F9 & _)].
      + left. eauto.
      + right. exists p3. split; [assumption|]. repeat split; congruence.
    - right. exists p2. split; [reflexivity|]. auto. }
  unfold bind at 1 in Hres.
  destruct Hgen as [(e & He)|(p3 & He & Gid & Gst & Gpa & Gref)];
    rewrite He in Hres; [left; now rewrite Hres|].
  set (p4 := if (Purchase.status p3 =? "paid")%string
                && match Purchase.paid_at p3 with Some _ => false | None => true end
             then Purchase.with_paid_at (Some (now env)) p3 else p3) in Hres.
  assert (H4 : Purchase.id p4 = Purchase.id p
               /\ Purchase.purchase_reference p4 = Purchase.purchase_reference p3
               /\ Purchase.paid_at p4 = stamped env p).
  { subst p4. unfold stamped. rewrite Gst, Gpa.
    destruct (Purchase.paid_at p) as [x|] eqn:Hx.
    - rewrite andb_false_r. auto.
    - rewrite andb_true_r.
      destruct (Purchase.status p =? "paid")%string; cbn; auto. }
  destruct H4 as (Iid & Iref & Ipa).
  unfold bind at 1 in Hres.
  destruct (Purchase_Model_save_spec env p4 db)
    as [[_ (e & Hm & _)]|(_ & p' & k & rows' & Hm & Jid & Jpk & Jb & Jw)];
    rewrite Hm in Hres; [left; now rewrite Hres|].
  unfold business in Jb. injection Jb as _ _ _ _ _ _ _ _ Jref Jpa.
  assert (Hrows : purchases (snd res) = rows').
  { rewrite Jid in Hres. destruct (negb (k =? 0)).
    - unfold bind in Hres.
      destruct (Purchase_update_ticket_quantity_spec p' (with_purchases rows' db))
        as [[_ Hu]|(t & _ & Hu)]; rewrite Hu in Hres; now rewrite Hres.
    - now rewrite Hres. }
  right. exists p', k. split; [assumption|].
  split.
  { rewrite Iid in Jpk. destruct Jpk as [(Hn & _ & Hf)|Hs]; auto. }
  split; [now rewrite Hrows|].
  split; congruence.
Qed.

Lemma step_keeps_paid_at (env : Env) (op : Op) (db : DB) (k0 x : Z) (q : Purchase.t) :
  find_purchase k0 db = Some q -> Purchase.paid_at q = Some x ->
  exists q', find_purchase k0 (snd (step env op db)) = Some q'
             /\ Purchase.paid_at q' = Some x.
Proof.
  intros Hq Hx.
  destruct (step_db env op db) as [->|(p & -> & Hp)]; [eauto|].
  destruct (Purchase_save_written env p db)
    as [->|(p' & k & Hid & Hpk & Hw & _ & Hpa)]; [eauto|].
  unfold find_purchase at 1.
  destruct (Z.eq_dec k0 k) as [->|Hne].
  - rewrite (find_row_written k p' _ _ Hid Hw). exists p'. split; [reflexivity|].
    destruct Hpk as [(_ & Hfresh)|Hsame].
    + apply find_existsb in Hq. unfold find_purchase in Hq. congruence.
    + destruct Hp as [Hnone|(k1 & p0 & s & Hp0 & ->)]; [congruence|].
      cbn in Hsame. destruct (find_purchase_id _ _ _ Hp0) as [Hid0 _].
      assert (k1 = k) by congruence. subst k1.
      assert (p0 = q) by congruence. subst p0.
      rewrite Hpa. unfold stamped. cbn [Purchase.paid_at Purchase.with_status].
      now rewrite Hx.
  - rewrite (find_other_row_written k k0 p' _ _ Hid Hne Hw). eauto.
Qed.

(** X23: the stamp of the payment is set once: along every history of purchase
    requests, a stored purchase that carries [paid_at] keeps it, also when
    it is cancelled or marked as paid again. *)
Theorem paid_at_kept_along_history
    (history : list (Env * Op)) (db : DB) (k x : Z) (p : Purchase.t)
    (Hp : find_purchase k db = Some p)
    (Hx : Purchase.paid_at p = Some x) :
  exists p', find_purchase k (run history db) = Some p'
             /\ Purchase.paid_at p' = Some x.
Proof.
  revert db p Hp Hx.
  induction history as [|[env op] rest IH]; intros db p Hp Hx; cbn [run]; [eauto|].
  destruct (step_keeps_paid_at env op db k x p Hp Hx) as (q & Hq & Hqx).
  exact (IH _ q Hq Hqx).
Qed.

Lemma paid_at_kept_along_history_witness :
  exists p',
    find_purchase 1
      (run [(Sample.at_instant 300, OpCancel 1); (Sample.at_instant 350, OpSetStatus 1 "paid")]
           Sample.db_paid) = Some p'
    /\ Purchase.paid_at p' = Some 200.
Proof.
  apply (paid_at_kept_along_history
           [(Sample.at_instant 300, OpCancel 1); (Sample.at_instant 350, OpSetStatus 1 "paid")]
           Sample.db_paid 1 200 Sample.paid_purchase);
    vm_compute; reflexivity.
Defined.

(** X24: along every history of purchase requests every stored purchase carries
    a reference, provided the purchases stored at the start do. *)
Theorem references_present_along_history
    (history : list (Env * Op)) (db : DB)
    (Hrefs : references_present db) :
  references_present (run history db).
Proof.
  revert db Hrefs.
  induction history as [|[env op] rest IH]; intros db Hrefs; cbn [run]; [assumption|].
  apply IH.
  destruct (step_db env op db) as [->|(p & -> & _)]; [assumption|].
  destruct (Purchase_save_written env p db)
    as [->|(p' & k & Hid & Hpk & Hw & Href & _)]; [assumption|].
  intros r Hin.
  destruct (in_row_written k p' r _ _ Hw Hin) as [->|Hold]; [assumption|].
  now apply Hrefs.
Qed.

(** That every stored purchase carries a reference can be computed. *)
Lemma references_present_check (db : DB) :
  forallb (fun r => Py.truthy_str (Purchase.purchase_reference r)) (purchases db) = true ->
  references_present db.
Proof.
  intros H r Hin. rewrite forallb_forall in H. now apply H.
Qed.

Lemma references_present_along_history_witness :
  references_present (run [(Sample.at_instant 300, OpCancel 1)] Sample.db_paid).
Proof.
  apply (references_present_along_history
           [(Sample.at_instant 300, OpCancel 1)] Sample.db_paid).
  apply references_present_check. vm_compute. reflexivity.
Defined.

(* ================================================================== *)
(** ** Check-in *)
(* ================================================================== *)

(** X25: an attendee is checked in once: the first check-in marks the
    attendee and stamps the time of the check-in, and a later one changes
    neither the instance nor the table, so the time of the first check-in
    is the one that is kept. *)
Theorem check_in_keeps_first_time
    (env env' : Env) (a : Attendee.t) (rows : list Attendee.t) :
  Attendee.checked_in (fst (Attendee_check_in env a rows)) = true
  /\ (Attendee.checked_in a = false ->
      Attendee.check_in_datetime (fst (Attendee_check_in env a rows)) = Some (now env))
  /\ Attendee_check_in env' (fst (Attendee_check_in env a rows))
       (snd (Attendee_check_in env a rows))
     = Attendee_check_in env a rows.
Proof.
  unfold Attendee_check_in.
  destruct (Attendee.checked_in a) eqn:Hc; cbn [negb fst snd Attendee.checked_in].
  - rewrite Hc. cbn [negb]. split; [reflexivity|]. split; [discriminate|reflexivity].
  - repeat split.
Qed.
